(** * Sonic-Brief backend: token resolution, caches and user store

    A shallow embedding of the authentication core of the backend
    ([app/routers/auth.py], [app/core/dependencies.py],
    [app/core/config.py], [app/services/entra_auth.py],
    [app/services/cached_user_service.py],
    [app/services/user_management_service.py]).

    Python dictionaries are finite maps from strings to Python values;
    dictionaries that the code shares and mutates in place (the records
    held by the caches and returned to callers) live in an explicit heap
    and are passed by reference.  Stateful code is written in a state and
    exception monad over one [world] record.  The clock ([time.time()],
    [datetime.now()]) is an integer number of seconds handed to each
    entry point. *)

From stdpp Require Import gmap strings list fin_maps pretty sorting.
From Stdlib Require Import ZArith String Ascii Lia.

Set Warnings "-register-all".
Open Scope string_scope.
Open Scope Z_scope.

(** ** Python values *)

Module Py.

Inductive pyval :=
| VNone
| VBool (b : bool)
| VInt (z : Z)
| VStr (s : string)
| VList (l : list pyval).

(** A [dict] with string keys. *)
Abbreviation dict := (gmap string pyval).

(** Python truthiness ([bool(v)]). *)
Definition truthy (v : pyval) : bool :=
  match v with
  | VNone => false
  | VBool b => b
  | VInt z => negb (z =? 0)
  | VStr s => negb (String.eqb s "")
  | VList l => match l with [] => false | _ => true end
  end.

(** [a or b] *)
Definition py_or (a b : pyval) : pyval := if truthy a then a else b.

(** [d.get(k)] and [d.get(k, dflt)] *)
Definition get (d : dict) (k : string) : pyval := default VNone (d !! k).
Definition get_default (d : dict) (k : string) (dflt : pyval) : pyval :=
  default dflt (d !! k).

(** [bool(d)] for a dictionary: non-empty. *)
Definition dict_truthy (d : dict) : bool := negb (bool_decide (d = ∅)).

Definition isinstance_list (v : pyval) : bool :=
  match v with VList _ => true | _ => false end.

Definition py_len (v : pyval) : Z :=
  match v with
  | VList l => Z.of_nat (List.length l)
  | VStr s => Z.of_nat (String.length s)
  | _ => 0
  end.

(** [str(v)], as used by f-strings.  Strings inside a list are shown
    quoted without escapes. *)
Fixpoint py_repr (v : pyval) : string :=
  match v with
  | VNone => "None"
  | VBool true => "True"
  | VBool false => "False"
  | VInt z => pretty z
  | VStr s => "'" ++ s ++ "'"
  | VList l =>
      "[" ++ (fix go (xs : list pyval) : string :=
                match xs with
                | [] => ""
                | [x] => py_repr x
                | x :: rest => py_repr x ++ ", " ++ go rest
                end) l ++ "]"
  end.

Definition py_str (v : pyval) : string :=
  match v with
  | VStr s => s
  | _ => py_repr v
  end.

(** [str.lower()] on the ASCII letters. *)
Definition lower_ascii (c : ascii) : ascii :=
  let n := nat_of_ascii c in
  if (Nat.leb 65 n && Nat.leb n 90)%bool then ascii_of_nat (n + 32) else c.

Fixpoint lower (s : string) : string :=
  match s with
  | EmptyString => EmptyString
  | String c r => String (lower_ascii c) (lower r)
  end.

(** [str.isspace()] on one ASCII character: 9..13, 28..32. *)
Definition is_space (c : ascii) : bool :=
  let n := nat_of_ascii c in
  ((Nat.leb 9 n && Nat.leb n 13) || (Nat.leb 28 n && Nat.leb n 32))%bool.

Fixpoint lstrip (s : string) : string :=
  match s with
  | EmptyString => EmptyString
  | String c r => if is_space c then lstrip r else s
  end.

Fixpoint rstrip (s : string) : string :=
  match s with
  | EmptyString => EmptyString
  | String c r =>
      match rstrip r with
      | EmptyString => if is_space c then EmptyString else String c EmptyString
      | r' => String c r'
      end
  end.

(** [str.strip()] *)
Definition strip (s : string) : string := rstrip (lstrip s).

(** [needle in haystack] on strings. *)
Fixpoint prefixb (p s : string) : bool :=
  match p, s with
  | EmptyString, _ => true
  | String a p', String b s' => (Ascii.eqb a b && prefixb p' s')%bool
  | _, _ => false
  end.

Fixpoint contains (s needle : string) : bool :=
  (prefixb needle s ||
   match s with
   | EmptyString => false
   | String _ r => contains r needle
   end)%bool.

(** [s[:n]] *)
Fixpoint take_str (n : nat) (s : string) : string :=
  match n, s with
  | S n', String c r => String c (take_str n' r)
  | _, _ => EmptyString
  end.

(** Equality with a string, [v == "..."]. *)
Definition eq_str (v : pyval) (s : string) : bool :=
  match v with VStr t => String.eqb t s | _ => false end.

End Py.
Export Py.

(** ** SHA-256 ([hashlib.sha256(...).hexdigest()]) *)

Module Sha256.

Definition w32 (x : Z) : Z := x mod 4294967296.
Definition rotr (n x : Z) : Z :=
  Z.lor (Z.shiftr x n) (w32 (Z.shiftl x (32 - n))).
Definition ch (x y z : Z) : Z :=
  Z.lxor (Z.land x y) (Z.land (Z.lxor x 4294967295) z).
Definition maj (x y z : Z) : Z :=
  Z.lxor (Z.lxor (Z.land x y) (Z.land x z)) (Z.land y z).
Definition bsig0 x := Z.lxor (Z.lxor (rotr 2 x) (rotr 13 x)) (rotr 22 x).
Definition bsig1 x := Z.lxor (Z.lxor (rotr 6 x) (rotr 11 x)) (rotr 25 x).
Definition ssig0 x := Z.lxor (Z.lxor (rotr 7 x) (rotr 18 x)) (Z.shiftr x 3).
Definition ssig1 x := Z.lxor (Z.lxor (rotr 17 x) (rotr 19 x)) (Z.shiftr x 10).

(** The round constants and the initial hash value, in decimal. *)
Definition K : list Z :=
  [ 1116352408; 1899447441; 3049323471; 3921009573; 961987163; 1508970993;
    2453635748; 2870763221; 3624381080; 310598401; 607225278; 1426881987;
    1925078388; 2162078206; 2614888103; 3248222580; 3835390401; 4022224774;
    264347078; 604807628; 770255983; 1249150122; 1555081692; 1996064986;
    2554220882; 2821834349; 2952996808; 3210313671; 3336571891; 3584528711;
    113926993; 338241895; 666307205; 773529912; 1294757372; 1396182291;
    1695183700; 1986661051; 2177026350; 2456956037; 2730485921; 2820302411;
    3259730800; 3345764771; 3516065817; 3600352804; 4094571909; 275423344;
    430227734; 506948616; 659060556; 883997877; 958139571; 1322822218;
    1537002063; 1747873779; 1955562222; 2024104815; 2227730452; 2361852424;
    2428436474; 2756734187; 3204031479; 3329325298 ].

Definition H0 : list Z :=
  [ 1779033703; 3144134277; 1013904242; 2773480762;
    1359893119; 2600822924; 528734635; 1541459225 ].

Definition bytes_of_string (s : string) : list Z :=
  map (fun c => Z.of_nat (nat_of_ascii c)) (list_ascii_of_string s).

(** Big-endian bytes of a number, [n] of them. *)
Fixpoint be_bytes (n : nat) (x : Z) : list Z :=
  match n with
  | O => []
  | S n' => (Z.shiftr x (8 * Z.of_nat n')) mod 256 :: be_bytes n' x
  end.

Definition pad (msg : list Z) : list Z :=
  let len := Z.of_nat (List.length msg) in
  let zeros := Z.to_nat ((55 - len) mod 64) in
  msg ++ [128] ++ repeat 0 zeros ++ be_bytes 8 (8 * len).

Fixpoint words (fuel : nat) (bs : list Z) : list Z :=
  match fuel, bs with
  | S f, a :: b :: c :: d :: rest =>
      (a * 16777216 + b * 65536 + c * 256 + d) :: words f rest
  | _, _ => []
  end.

Definition nthz (l : list Z) (i : nat) : Z := nth i l 0.

(** The message schedule, most recent word first. *)
Fixpoint schedule (n : nat) (rev_w : list Z) : list Z :=
  match n with
  | O => rev_w
  | S n' =>
      let w := w32 (ssig1 (nthz rev_w 1) + nthz rev_w 6
                    + ssig0 (nthz rev_w 14) + nthz rev_w 15) in
      schedule n' (w :: rev_w)
  end.

Definition round (st : list Z) (kw : Z * Z) : list Z :=
  match st with
  | [a; b; c; d; e; f; g; h] =>
      let t1 := h + bsig1 e + ch e f g + fst kw + snd kw in
      let t2 := bsig0 a + maj a b c in
      [w32 (t1 + t2); a; b; c; w32 (d + t1); e; f; g]
  | _ => st
  end.

Definition compress (h : list Z) (block : list Z) : list Z :=
  let w := rev (schedule 48 (rev block)) in
  let st := fold_left round (combine K w) h in
  map (fun p => w32 (fst p + snd p)) (combine h st).

Fixpoint blocks (fuel : nat) (ws : list Z) (h : list Z) : list Z :=
  match fuel with
  | O => h
  | S f =>
      match ws with
      | [] => h
      | _ => blocks f (drop 16 ws) (compress h (take 16 ws))
      end
  end.

Definition digest (s : string) : list Z :=
  let bs := pad (bytes_of_string s) in
  let ws := words (List.length bs) bs in
  blocks (List.length ws) ws H0.

Definition hex_digit (x : Z) : ascii :=
  ascii_of_nat (Z.to_nat (if x <? 10 then 48 + x else 87 + x)).

Fixpoint hex_word (n : nat) (x : Z) : string :=
  match n with
  | O => EmptyString
  | S n' => String (hex_digit ((Z.shiftr x (4 * Z.of_nat n')) mod 16)) (hex_word n' x)
  end.

Definition hexdigest (s : string) : string :=
  fold_right (fun w acc => hex_word 8 w ++ acc) "" (digest s).

Example hexdigest_abc :
  hexdigest "abc" = "ba7816bf8f01cfea414140de5dae2223b00361a396177a9cb410ff61f20015ad".
Proof. vm_compute. reflexivity. Qed.

Example hexdigest_empty :
  hexdigest "" = "e3b0c44298fc1c149afbf4c8996fb92427ae41e4649b934ca495991b7852b855".
Proof. vm_compute. reflexivity. Qed.

Example hexdigest_two_blocks :
  hexdigest "abcdbcdecdefdefgefghfghighijhijkijkljklmklmnlmnomnopnopq"
  = "248d6a61d20638b8e5c026930c3e6039a33ce45964ff2167f6ecedd419db06c1".
Proof. vm_compute. reflexivity. Qed.

End Sha256.

(** ** Exceptions, the world and the monad *)

(** The Python exceptions that occur in the modelled code. *)
Inductive pyjwt_kind :=
| ExpiredSignatureError
| InvalidAudienceError
| InvalidIssuerError
| OtherPyJWTError.

Inductive exn :=
| HTTPException (status_code : Z) (detail : string)
| ValueError (msg : string)
| TypeError (msg : string)
| AttributeError (msg : string)
| KeyError (key : string)
| JWTError (msg : string)
| PyJWTError (kind : pyjwt_kind) (msg : string)
| RequestException (msg : string)
| CosmosHttpResponseError (status : Z) (msg : string).

(** [str(e)] *)
Definition exn_str (e : exn) : string :=
  match e with
  | HTTPException c d => pretty c ++ ": " ++ d
  | ValueError m | TypeError m | AttributeError m | JWTError m
  | PyJWTError _ m | RequestException m => m
  | KeyError k => "'" ++ k ++ "'"
  | CosmosHttpResponseError c m => "(" ++ pretty c ++ ") " ++ m
  end.

Inductive res (A : Type) :=
| Ok (a : A)
| Raise (e : exn).
Arguments Ok {A} a.
Arguments Raise {A} e.

(** A reference to a dictionary object. *)
Abbreviation loc := nat.

(** One entry of [AzureCachedUserService.user_cache]; [ce_data] is [None]
    when the cached lookup result was [None]. *)
Record cache_entry := CacheEntry {
  ce_data : option loc;
  ce_timestamp : Z;
  ce_ttl : Z
}.

(** One entry of [AuthenticationCache._cache]. *)
Record auth_entry := AuthEntry {
  ae_user_data : loc;
  ae_timestamp : Z
}.

(** [AzureCachedUserService.cache_stats] (the counters). *)
Record stats := Stats {
  hits : nat;
  misses : nat;
  evictions : nat;
  background_refreshes : nat;
  database_queries : nat;
  errors : nat
}.

(** Calls made on the Cosmos container of user documents (ghost trace). *)
Inductive store_op :=
| OpQuery (field value : string)
| OpQueryList
| OpRead (id : string)
| OpCreate
| OpReplace
| OpUpsert.

(** Tasks handed to [asyncio.create_task]. *)
Inductive task :=
| BackgroundRefresh (lookup_type : string) (identifier : pyval) (cache_key : string)
| CleanupLockDelayed (identifier : string).

(** A JWKS document: a dictionary whose ["keys"] entry lists the keys. *)
Abbreviation jwks_doc := (gmap string (list dict)).

Record world := World {
  heap : list dict;                       (* dictionary objects, by reference *)
  store : list dict;                      (* documents of the auth container *)
  store_log : list store_op;              (* container calls, oldest first *)
  user_cache : gmap string cache_entry;   (* AzureCachedUserService.user_cache *)
  cache_stats : stats;
  auth_cache : gmap string auth_entry;    (* AuthenticationCache._cache *)
  jwks_cache : jwks_doc;                  (* EntraAuthService.jwks_cache *)
  jwks_cache_timestamp : Z;
  jwks_fetches : nat;                     (* HTTP GETs sent to the key endpoint *)
  user_creation_locks : gset string;      (* _user_creation_locks *)
  tasks : list task                       (* scheduled, not yet run *)
}.

Definition set_heap (f : list dict -> list dict) (w : world) : world :=
  World (f (heap w)) (store w) (store_log w) (user_cache w) (cache_stats w)
        (auth_cache w) (jwks_cache w) (jwks_cache_timestamp w) (jwks_fetches w)
        (user_creation_locks w) (tasks w).
Definition set_store (f : list dict -> list dict) (w : world) : world :=
  World (heap w) (f (store w)) (store_log w) (user_cache w) (cache_stats w)
        (auth_cache w) (jwks_cache w) (jwks_cache_timestamp w) (jwks_fetches w)
        (user_creation_locks w) (tasks w).
Definition set_store_log (f : list store_op -> list store_op) (w : world) : world :=
  World (heap w) (store w) (f (store_log w)) (user_cache w) (cache_stats w)
        (auth_cache w) (jwks_cache w) (jwks_cache_timestamp w) (jwks_fetches w)
        (user_creation_locks w) (tasks w).
Definition set_user_cache (f : gmap string cache_entry -> gmap string cache_entry)
    (w : world) : world :=
  World (heap w) (store w) (store_log w) (f (user_cache w)) (cache_stats w)
        (auth_cache w) (jwks_cache w) (jwks_cache_timestamp w) (jwks_fetches w)
        (user_creation_locks w) (tasks w).
Definition set_cache_stats (f : stats -> stats) (w : world) : world :=
  World (heap w) (store w) (store_log w) (user_cache w) (f (cache_stats w))
        (auth_cache w) (jwks_cache w) (jwks_cache_timestamp w) (jwks_fetches w)
        (user_creation_locks w) (tasks w).
Definition set_auth_cache (f : gmap string auth_entry -> gmap string auth_entry)
    (w : world) : world :=
  World (heap w) (store w) (store_log w) (user_cache w) (cache_stats w)
        (f (auth_cache w)) (jwks_cache w) (jwks_cache_timestamp w) (jwks_fetches w)
        (user_creation_locks w) (tasks w).
Definition set_jwks (c : jwks_doc) (ts : Z) (w : world) : world :=
  World (heap w) (store w) (store_log w) (user_cache w) (cache_stats w)
        (auth_cache w) c ts (jwks_fetches w)
        (user_creation_locks w) (tasks w).
Definition set_jwks_fetches (f : nat -> nat) (w : world) : world :=
  World (heap w) (store w) (store_log w) (user_cache w) (cache_stats w)
        (auth_cache w) (jwks_cache w) (jwks_cache_timestamp w) (f (jwks_fetches w))
        (user_creation_locks w) (tasks w).
Definition set_locks (f : gset string -> gset string) (w : world) : world :=
  World (heap w) (store w) (store_log w) (user_cache w) (cache_stats w)
        (auth_cache w) (jwks_cache w) (jwks_cache_timestamp w) (jwks_fetches w)
        (f (user_creation_locks w)) (tasks w).
Definition set_tasks (f : list task -> list task) (w : world) : world :=
  World (heap w) (store w) (store_log w) (user_cache w) (cache_stats w)
        (auth_cache w) (jwks_cache w) (jwks_cache_timestamp w) (jwks_fetches w)
        (user_creation_locks w) (f (tasks w)).

(** Computations: a result or an exception, and the world after it.  As in
    Python, what a computation did before it raised stays done. *)
Definition M (A : Type) : Type := world -> res A * world.

Definition ret {A} (a : A) : M A := fun w => (Ok a, w).
Definition raise {A} (e : exn) : M A := fun w => (Raise e, w).
Definition bind {A B} (m : M A) (k : A -> M B) : M B :=
  fun w => match m w with
           | (Ok a, w') => k a w'
           | (Raise e, w') => (Raise e, w')
           end.
(** [try: m except Exception as e: h e] *)
Definition try_except {A} (m : M A) (h : exn -> M A) : M A :=
  fun w => match m w with
           | (Ok a, w') => (Ok a, w')
           | (Raise e, w') => h e w'
           end.
(** [try: m finally: f] *)
Definition try_finally {A} (m : M A) (f : M unit) : M A :=
  fun w => match m w with
           | (r, w') => match f w' with
                        | (Ok _, w'') => (r, w'')
                        | (Raise e, w'') => (Raise e, w'')
                        end
           end.
Definition gets {A} (f : world -> A) : M A := fun w => (Ok (f w), w).
Definition modify (f : world -> world) : M unit := fun w => (Ok tt, f w).

Notation "'let!' x ':=' m 'in' k" := (bind m (fun x => k))
  (at level 10, x pattern, m at level 100, k at level 200).
Notation "m ';;' k" := (bind m (fun _ => k))
  (at level 100, k at level 200, right associativity).

(** *** Dictionary objects *)

(** A new dictionary object. *)
Definition alloc (d : dict) : M loc :=
  fun w => (Ok (List.length (heap w)), set_heap (fun h => (h ++ [d])%list) w).

(** The current contents of an object.  References are only made by
    [alloc], so the error case does not arise. *)
Definition deref (l : loc) : M dict :=
  fun w => match heap w !! l with
           | Some d => (Ok d, w)
           | None => (Raise (KeyError "dangling reference"), w)
           end.

(** [obj[k] = v] *)
Definition setitem (l : loc) (k : string) (v : pyval) : M unit :=
  let! d := deref l in
  modify (set_heap (fun h => <[l := <[k := v]> d]> h)).

(** [obj.setdefault(k, v)] *)
Definition setdefault (l : loc) (k : string) (v : pyval) : M unit :=
  let! d := deref l in
  match d !! k with
  | Some _ => ret tt
  | None => setitem l k v
  end.

(** [obj.get(k)] *)
Definition getitem (l : loc) (k : string) : M pyval :=
  let! d := deref l in ret (get d k).

(** [bool(x)] for [x] an optional dictionary ([None] is false). *)
Definition truthy_obj (o : option loc) : M bool :=
  match o with
  | None => ret false
  | Some l => let! d := deref l in ret (dict_truthy d)
  end.

(** A string method is called on the value: anything but a [str] raises. *)
Definition as_str (v : pyval) : M string :=
  match v with
  | VStr s => ret s
  | _ => raise (AttributeError "object has no attribute of str")
  end.

(** [datetime.now(timezone.utc).isoformat()]: the instant is kept as the
    decimal number of seconds. *)
Definition isoformat (now : Z) : pyval := VStr (pretty now).

(** Equality of two JSON values. *)
Fixpoint pyval_eqb (a b : pyval) : bool :=
  match a, b with
  | VNone, VNone => true
  | VBool x, VBool y => Bool.eqb x y
  | VInt x, VInt y => x =? y
  | VStr x, VStr y => String.eqb x y
  | VList x, VList y =>
      (fix go (xs ys : list pyval) : bool :=
         match xs, ys with
         | [], [] => true
         | x' :: xs', y' :: ys' => (pyval_eqb x' y' && go xs' ys')%bool
         | _, _ => false
         end) x y
  | _, _ => false
  end.

(** ** The Cosmos container of user documents

    The container is reached through the Azure SDK
    ([auth_container.query_items], [read_item], [create_item],
    [replace_item], [upsert_item]).  It is modelled as the list of its
    documents, partitioned by ["id"]: reads and replacements of a missing
    id answer 404, creating an existing id answers 409, a body without an
    id answers 400.  Every call is appended to [store_log].  What the SDK
    returns is a new dictionary each time. *)

Module Container.

Definition doc_id (d : dict) : option string :=
  match d !! "id" with
  | Some (VStr s) => Some s
  | _ => None
  end.

Definition has_id (id : string) (d : dict) : bool :=
  match doc_id d with
  | Some s => String.eqb s id
  | None => false
  end.

Definition log (op : store_op) : M unit :=
  modify (set_store_log (fun l => (l ++ [op])%list)).

(** [c.<field> = @value]; an absent field matches nothing. *)
Definition field_is (field : string) (value : pyval) (d : dict) : bool :=
  match d !! field with
  | Some v => pyval_eqb v value
  | None => false
  end.

(** [SELECT * FROM c WHERE c.type = 'user' AND c.<field> = @value] *)
Definition select_user (field : string) (value : pyval) (docs : list dict)
  : list dict :=
  List.filter (fun d => (field_is "type" (VStr "user") d
                         && field_is field value d)%bool) docs.

Definition query_user (field : string) (value : pyval) : M (list dict) :=
  log (OpQuery field (py_str value));;
  gets (fun w => select_user field value (store w)).

Definition read_item (id : string) : M loc :=
  log (OpRead id);;
  let! docs := gets store in
  match List.find (has_id id) docs with
  | Some d => alloc d
  | None => raise (CosmosHttpResponseError 404 "NotFound")
  end.

Definition replace_doc (id : string) (new : dict) (docs : list dict)
  : list dict :=
  map (fun d => if has_id id d then new else d) docs.

Definition create_item (body : loc) : M loc :=
  log OpCreate;;
  let! d := deref body in
  let! docs := gets store in
  match doc_id d with
  | None => raise (CosmosHttpResponseError 400 "BadRequest")
  | Some id =>
      if existsb (has_id id) docs
      then raise (CosmosHttpResponseError 409 "Conflict")
      else modify (set_store (fun s => (s ++ [d])%list));; alloc d
  end.

Definition replace_item (item body : loc) : M loc :=
  log OpReplace;;
  let! i := deref item in
  let! d := deref body in
  let! docs := gets store in
  match doc_id i with
  | None => raise (CosmosHttpResponseError 400 "BadRequest")
  | Some id =>
      if existsb (has_id id) docs
      then modify (set_store (replace_doc id d));; alloc d
      else raise (CosmosHttpResponseError 404 "NotFound")
  end.

Definition upsert_item (body : loc) : M loc :=
  log OpUpsert;;
  let! d := deref body in
  let! docs := gets store in
  match doc_id d with
  | None => raise (CosmosHttpResponseError 400 "BadRequest")
  | Some id =>
      (if existsb (has_id id) docs
       then modify (set_store (replace_doc id d))
       else modify (set_store (fun s => (s ++ [d])%list)));;
      alloc d
  end.

End Container.

(** ** [CosmosDB] ([app/core/config.py])

    Handlers that only log and raise the same exception again are left
    out. *)

Module CosmosDB.

(** [results[0] if results else None] *)
Definition first_or_none (results : list dict) : M (option loc) :=
  match results with
  | [] => ret None
  | d :: _ => let! l := alloc d in ret (Some l)
  end.

Definition get_user_by_email (email : pyval) : M (option loc) :=
  let! normalized_email :=
    (if truthy email
     then let! s := as_str email in ret (VStr (strip (lower s)))
     else ret email) in
  let! results := Container.query_user "email" normalized_email in
  first_or_none results.

Definition get_user_by_entra_oid (entra_oid : pyval) : M (option loc) :=
  let! results := Container.query_user "entra_oid" entra_oid in
  first_or_none results.

Definition create_user (now : Z) (user_data : loc) : M loc :=
  let! d := deref user_data in
  (match d !! "email" with
   | Some e =>
       if truthy e
       then let! s := as_str e in
            setitem user_data "email" (VStr (strip (lower s)))
       else ret tt
   | None => ret tt
   end);;
  let! email := getitem user_data "email" in
  let! entra_oid := getitem user_data "entra_oid" in
  let! by_email :=
    (if truthy email then get_user_by_email email else ret None) in
  let! found_by_email := truthy_obj by_email in
  match by_email, found_by_email with
  | Some existing_user, true => ret existing_user
  | _, _ =>
      let! by_oid :=
        (if truthy entra_oid then get_user_by_entra_oid entra_oid else ret None) in
      let! found_by_oid := truthy_obj by_oid in
      match by_oid, found_by_oid with
      | Some existing_user, true => ret existing_user
      | _, _ =>
          setitem user_data "type" (VStr "user");;
          let! d := deref user_data in
          setdefault user_data "auth_method"
            (get_default d "auth_method" (VStr "legacy"));;
          setdefault user_data "display_name"
            (py_or (get d "displayName") (get d "email"));;
          setdefault user_data "last_login" (isoformat now);;
          setdefault user_data "is_active" (VBool true);;
          setdefault user_data "created_at" (isoformat now);;
          setdefault user_data "updated_at" (isoformat now);;
          let! created_user := Container.create_item user_data in
          let! c := deref created_user in
          match c !! "id" with
          | Some _ => ret created_user
          | None => raise (KeyError "id")
          end
      end
  end.

(** [update_user(user_id, update_data)]: update the given fields. *)
Definition update_user_fields (now : Z) (user_id : string) (update_data : dict)
  : M loc :=
  let! existing_user := Container.read_item user_id in
  let! d := deref existing_user in
  modify (set_heap (fun h => <[existing_user := update_data ∪ d]> h));;
  setitem existing_user "updated_at" (isoformat now);;
  Container.replace_item existing_user existing_user.

(** [update_user(user_data)]: write the whole document. *)
Definition update_user_data (now : Z) (user_data : loc) : M loc :=
  setitem user_data "updated_at" (isoformat now);;
  let! updated_user := Container.upsert_item user_data in
  let! d := deref user_data in
  match d !! "id" with
  | Some _ => ret updated_user
  | None => raise (KeyError "id")
  end.

End CosmosDB.

(** ** [AzureCachedUserService] ([app/services/cached_user_service.py]) *)

Module AzureCachedUserService.

Definition default_ttl : Z := 900.
Definition max_cache_size : Z := 2000.

(** [_get_cache_key]: the lookup type and the first 16 hex digits of
    the SHA-256 of ["<lookup_type>:<value>"]. *)
Definition _get_cache_key (lookup_type value : string) : string :=
  lookup_type ++ ":" ++ take_str 16 (Sha256.hexdigest (lookup_type ++ ":" ++ value)).

Definition _is_cache_valid (now : Z) (e : cache_entry) : bool :=
  now - ce_timestamp e <? ce_ttl e.

(** [age > ttl * 0.8], in exact arithmetic. *)
Definition _should_background_refresh (now : Z) (e : cache_entry) : bool :=
  8 * ce_ttl e <? 10 * (now - ce_timestamp e).

Definition bump_hits (s : stats) : stats :=
  Stats (S (hits s)) (misses s) (evictions s) (background_refreshes s)
        (database_queries s) (errors s).
Definition bump_misses (s : stats) : stats :=
  Stats (hits s) (S (misses s)) (evictions s) (background_refreshes s)
        (database_queries s) (errors s).
Definition bump_background_refreshes (s : stats) : stats :=
  Stats (hits s) (misses s) (evictions s) (S (background_refreshes s))
        (database_queries s) (errors s).
Definition bump_database_queries (s : stats) : stats :=
  Stats (hits s) (misses s) (evictions s) (background_refreshes s)
        (S (database_queries s)) (errors s).
Definition bump_errors (s : stats) : stats :=
  Stats (hits s) (misses s) (evictions s) (background_refreshes s)
        (database_queries s) (S (errors s)).

Definition create_task (t : task) : M unit :=
  modify (set_tasks (fun ts => (ts ++ [t])%list)).

Definition _fetch_user_by_entra_oid (entra_oid : pyval) : M (option loc) :=
  modify (set_cache_stats bump_database_queries);;
  CosmosDB.get_user_by_entra_oid entra_oid.

Definition _fetch_user_by_email (email : pyval) : M (option loc) :=
  modify (set_cache_stats bump_database_queries);;
  CosmosDB.get_user_by_email email.

(** [CosmosDB] has no [get_user_by_id]: the call raises. *)
Definition _fetch_user_by_id (user_id : pyval) : M (option loc) :=
  modify (set_cache_stats bump_database_queries);;
  raise (AttributeError "'CosmosDB' object has no attribute 'get_user_by_id'").

(** The body shared by the three lookups: serve a valid entry (and
    schedule a refresh when it is old), otherwise fetch and store the
    result, [None] included; a failed fetch gives [None].  [debug] is the
    argument of the log line written on either path. *)
Definition lookup (now : Z) (lookup_type : string) (identifier : pyval)
    (cache_key : string) (debug : M unit) (fetch : M (option loc))
  : M (option loc) :=
  let! cache := gets user_cache in
  let miss :=
    modify (set_cache_stats bump_misses);;
    debug;;
    try_except
      (let! user := fetch in
       modify (set_user_cache
                 (fun c => <[cache_key := CacheEntry user now default_ttl]> c));;
       ret user)
      (fun _ => modify (set_cache_stats bump_errors);; ret None) in
  match cache !! cache_key with
  | Some cache_entry =>
      if _is_cache_valid now cache_entry
      then
        modify (set_cache_stats bump_hits);;
        (if _should_background_refresh now cache_entry
         then create_task (BackgroundRefresh lookup_type identifier cache_key)
         else ret tt);;
        debug;;
        ret (ce_data cache_entry)
      else miss
  | None => miss
  end.

(** [entra_oid[:8]] in the log line: only sequences can be sliced. *)
Definition sliceable (v : pyval) : M unit :=
  match v with
  | VStr _ | VList _ => ret tt
  | _ => raise (TypeError "object is not subscriptable")
  end.

Definition get_user_by_entra_oid (now : Z) (entra_oid : pyval) : M (option loc) :=
  let cache_key := _get_cache_key "entra_oid" (py_str entra_oid) in
  lookup now "entra_oid" entra_oid cache_key (sliceable entra_oid)
         (_fetch_user_by_entra_oid entra_oid).

Definition get_user_by_email (now : Z) (email : pyval) : M (option loc) :=
  let! s := as_str email in
  let cache_key := _get_cache_key "email" (lower s) in
  lookup now "email" email cache_key (ret tt) (_fetch_user_by_email email).

Definition get_user_by_id (now : Z) (user_id : pyval) : M (option loc) :=
  let cache_key := _get_cache_key "user_id" (py_str user_id) in
  lookup now "user_id" user_id cache_key (ret tt) (_fetch_user_by_id user_id).

Definition invalidate_user_cache (identifier : pyval) (lookup_type : string)
  : M unit :=
  let cache_key := _get_cache_key lookup_type (py_str identifier) in
  modify (set_user_cache (fun c => delete cache_key c)).

Definition clear_all_cache : M unit :=
  modify (set_user_cache (fun _ => ∅)).

Definition cache_user (now : Z) (user_data : option loc) : M unit :=
  let! t := truthy_obj user_data in
  match user_data, t with
  | Some u, true =>
      let cache_entry := CacheEntry (Some u) now default_ttl in
      let put k := modify (set_user_cache (fun c => <[k := cache_entry]> c)) in
      let! d := deref u in
      (if truthy (get d "id")
       then put (_get_cache_key "user_id" (py_str (get d "id")))
       else ret tt);;
      (if truthy (get d "email")
       then let! e := as_str (get d "email") in
            put (_get_cache_key "email" (lower e))
       else ret tt);;
      (if truthy (get d "entra_oid")
       then put (_get_cache_key "entra_oid" (py_str (get d "entra_oid")))
       else ret tt)
  | _, _ => ret tt
  end.

(** [_background_refresh_user]: fetch again and replace the entry if it
    is still there; any failure is logged and dropped. *)
Definition _background_refresh_user (now : Z) (lookup_type : string)
    (identifier : pyval) (cache_key : string) : M unit :=
  try_except
    (let! fresh_data :=
       (if String.eqb lookup_type "entra_oid" then
          let! u := _fetch_user_by_entra_oid identifier in ret (Some u)
        else if String.eqb lookup_type "email" then
          let! u := _fetch_user_by_email identifier in ret (Some u)
        else if String.eqb lookup_type "user_id" then
          let! u := _fetch_user_by_id identifier in ret (Some u)
        else ret None) in
     match fresh_data with
     | None => ret tt
     | Some fresh =>
         let! cache := gets user_cache in
         match cache !! cache_key with
         | Some _ =>
             modify (set_user_cache
                       (fun c => <[cache_key := CacheEntry fresh now default_ttl]> c));;
             modify (set_cache_stats bump_background_refreshes)
         | None => ret tt
         end
     end)
    (fun _ => ret tt).

(** [AzureCachedUserService(config)] made on the spot: [m] runs against a
    new, empty cache of its own, which nothing reads afterwards. *)
Definition with_new_service {A} (m : M A) : M A :=
  let! saved_cache := gets user_cache in
  let! saved_stats := gets cache_stats in
  modify (set_user_cache (fun _ => ∅));;
  modify (set_cache_stats (fun _ => Stats 0 0 0 0 0 0));;
  try_finally m
    (modify (set_user_cache (fun _ => saved_cache));;
     modify (set_cache_stats (fun _ => saved_stats))).

(** [_cleanup_expired_cache], on the items of [user_cache] in the order
    of the dictionary (the order of insertion), which decides between
    entries of the same age.  The result is the items left and the number
    added to the [evictions] counter. *)
Definition cache_items : Type := list (string * cache_entry).

(** [current_time - entry["timestamp"] > entry["ttl"]] *)
Definition is_expired (now : Z) (e : cache_entry) : bool :=
  ce_ttl e <? now - ce_timestamp e.

(** [del self.user_cache[key]] for each of [keys]. *)
Definition del_keys (keys : list string) (items : cache_items) : cache_items :=
  List.filter (fun p => negb (existsb (String.eqb (fst p)) keys)) items.

(** [sorted(items, key=lambda x: x[1]["timestamp"])]: stable. *)
Fixpoint insert_by_timestamp (x : string * cache_entry) (sorted : cache_items)
  : cache_items :=
  match sorted with
  | [] => [x]
  | y :: rest =>
      if ce_timestamp (snd y) <? ce_timestamp (snd x)
      then y :: insert_by_timestamp x rest
      else x :: sorted
  end.

Definition sorted_by_timestamp (items : cache_items) : cache_items :=
  fold_right insert_by_timestamp [] items.

Definition _cleanup_expired_cache (now : Z) (items : cache_items)
  : cache_items * nat :=
  let expired_keys :=
    map fst (List.filter (fun p => is_expired now (snd p)) items) in
  let items := del_keys expired_keys items in
  if (Z.to_nat max_cache_size <? List.length items)%nat
  then
    let sorted_items := sorted_by_timestamp items in
    let excess_count := (List.length items - Z.to_nat max_cache_size)%nat in
    (del_keys (map fst (take excess_count sorted_items)) items,
     (List.length expired_keys + excess_count)%nat)
  else (items, List.length expired_keys).

Definition _create_user_in_db (now : Z) (user_data : loc) : M loc :=
  modify (set_cache_stats bump_database_queries);;
  CosmosDB.create_user now user_data.

Definition _update_user_in_db (now : Z) (user_id : string) (update_data : dict)
  : M loc :=
  modify (set_cache_stats bump_database_queries);;
  CosmosDB.update_user_fields now user_id update_data.

(** [create_user]: create in the store, then drop the cache entries of
    the email and the subject of [user_data], as it is after the call on
    the store. *)
Definition create_user (now : Z) (user_data : loc) : M loc :=
  try_except
    (let! created_user := _create_user_in_db now user_data in
     let! email := getitem user_data "email" in
     let! entra_oid := getitem user_data "entra_oid" in
     (if truthy email then invalidate_user_cache email "email" else ret tt);;
     (if truthy entra_oid
      then invalidate_user_cache entra_oid "entra_oid" else ret tt);;
     ret created_user)
    (fun e => modify (set_cache_stats bump_errors);; raise e).

(** [update_user]: the current record is fetched by id first. *)
Definition update_user (now : Z) (user_id : string) (update_data : dict)
  : M loc :=
  try_except
    (let! current_user := _fetch_user_by_id (VStr user_id) in
     let! updated_user := _update_user_in_db now user_id update_data in
     let! found := truthy_obj current_user in
     (match current_user, found with
      | Some current, true =>
          invalidate_user_cache (VStr user_id) "user_id";;
          let! e := getitem current "email" in
          (if truthy e then invalidate_user_cache e "email" else ret tt);;
          let! o := getitem current "entra_oid" in
          (if truthy o then invalidate_user_cache o "entra_oid" else ret tt)
      | _, _ => ret tt
      end);;
     (match update_data !! "email" with
      | Some e => invalidate_user_cache e "email"
      | None => ret tt
      end);;
     (match update_data !! "entra_oid" with
      | Some o => invalidate_user_cache o "entra_oid"
      | None => ret tt
      end);;
     ret updated_user)
    (fun e => modify (set_cache_stats bump_errors);; raise e).

End AzureCachedUserService.

(** ** [AuthenticationCache] ([app/core/dependencies.py]) *)

Module AuthenticationCache.

Definition ttl_seconds : Z := 300.

(** [generate_token_hash] *)
Definition generate_token_hash (token : string) : string :=
  Sha256.hexdigest token.

Definition get (now : Z) (token_hash : string) : M (option loc) :=
  let! cache := gets auth_cache in
  match cache !! token_hash with
  | Some entry =>
      if now - ae_timestamp entry <? ttl_seconds
      then ret (Some (ae_user_data entry))
      else modify (set_auth_cache (fun c => delete token_hash c));; ret None
  | None => ret None
  end.

Definition set (now : Z) (token_hash : string) (user_data : loc) : M unit :=
  modify (set_auth_cache (fun c => <[token_hash := AuthEntry user_data now]> c)).

Definition invalidate (token_hash : string) : M unit :=
  modify (set_auth_cache (fun c => delete token_hash c)).

Definition clear : M unit :=
  modify (set_auth_cache (fun _ => ∅)).

End AuthenticationCache.

(** ** What lies outside the program

    Token parsing and signature checking belong to the JWT libraries, and
    the signing keys come from the identity provider over HTTP.  They are
    the fields of [env]: each says what the library call returns or raises
    for a given token. *)

Record env := Env {
  (** [jwt.get_unverified_header(token)] *)
  get_unverified_header : string -> res dict;
  (** [RSAAlgorithm.from_jwk(key)] then [jwt.decode(token, public_key,
      algorithms=["RS256"], audience=..., issuer=...)] *)
  rs256_decode : string -> dict -> res dict;
  (** [jwt.decode(token, jwt_secret_key, algorithms=[jwt_algorithm])] of
      the legacy tokens *)
  hs_decode : string -> res dict;
  (** the answer to the n-th GET on the JWKS URI, counted from 0: the
      document, or the exception [session.get], [raise_for_status] or
      [response.json] raises *)
  jwks_endpoint : nat -> res jwks_doc
}.

Definition lift {A} (r : res A) : M A := fun w => (r, w).

(** ** [AzureOptimizedEntraAuthService] ([app/services/entra_auth.py]) *)

Module EntraAuthService.

Definition jwks_cache_ttl : Z := 3600.

Definition jwks_truthy (c : jwks_doc) : bool := negb (bool_decide (c = ∅)).

Definition cache_is_valid (now : Z) (w : world) : bool :=
  (jwks_truthy (jwks_cache w)
   && (now - jwks_cache_timestamp w <? jwks_cache_ttl))%bool.

Definition _fetch_jwks_with_cache (E : env) (now : Z) : M jwks_doc :=
  let! valid := gets (cache_is_valid now) in
  if valid then gets jwks_cache
  else
    let! n := gets jwks_fetches in
    modify (set_jwks_fetches S);;
    try_except
      (let! jwks_data := lift (jwks_endpoint E n) in
       modify (set_jwks jwks_data now);;
       ret jwks_data)
      (fun e =>
         match e with
         | RequestException m =>
             let! stale := gets jwks_cache in
             if jwks_truthy stale then ret stale
             else raise (HTTPException 503
                           ("Unable to fetch JWKS from Azure: " ++ m))
         | _ => raise e
         end).

(** The first key of the set whose ["kid"] is [kid]. *)
Definition find_key (jwks : jwks_doc) (kid : pyval) : option dict :=
  List.find (fun key => pyval_eqb (get key "kid") kid)
            (default [] (jwks !! "keys")).

Definition verify_token (E : env) (now : Z) (token : string) : M dict :=
  try_except
    (let! unverified_header := lift (get_unverified_header E token) in
     let kid := get unverified_header "kid" in
     if negb (truthy kid)
     then raise (HTTPException 401 "Token missing 'kid' in header")
     else
       let! jwks := _fetch_jwks_with_cache E now in
       let! matching_key :=
         match find_key jwks kid with
         | Some key => ret key
         | None =>
             (* force a refresh in case of key rotation *)
             let! c := gets jwks_cache in
             modify (set_jwks c 0);;
             let! jwks := _fetch_jwks_with_cache E now in
             match find_key jwks kid with
             | Some key => ret key
             | None =>
                 raise (HTTPException 401
                          ("Unable to find appropriate key for token validation (kid: "
                           ++ py_str kid ++ ")"))
             end
         end in
       lift (rs256_decode E token matching_key))
    (fun e =>
       match e with
       | PyJWTError ExpiredSignatureError _ =>
           raise (HTTPException 401 "Token has expired")
       | PyJWTError InvalidAudienceError _ =>
           raise (HTTPException 401 "Invalid token audience")
       | PyJWTError InvalidIssuerError _ =>
           raise (HTTPException 401 "Invalid token issuer")
       | PyJWTError OtherPyJWTError m =>
           raise (HTTPException 401 ("Token validation error: " ++ m))
       | _ => raise (HTTPException 500 "Internal authentication error")
       end).

Definition force_refresh_jwks (E : env) (now : Z) : M jwks_doc :=
  let! c := gets jwks_cache in
  modify (set_jwks c 0);;
  _fetch_jwks_with_cache E now.

End EntraAuthService.

(** ** [UserManagementService] ([app/services/user_management_service.py]) *)

Module UserManagementService.

(** [get_user]: the document of the given id without its
    [hashed_password], or [None] when the read raises. *)
Definition get_user (user_id : string) : M (option loc) :=
  try_except
    (let! user := Container.read_item user_id in
     let! d := deref user in
     modify (set_heap (fun h => <[user := delete "hashed_password" d]> h));;
     ret (Some user))
    (fun _ => ret None).

(** The documents selected by [list_users]'s query: users, filtered by
    the non-empty arguments, from [skip] on, at most [limit]. *)
Definition list_query (filter role auth_method : string) (skip limit : nat)
    (docs : list dict) : list dict :=
  let keep (d : dict) : bool :=
    (Container.field_is "type" (VStr "user") d
     && (if String.eqb filter "" then true
         else match d !! "email" with
              | Some (VStr e) => contains e filter
              | _ => false
              end)
     && (if String.eqb role "" then true
         else Container.field_is "role" (VStr role) d)
     && (if String.eqb auth_method "" then true
         else Container.field_is "auth_method" (VStr auth_method) d))%bool in
  take limit (drop skip (List.filter keep docs)).

(** Allocate each document of a result list. *)
Fixpoint alloc_all (ds : list dict) : M (list loc) :=
  match ds with
  | [] => ret []
  | d :: rest =>
      let! l := alloc d in
      let! ls := alloc_all rest in
      ret (l :: ls)
  end.

(** [for u in users: u.pop("hashed_password", None)] *)
Fixpoint pop_all (ls : list loc) : M unit :=
  match ls with
  | [] => ret tt
  | u :: rest =>
      let! d := deref u in
      modify (set_heap (fun h => <[u := delete "hashed_password" d]> h));;
      pop_all rest
  end.

Definition list_users (filter role auth_method : string) (skip limit : nat)
  : M (list loc) :=
  Container.log OpQueryList;;
  let! docs := gets store in
  let! users := alloc_all (list_query filter role auth_method skip limit docs) in
  pop_all users;;
  ret users.

Definition create_user (now : Z) (user_data : loc) : M loc :=
  setdefault user_data "type" (VStr "user");;
  setdefault user_data "created_at" (isoformat now);;
  setdefault user_data "updated_at" (isoformat now);;
  setdefault user_data "auth_method" (VStr "legacy");;
  let! d := deref user_data in
  setdefault user_data "display_name"
    (py_or (get d "displayName") (get d "email"));;
  setdefault user_data "last_login" (isoformat now);;
  setdefault user_data "is_active" (VBool true);;
  let! d := deref user_data in
  let default_role := get_default d "role" (VStr "standard") in
  setdefault user_data "role" default_role;;
  setdefault user_data "roles" (VList [default_role]);;
  CosmosDB.create_user now user_data.

(** [update_user(user_data)]: stamp and upsert the whole document. *)
Definition update_user (now : Z) (user_data : loc) : M loc :=
  setitem user_data "updated_at" (isoformat now);;
  let! result := Container.upsert_item user_data in
  let! d := deref user_data in
  match d !! "id" with
  | Some _ => ret result
  | None => raise (KeyError "id")
  end.

(** [update_user_role]: the record comes from [get_user] and goes back
    through [update_user]. *)
Definition update_user_role (now : Z) (user_id new_role : string) : M loc :=
  let! user := get_user user_id in
  let! found := truthy_obj user in
  match user, found with
  | Some user, true =>
      setitem user "roles" (VList [VStr new_role]);;
      setitem user "role" (VStr new_role);;
      update_user now user
  | _, _ => raise (ValueError "User not found")
  end.

End UserManagementService.

(** ** Configuration ([AuthConfig] in [app/core/config.py]) *)

Inductive AuthMethod := LEGACY | ENTRA | BOTH.

Record config := Config {
  auth_method : AuthMethod;
  (** [get_entra_auth_service] gave a service object (it gives [None]
      when Entra is disabled or the service could not be built). *)
  entra_service_present : bool
}.

Definition is_legacy_enabled (c : config) : bool :=
  match auth_method c with LEGACY | BOTH => true | ENTRA => false end.

Definition is_entra_enabled (c : config) : bool :=
  match auth_method c with ENTRA | BOTH => true | LEGACY => false end.

Definition get_enabled_methods (c : config) : pyval :=
  VList ((if is_legacy_enabled c then [VStr "legacy"] else [])
         ++ (if is_entra_enabled c then [VStr "entra"] else []))%list.

(** [AuthConfig.__init__]: the method named by [AUTH_METHOD] ("both"
    when unset or not a method), then [_validate_config] on the
    environment, given as [getenv]. *)
Definition auth_method_of_string (s : string) : AuthMethod :=
  if String.eqb s "legacy" then LEGACY
  else if String.eqb s "entra" then ENTRA
  else BOTH.

(** [os.getenv(name)] is set and not empty. *)
Definition env_set (getenv : string -> option string) (name : string) : bool :=
  match getenv name with
  | Some v => negb (String.eqb v "")
  | None => false
  end.

Definition entra_required_vars : list string :=
  ["ENTRA_CLIENT_ID"; "AZURE_TENANT_ID"; "AZURE_AUTHORITY"; "AZURE_AUDIENCE"].

Definition config_errors (getenv : string -> option string) (m : AuthMethod)
  : list string :=
  let c := Config m false in
  ((if is_legacy_enabled c
    then if env_set getenv "JWT_SECRET_KEY" then []
         else ["JWT_SECRET_KEY required for legacy authentication"]
    else [])
   ++ (if is_entra_enabled c
       then map (fun v => (v ++ " required for Entra ID authentication")%string)
                (List.filter (fun v => negb (env_set getenv v)) entra_required_vars)
       else []))%list.

(** ["; ".join(errors)] *)
Fixpoint join_errors (errors : list string) : string :=
  match errors with
  | [] => ""
  | [e] => e
  | e :: rest => e ++ "; " ++ join_errors rest
  end.

Definition AuthConfig_init (getenv : string -> option string) : res AuthMethod :=
  let auth_method_str := lower (default "both" (getenv "AUTH_METHOD")) in
  let m := auth_method_of_string auth_method_str in
  match config_errors getenv m with
  | [] => Ok m
  | errors =>
      Raise (ValueError ("Authentication configuration errors: "
                         ++ join_errors errors))
  end.

(** ** The resolvers ([app/routers/auth.py]) *)

Module Auth.

(** [get_or_create_user_lock]: the lock of an identifier, made on first
    use.  Calls are taken one at a time here, so the lock is free when it
    is asked for. *)
Definition get_or_create_user_lock (identifier : string) : M unit :=
  modify (set_locks (fun ls => {[identifier]} ∪ ls)).

Definition cleanup_user_lock (identifier : string) : M unit :=
  modify (set_locks (fun ls => ls ∖ {[identifier]})).

(** A dictionary key must be hashable. *)
Definition hashable (v : pyval) : M string :=
  match v with
  | VList _ => raise (TypeError "unhashable type: 'list'")
  | _ => ret (py_str v)
  end.

(** [len(v)] *)
Definition len (v : pyval) : M Z :=
  match v with
  | VStr _ | VList _ => ret (py_len v)
  | _ => raise (TypeError "object has no len()")
  end.

(** [v[0]] *)
Definition first_item (v : pyval) : M pyval :=
  match v with
  | VList (x :: _) => ret x
  | VStr (String c _) => ret (VStr (String c EmptyString))
  | VList [] | VStr EmptyString => raise (KeyError "index out of range")
  | _ => raise (TypeError "object is not subscriptable")
  end.

(** [email or email2 or ...] over the claims that may carry the address. *)
Definition email_claim (payload : dict) : pyval :=
  py_or (get payload "preferred_username")
    (py_or (get payload "email")
       (py_or (get payload "upn") (get payload "unique_name"))).

Definition get_or_create_entra_user (now : Z)
    (cache_user : option loc -> M unit)
    (email entra_oid roles : pyval) : M loc :=
  let! lock_identifier :=
    (if truthy entra_oid then hashable entra_oid
     else let! e := as_str email in ret (strip (lower e))) in
  get_or_create_user_lock lock_identifier;;
  try_finally
    (let! by_email := CosmosDB.get_user_by_email email in
     let! found := truthy_obj by_email in
     match by_email, found with
     | Some existing_user, true =>
         let! oid := getitem existing_user "entra_oid" in
         (if (negb (truthy oid) && truthy entra_oid)%bool
          then
            setitem existing_user "entra_oid" entra_oid;;
            setitem existing_user "auth_method" (VStr "entra");;
            setitem existing_user "updated_at" (isoformat now);;
            let! _ := Container.replace_item existing_user existing_user in
            ret tt
          else ret tt);;
         ret existing_user
     | _, _ =>
         let! by_oid :=
           (if truthy entra_oid then CosmosDB.get_user_by_entra_oid entra_oid
            else ret None) in
         let! found := truthy_obj by_oid in
         match by_oid, found with
         | Some existing_user, true =>
             let! d := deref existing_user in
             let! old := as_str (get_default d "email" (VStr "")) in
             let! e := as_str email in
             (if negb (String.eqb (lower old) (lower e))
              then
                setitem existing_user "email" (VStr (strip (lower e)));;
                setitem existing_user "updated_at" (isoformat now);;
                let! _ := Container.replace_item existing_user existing_user in
                ret tt
              else ret tt);;
             ret existing_user
         | _, _ =>
             let! e := as_str email in
             let! role :=
               (if truthy roles
                then let! n := len roles in
                     if 0 <? n then first_item roles else ret (VStr "standard")
                else ret (VStr "standard")) in
             let! user_data := alloc (
               <["id" := VStr ("user_" ++ pretty (now * 1000))]> (
               <["type" := VStr "user"]> (
               <["email" := VStr (strip (lower e))]> (
               <["entra_oid" := entra_oid]> (
               <["roles" := py_or roles (VList [VStr "standard"])]> (
               <["role" := role]> (
               <["auth_method" := VStr "entra"]> (
               <["auth_type" := VStr "entra"]> (
               <["display_name" := VStr (strip (lower e))]> (
               <["is_active" := VBool true]> (
               <["created_at" := isoformat now]> (
               <["updated_at" := isoformat now]> ∅)))))))))))) in
             try_except
               (let! created_user := CosmosDB.create_user now user_data in
                cache_user (Some created_user);;
                ret created_user)
               (fun create_error =>
                  let! again := CosmosDB.get_user_by_email email in
                  let! found := truthy_obj again in
                  match again, found with
                  | Some existing_user, true => ret existing_user
                  | _, _ => raise create_error
                  end)
         end
     end)
    (AzureCachedUserService.create_task (CleanupLockDelayed lock_identifier)).

(** [cleanup_user_lock_delayed], once its five seconds have passed. *)
Definition cleanup_user_lock_delayed (identifier : string) : M unit :=
  cleanup_user_lock identifier.

(** Run one scheduled task at time [now]. *)
Definition run_task (now : Z) (t : task) : M unit :=
  match t with
  | BackgroundRefresh lookup_type identifier cache_key =>
      AzureCachedUserService._background_refresh_user now lookup_type
        identifier cache_key
  | CleanupLockDelayed identifier => cleanup_user_lock_delayed identifier
  end.

(** [str(payload.get("appidacr", "")).strip()] *)
Definition appidacr_of (payload : dict) : string :=
  strip (py_str (get_default payload "appidacr" (VStr ""))).

(** The identity of a service principal, as the three resolvers below
    build it. *)
Definition app_identity_dict (app_id roles : pyval) : dict :=
  <["id" := VStr ("app_" ++ py_str app_id)]> (
  <["email" := VNone]> (
  <["entra_oid" := VNone]> (
  <["roles" := roles]> (
  <["auth_type" := VStr "entra_app"]> (
  <["display_name" := VStr ("app:" ++ py_str app_id)]> (
  <["is_active" := VBool true]> ∅)))))).

(** [obj[k]] *)
Definition subscript (l : loc) (k : string) : M pyval :=
  let! d := deref l in
  match d !! k with
  | Some v => ret v
  | None => raise (KeyError k)
  end.

(** [entra_auth.verify_token(token)]; without a service object the
    attribute access on [None] raises. *)
Definition verify_with (E : env) (cfg : config) (now : Z) (token : string)
  : M dict :=
  if entra_service_present cfg
  then EntraAuthService.verify_token E now token
  else raise (AttributeError "'NoneType' object has no attribute 'verify_token'").

(** [jwt.decode(token, config.auth["jwt_secret_key"], ...)];
    [config.auth] is empty when legacy authentication is disabled. *)
Definition legacy_decode (E : env) (cfg : config) (token : string) : M dict :=
  if is_legacy_enabled cfg
  then lift (hs_decode E token)
  else raise (KeyError "jwt_secret_key").

(** [bool(app_id) and (appidacr == "1" or (roles and not scp))] *)
Definition is_app_only (payload : dict) (roles : pyval) : bool :=
  let app_id := py_or (get payload "appid") (get payload "azp") in
  (truthy app_id
   && (String.eqb (appidacr_of payload) "1"
       || (truthy roles && negb (truthy (get payload "scp")))))%bool.

(** The role update of a record found by email (lines 322-331 and
    939-948): token roles when there are some, else the stored ones,
    else [["standard"]]. *)
Definition update_roles_from_token (user : loc) (roles : pyval) : M unit :=
  let! has_token_roles :=
    (if truthy roles then let! n := len roles in ret (0 <? n) else ret false) in
  if has_token_roles then setitem user "roles" roles
  else
    let! d := deref user in
    match d !! "roles" with
    | None => setitem user "roles" (VList [VStr "standard"])
    | Some r =>
        if negb (truthy r)
        then setitem user "roles" (VList [VStr "standard"])
        else ret tt
    end.

(** *** [get_current_user_entra] *)
Definition get_current_user_entra (E : env) (cfg : config) (now : Z)
    (token : string) : M loc :=
  try_except
    (let! payload := verify_with E cfg now token in
     let email0 := email_claim payload in
     let! email :=
       (if truthy email0
        then let! s := as_str email0 in ret (VStr (strip (lower s)))
        else ret email0) in
     let entra_oid := get payload "oid" in
     let roles := get_default payload "roles" (VList []) in
     if (negb (truthy email) || negb (truthy entra_oid))%bool then
       let app_id := py_or (get payload "appid") (get payload "azp") in
       if is_app_only payload roles
       then alloc (app_identity_dict app_id (py_or roles (VList [])))
       else raise (ValueError "Missing email or Entra OID in token claims.")
     else
       let! by_oid := AzureCachedUserService.get_user_by_entra_oid now entra_oid in
       let! found := truthy_obj by_oid in
       match by_oid, found with
       | Some user, true =>
           setitem user "auth_type" (VStr "entra");;
           setitem user "last_login" (isoformat now);;
           let! r := getitem user "roles" in
           let! no_roles :=
             (if negb (truthy r) then ret true
              else let! n := len r in ret (n =? 0)) in
           (if no_roles then setitem user "roles" (VList [VStr "standard"])
            else ret tt);;
           try_except
             (let! id := subscript user "id" in
              let! id := as_str id in
              let! _ := CosmosDB.update_user_fields now id
                          {["last_login" := isoformat now]} in
              AzureCachedUserService.invalidate_user_cache entra_oid "entra_oid";;
              let! e := getitem user "email" in
              if truthy e
              then AzureCachedUserService.invalidate_user_cache e "email"
              else ret tt)
             (fun _ => ret tt);;
           ret user
       | _, _ =>
           let! by_email := AzureCachedUserService.get_user_by_email now email in
           let! found := truthy_obj by_email in
           match by_email, found with
           | Some user, true =>
               setitem user "entra_oid" entra_oid;;
               update_roles_from_token user roles;;
               let! _ := CosmosDB.update_user_data now user in
               (* invalidate_user_cache(user_id=..., email=..., entra_oid=...):
                  the method takes (identifier, lookup_type) *)
               let! _ := subscript user "id" in
               raise (TypeError
                 "invalidate_user_cache() got an unexpected keyword argument 'user_id'")
           | _, _ =>
               get_or_create_entra_user now
                 (AzureCachedUserService.cache_user now) email entra_oid roles
           end
       end)
    (fun e =>
       raise (HTTPException 401
                ("Invalid Entra ID token or user migration error: " ++ exn_str e))).

(** *** [get_current_user_cached] *)

(** The Entra half (lines 735-815). *)
Definition cached_entra_part (E : env) (cfg : config) (now : Z)
    (token : string) : M loc :=
  let! payload := verify_with E cfg now token in
  let entra_oid := get payload "oid" in
  let email := email_claim payload in
  let roles := get_default payload "roles" VNone in
  if (negb (truthy email) || negb (truthy entra_oid))%bool then
    let app_id := py_or (get payload "appid") (get payload "azp") in
    if is_app_only payload roles
    then alloc (app_identity_dict app_id
                  (py_or (if isinstance_list roles then roles else VList [])
                         (VList [])))
    else raise (ValueError "Missing email or Entra OID in token claims.")
  else
    let! by_oid := AzureCachedUserService.get_user_by_entra_oid now entra_oid in
    let! found := truthy_obj by_oid in
    let! user :=
      (if found then ret by_oid
       else AzureCachedUserService.get_user_by_email now email) in
    let! found := truthy_obj user in
    match user, found with
    | Some user, true =>
        setitem user "auth_type" (VStr "entra");;
        setitem user "entra_oid" entra_oid;;
        (if (isinstance_list roles && (0 <? py_len roles))%bool
         then setitem user "roles" roles
         else ret tt);;
        let! d := deref user in
        (match d !! "roles" with
         | Some (VList (_ :: _)) => ret tt
         | _ =>
             let fallback_role := get_default d "role" (VStr "standard") in
             setitem user "roles" (VList [fallback_role])
         end);;
        ret user
    | _, _ =>
        try_except
          (let! user_data :=
             get_or_create_entra_user now
               (AzureCachedUserService.cache_user now) email entra_oid
               (if truthy roles then roles else VList [VStr "standard"]) in
           setitem user_data "auth_type" (VStr "entra");;
           ret user_data)
          (fun create_error =>
             raise (HTTPException 500
                      ("Failed to create user account: " ++ exn_str create_error)))
    end.

(** The legacy half (lines 822-861). *)
Definition cached_legacy_part (E : env) (cfg : config) (now : Z)
    (token : string) : M loc :=
  try_except
    (let! payload := legacy_decode E cfg token in
     let email := get payload "sub" in
     if negb (truthy email)
     then raise (HTTPException 401 "Invalid legacy token: no subject")
     else
       let! user := AzureCachedUserService.get_user_by_email now email in
       let! found := truthy_obj user in
       match user, found with
       | Some user, true =>
           setitem user "auth_type" (VStr "legacy");;
           let! current_role := getitem user "role" in
           let! current_role :=
             (if negb (truthy current_role)
              then setitem user "role" (VStr "standard");; ret (VStr "standard")
              else ret current_role) in
           setitem user "roles" (VList [current_role]);;
           ret user
       | _, _ => raise (HTTPException 401 "User not found for legacy token")
       end)
    (fun _ => raise (HTTPException 401 "Invalid authentication token")).

Definition get_current_user_cached (E : env) (cfg : config) (now : Z)
    (token : string) : M loc :=
  try_except (cached_entra_part E cfg now token)
             (fun _ => cached_legacy_part E cfg now token).

(** *** [get_me]

    The endpoint is taken with its [audit_login] flag at the default,
    [False]: no audit record is written. *)

(** The Entra half (lines 562-671).  [None] stands for reaching the end
    of the [try] block without returning. *)
Definition me_entra_part (E : env) (cfg : config) (now : Z)
    (token : string) : M (option loc) :=
  let! payload := verify_with E cfg now token in
  let email := email_claim payload in
  let entra_oid := get payload "oid" in
  let roles := get_default payload "roles" (VList []) in
  if (negb (truthy email) || negb (truthy entra_oid))%bool then
    let app_id := py_or (get payload "appid") (get payload "azp") in
    if (truthy app_id && negb (truthy (get payload "scp"))
        && negb (truthy (get payload "oid")))%bool
    then
      let! a := alloc (
        <["id" := VStr ("app_" ++ py_str app_id)]> (
        <["auth_type" := VStr "entra_app"]> (
        <["roles" := py_or roles (VList [])]> (
        <["display_name" := VStr ("app:" ++ py_str app_id)]> (
        <["is_active" := VBool true]> ∅))))) in
      ret (Some a)
    else raise (ValueError "Missing email or Entra OID in token claims.")
  else
    let! by_oid := AzureCachedUserService.get_user_by_entra_oid now entra_oid in
    let! found := truthy_obj by_oid in
    let! user :=
      (if found then ret by_oid
       else AzureCachedUserService.get_user_by_email now email) in
    let! found := truthy_obj user in
    let! user :=
      (if found then ret user
       else
         let! name :=
           (if truthy (get payload "name") then as_str (get payload "name")
            else
              let! g := as_str (get_default payload "given_name" (VStr "")) in
              let! f := as_str (get_default payload "family_name" (VStr "")) in
              ret (g ++ " " ++ f)) in
         let name := strip name in
         let! new_user := alloc (
           <["email" := email]> (
           <["name" := VStr name]> (
           <["role" := VStr "standard"]> (
           <["entra_oid" := entra_oid]> (
           <["auth_type" := VStr "entra"]> (
           <["roles" := VList [VStr "standard"]]> (
           <["created_via" := VStr "auto_entra_auth"]> (
           <["created_at" := isoformat now]> ∅)))))))) in
         try_except
           (let! body := alloc (
              <["email" := email]> (
              <["name" := VStr name]> (
              <["role" := VStr "standard"]> ∅))) in
            let! created_user := UserManagementService.create_user now body in
            let! ok := truthy_obj (Some created_user) in
            if ok then
              setitem created_user "auth_type" (VStr "entra");;
              setitem created_user "entra_oid" entra_oid;;
              let! d := deref created_user in
              setitem created_user "roles"
                (VList [get_default d "role" (VStr "standard")]);;
              ret (Some created_user)
            else ret (Some new_user))
           (fun _ => ret (Some new_user))) in
    let! found := truthy_obj user in
    match user, found with
    | Some user, true =>
        setitem user "auth_type" (VStr "entra");;
        setitem user "entra_oid" entra_oid;;
        setitem user "roles" roles;;
        ret (Some user)
    | _, _ => ret None
    end.

(** The legacy half (lines 676-704). *)
Definition me_legacy_part (E : env) (cfg : config) (now : Z)
    (token : string) : M loc :=
  try_except
    (let! payload := legacy_decode E cfg token in
     let email := get payload "sub" in
     if negb (truthy email)
     then raise (HTTPException 401 "Invalid legacy token: no subject")
     else
       let! user := AzureCachedUserService.get_user_by_email now email in
       let! found := truthy_obj user in
       match user, found with
       | Some user, true =>
           setitem user "auth_type" (VStr "legacy");;
           let! current_role := getitem user "role" in
           let! current_role :=
             (if negb (truthy current_role)
              then setitem user "role" (VStr "standard");; ret (VStr "standard")
              else ret current_role) in
           setitem user "roles" (VList [current_role]);;
           setitem user "_debug_timestamp" (isoformat now);;
           ret user
       | _, _ => raise (HTTPException 401 "User not found for legacy token")
       end)
    (fun _ => raise (HTTPException 401 "Invalid authentication token")).

Definition get_me (E : env) (cfg : config) (now : Z) (token : string) : M loc :=
  let! r := try_except (me_entra_part E cfg now token) (fun _ => ret None) in
  match r with
  | Some user => ret user
  | None => me_legacy_part E cfg now token
  end.

(** *** [get_current_user_any], as defined at line 866 *)

(** The Entra half (lines 896-969); every return stores the identity in
    the authentication cache first. *)
Definition any_entra_part (E : env) (now : Z) (token token_hash : string)
  : M loc :=
  let! payload := EntraAuthService.verify_token E now token in
  let entra_oid := get payload "oid" in
  let email := email_claim payload in
  let roles := get_default payload "roles" (VList []) in
  if (negb (truthy email) || negb (truthy entra_oid))%bool then
    let app_id := py_or (get payload "appid") (get payload "azp") in
    if is_app_only payload roles
    then
      let! app_identity := alloc (app_identity_dict app_id (py_or roles (VList []))) in
      AuthenticationCache.set now token_hash app_identity;;
      ret app_identity
    else raise (ValueError "Missing email or Entra OID in token claims.")
  else
    let! by_oid := CosmosDB.get_user_by_entra_oid entra_oid in
    let! found := truthy_obj by_oid in
    let! user :=
      (if found then ret by_oid else CosmosDB.get_user_by_email email) in
    let! found := truthy_obj user in
    match user, found with
    | Some user, true =>
        setitem user "entra_oid" entra_oid;;
        update_roles_from_token user roles;;
        let! _ := CosmosDB.update_user_data now user in
        setitem user "auth_type" (VStr "entra");;
        AuthenticationCache.set now token_hash user;;
        ret user
    | _, _ =>
        let! user_data :=
          AzureCachedUserService.with_new_service
            (get_or_create_entra_user now
               (AzureCachedUserService.cache_user now) email entra_oid roles) in
        setitem user_data "auth_type" (VStr "entra");;
        AuthenticationCache.set now token_hash user_data;;
        ret user_data
    end.

(** The legacy half (lines 979-999). *)
Definition any_legacy_part (E : env) (cfg : config) (now : Z)
    (token token_hash : string) : M loc :=
  let! payload := legacy_decode E cfg token in
  let email := get payload "sub" in
  if negb (truthy email)
  then raise (ValueError "Invalid legacy token: no subject")
  else
    let! user := CosmosDB.get_user_by_email email in
    let! found := truthy_obj user in
    match user, found with
    | Some user, true =>
        setitem user "auth_type" (VStr "legacy");;
        AuthenticationCache.set now token_hash user;;
        ret user
    | _, _ => raise (ValueError "User not found for legacy token")
    end.

(** What follows the Entra attempt (lines 977-1012); [auth_error] is the
    message left by a failed Entra attempt. *)
Definition any_after_entra (E : env) (cfg : config) (now : Z)
    (token token_hash : string) (auth_error : option string) : M loc :=
  let fail (auth_error : option string) : M loc :=
    let error_detail :=
      "Authentication failed. Enabled methods: " ++ py_str (get_enabled_methods cfg) in
    raise (HTTPException 401
             (match auth_error with
              | Some m => error_detail ++ ". Details: " ++ m
              | None => error_detail
              end)) in
  if is_legacy_enabled cfg
  then
    try_except (any_legacy_part E cfg now token token_hash)
      (fun e =>
         fail (Some (match auth_error with
                     | Some m => m ++ "; Legacy authentication failed: " ++ exn_str e
                     | None => "Legacy authentication failed: " ++ exn_str e
                     end)))
  else fail auth_error.

Definition get_current_user_any (E : env) (cfg : config) (now : Z)
    (token : string) : M loc :=
  let token_hash := AuthenticationCache.generate_token_hash token in
  let! cached_user := AuthenticationCache.get now token_hash in
  let! hit := truthy_obj cached_user in
  match cached_user, hit with
  | Some user, true => ret user
  | _, _ =>
      if (is_entra_enabled cfg && entra_service_present cfg)%bool
      then
        try_except (any_entra_part E now token token_hash)
          (fun e =>
             if negb (is_legacy_enabled cfg)
             then raise (HTTPException 401 "Entra ID authentication failed")
             else any_after_entra E cfg now token token_hash
                    (Some ("Entra authentication failed: " ++ exn_str e)))
      else any_after_entra E cfg now token token_hash None
  end.

(** Line 1439, [get_current_user_any = get_current_user_cached]: from
    there on, and for every module that imports the name
    ([routers/upload.py], [routers/prompts.py], [routers/admin.py]), the
    name [get_current_user_any] is the cached resolver.  The routes of
    [routers/auth.py] itself took the function above as their dependency
    before the line ran. *)
Definition exported_get_current_user_any := get_current_user_cached.

(** *** Role checks (lines 498-530) *)

(** [x in v] for a string [x]: an element of a list, a substring of a
    string; nothing else can be searched. *)
Definition py_in (x : string) (v : pyval) : M bool :=
  match v with
  | VList l => ret (existsb (fun y => eq_str y x) l)
  | VStr s => ret (contains s x)
  | _ => raise (TypeError "argument is not iterable")
  end.

(** [require_role(required_role)], applied to the resolved user. *)
Definition require_role (required_role : string) (user : loc) : M loc :=
  let! d := deref user in
  let! has := py_in required_role (get_default d "roles" (VList [])) in
  if negb has
  then raise (HTTPException 403
                ("User does not have required role: " ++ required_role))
  else ret user.

(** [any(role in user_roles for role in required_roles)] *)
Fixpoint any_in (required_roles : list string) (user_roles : pyval) : M bool :=
  match required_roles with
  | [] => ret false
  | role :: rest =>
      let! has := py_in role user_roles in
      if has then ret true else any_in rest user_roles
  end.

(** [require_role_cached(required_roles)], applied to the resolved user. *)
Definition require_role_cached (required_roles : list string) (user : loc)
  : M loc :=
  let! d := deref user in
  let user_roles := get_default d "roles" (VList []) in
  let! allowed := any_in required_roles user_roles in
  if negb allowed
  then raise (HTTPException 403
                ("User does not have required role. Required: "
                 ++ py_str (VList (map VStr required_roles))
                 ++ ", User has: " ++ py_str user_roles))
  else ret user.

Definition require_admin_cached : loc -> M loc := require_role_cached ["admin"].

(** The check at the head of the [/admin/users] endpoints (lines 1027,
    1057, 1088, 1123, 1157):
    ["admin" not in current_user.get("roles", []) and
     current_user.get("role") != "admin"]. *)
Definition admin_access_required (current_user : loc) : M unit :=
  let! d := deref current_user in
  let! has := py_in "admin" (get_default d "roles" (VList [])) in
  if (negb has && negb (eq_str (get d "role") "admin"))%bool
  then raise (HTTPException 403 "Admin access required")
  else ret tt.

(** *** [get_current_user_hybrid] (lines 1191-1224) *)

(** One of the two attempts: a record, or nothing; whatever is raised
    inside is dropped. *)
Definition attempt (m : M (option loc)) : M (option loc) :=
  try_except
    (let! user := m in
     let! found := truthy_obj user in
     match user, found with
     | Some u, true => ret (Some u)
     | _, _ => ret None
     end)
    (fun _ => ret None).

Definition get_current_user_hybrid (E : env) (cfg : config) (now : Z)
    (token : string) : M loc :=
  let! by_entra :=
    attempt
      (let! payload := verify_with E cfg now token in
       let entra_oid := get payload "oid" in
       if truthy entra_oid
       then AzureCachedUserService.get_user_by_entra_oid now entra_oid
       else ret None) in
  match by_entra with
  | Some user => ret user
  | None =>
      let! by_legacy :=
        attempt
          (let! payload := legacy_decode E cfg token in
           let email := get payload "sub" in
           if truthy email
           then AzureCachedUserService.get_user_by_email now email
           else ret None) in
      match by_legacy with
      | Some user => ret user
      | None => raise (HTTPException 401 "Could not validate credentials")
      end
  end.

(** *** [get_current_user_logout_only] (lines 1226-1269): the store is
    asked directly. *)
Definition get_current_user_logout_only (E : env) (cfg : config) (now : Z)
    (token : string) : M loc :=
  let! by_entra :=
    attempt
      (let! payload := verify_with E cfg now token in
       let entra_oid := get payload "oid" in
       let email := email_claim payload in
       if (truthy entra_oid && truthy email)%bool
       then
         let! user := CosmosDB.get_user_by_entra_oid entra_oid in
         let! found := truthy_obj user in
         if found then ret user else CosmosDB.get_user_by_email email
       else ret None) in
  match by_entra with
  | Some user => ret user
  | None =>
      let! by_legacy :=
        attempt
          (let! payload := legacy_decode E cfg token in
           let email := get payload "sub" in
           if truthy email then CosmosDB.get_user_by_email email else ret None) in
      match by_legacy with
      | Some user => ret user
      | None => raise (HTTPException 401 "Could not validate credentials")
      end
  end.

End Auth.

(** * Reasoning about computations *)

(** [wp m Q w]: running [m] from [w] ends in an outcome and a world that
    satisfy [Q]. *)
Definition wp {A} (m : M A) (Q : res A -> world -> Prop) (w : world) : Prop :=
  Q (fst (m w)) (snd (m w)).

Lemma wp_run {A} (m : M A) Q w r w' : m w = (r, w') -> wp m Q w -> Q r w'.
Proof. unfold wp. by intros ->. Qed.

Lemma wp_intro {A} (m : M A) (Q : res A -> world -> Prop) w :
  (forall r w', m w = (r, w') -> Q r w') -> wp m Q w.
Proof. unfold wp. intros H. apply H. by destruct (m w). Qed.

Lemma wp_mono {A} (m : M A) (Q Q' : res A -> world -> Prop) w :
  wp m Q w -> (forall r w', Q r w' -> Q' r w') -> wp m Q' w.
Proof. unfold wp. eauto. Qed.

Lemma wp_ret {A} (a : A) Q w : Q (Ok a) w -> wp (ret a) Q w.
Proof. done. Qed.

Lemma wp_raise {A} e (Q : res A -> world -> Prop) w : Q (Raise e) w -> wp (raise e) Q w.
Proof. done. Qed.

Lemma wp_lift {A} (r : res A) Q w : Q r w -> wp (lift r) Q w.
Proof. done. Qed.

Lemma wp_gets {A} (f : world -> A) Q w : Q (Ok (f w)) w -> wp (gets f) Q w.
Proof. done. Qed.

Lemma wp_modify f Q w : Q (Ok tt) (f w) -> wp (modify f) Q w.
Proof. done. Qed.

Lemma wp_bind {A B} (m : M A) (k : A -> M B) Q w :
  wp m (fun r w' => match r with
                    | Ok a => wp (k a) Q w'
                    | Raise e => Q (Raise e) w'
                    end) w ->
  wp (bind m k) Q w.
Proof. unfold wp, bind. by destruct (m w) as [[a|e] w']. Qed.

Lemma wp_try_except {A} (m : M A) h Q w :
  wp m (fun r w' => match r with
                    | Ok a => Q (Ok a) w'
                    | Raise e => wp (h e) Q w'
                    end) w ->
  wp (try_except m h) Q w.
Proof. unfold wp, try_except. by destruct (m w) as [[a|e] w']. Qed.

Lemma wp_try_finally {A} (m : M A) f Q w :
  wp m (fun r w' => wp f (fun r' w'' => match r' with
                                        | Ok _ => Q r w''
                                        | Raise e => Q (Raise e) w''
                                        end) w') w ->
  wp (try_finally m f) Q w.
Proof.
  unfold wp, try_finally. destruct (m w) as [r w']. cbn.
  by destruct (f w') as [[[]|e] w''].
Qed.

Lemma wp_alloc d Q w :
  Q (Ok (List.length (heap w))) (set_heap (fun h => (h ++ [d])%list) w) ->
  wp (alloc d) Q w.
Proof. done. Qed.

Lemma wp_deref l Q w :
  match heap w !! l with
  | Some d => Q (Ok d) w
  | None => Q (Raise (KeyError "dangling reference")) w
  end -> wp (deref l) Q w.
Proof. unfold wp, deref. by destruct (heap w !! l). Qed.

Lemma wp_deref_some l d Q w :
  heap w !! l = Some d -> Q (Ok d) w -> wp (deref l) Q w.
Proof. intros H HQ. apply wp_deref. by rewrite H. Qed.

Lemma wp_setitem l k v d Q w :
  heap w !! l = Some d ->
  Q (Ok tt) (set_heap (fun h => <[l := <[k := v]> d]> h) w) ->
  wp (setitem l k v) Q w.
Proof.
  intros H HQ. unfold setitem. apply wp_bind. eapply wp_deref_some; [done|].
  by apply wp_modify.
Qed.

Lemma wp_getitem l k d Q w :
  heap w !! l = Some d -> Q (Ok (get d k)) w -> wp (getitem l k) Q w.
Proof.
  intros H HQ. unfold getitem. apply wp_bind. eapply wp_deref_some; [done|].
  by apply wp_ret.
Qed.

Global Arguments wp : simpl never.

Ltac wsimpl :=
  cbn [heap store store_log user_cache cache_stats auth_cache jwks_cache
       jwks_cache_timestamp jwks_fetches user_creation_locks tasks
       set_heap set_store set_store_log set_user_cache set_cache_stats
       set_auth_cache set_jwks set_jwks_fetches set_locks set_tasks] in *.

Ltac wp_step :=
  lazymatch goal with
  | |- wp (bind _ _) _ _ => apply wp_bind
  | |- wp (ret _) _ _ => apply wp_ret
  | |- wp (raise _) _ _ => apply wp_raise
  | |- wp (lift _) _ _ => apply wp_lift
  | |- wp (gets _) _ _ => apply wp_gets
  | |- wp (modify _) _ _ => apply wp_modify
  | |- wp (alloc _) _ _ => apply wp_alloc
  | |- wp (try_except _ _) _ _ => apply wp_try_except
  | |- wp (try_finally _ _) _ _ => apply wp_try_finally
  end.
Ltac wp_steps := repeat (wp_step; cbn beta iota).

(** Closed equations between results of runs are settled by evaluation. *)
Ltac by_evaluation :=
  intros;
  repeat lazymatch goal with |- _ /\ _ => split end;
  lazymatch goal with
  | |- ?a = ?b => vm_cast_no_check (@eq_refl _ b)
  end.

Lemma wp_elim {A} (m : M A) Q w : wp m Q w -> exists r w', m w = (r, w') /\ Q r w'.
Proof. unfold wp. intros H. exists (m w).1, (m w).2. split; [by destruct (m w)|done]. Qed.

Lemma wp_truthy_obj_some l d Q w :
  heap w !! l = Some d -> Q (Ok (dict_truthy d)) w -> wp (truthy_obj (Some l)) Q w.
Proof.
  intros H HQ. unfold truthy_obj. apply wp_bind. eapply wp_deref_some; [done|].
  by apply wp_ret.
Qed.

Lemma wp_truthy_obj_none Q w : Q (Ok false) w -> wp (truthy_obj None) Q w.
Proof. done. Qed.

(** ** Normalising an address is idempotent *)

Lemma lower_ascii_idem c : lower_ascii (lower_ascii c) = lower_ascii c.
Proof. destruct c as [[] [] [] [] [] [] [] []]; reflexivity. Qed.

Lemma is_space_lower c : is_space (lower_ascii c) = is_space c.
Proof. destruct c as [[] [] [] [] [] [] [] []]; reflexivity. Qed.

Lemma lower_idem s : lower (lower s) = lower s.
Proof. induction s; cbn; [done|]. by rewrite lower_ascii_idem, IHs. Qed.

Lemma lower_lstrip s : lower (lstrip s) = lstrip (lower s).
Proof.
  induction s as [|c s IH]; cbn; [done|].
  rewrite is_space_lower. destruct (is_space c); [done|]. reflexivity.
Qed.

Lemma lower_rstrip s : lower (rstrip s) = rstrip (lower s).
Proof.
  induction s as [|c s IH]; cbn; [done|].
  rewrite <- IH. destruct (rstrip s) as [|c' r'] eqn:Hr; cbn.
  - rewrite is_space_lower. by destruct (is_space c).
  - reflexivity.
Qed.

Lemma lower_strip s : lower (strip s) = strip (lower s).
Proof. unfold strip. by rewrite lower_rstrip, lower_lstrip. Qed.

Lemma rstrip_idem s : rstrip (rstrip s) = rstrip s.
Proof.
  induction s as [|c s IH]; cbn; [done|].
  destruct (rstrip s) as [|c' r'] eqn:Hr.
  - destruct (is_space c) eqn:Hc; cbn; [done|]. by rewrite Hc.
  - cbn. cbn in IH. by rewrite IH.
Qed.

Lemma lstrip_head s : match lstrip s with
                      | EmptyString => True
                      | String c _ => is_space c = false
                      end.
Proof.
  induction s as [|c s IH]; cbn; [done|].
  destruct (is_space c) eqn:Hc; [exact IH|]. exact Hc.
Qed.

Lemma lstrip_rstrip_lstrip s : lstrip (rstrip (lstrip s)) = rstrip (lstrip s).
Proof.
  pose proof (lstrip_head s) as H.
  destruct (lstrip s) as [|c r]; cbn; [done|].
  destruct (rstrip r); cbn; rewrite H; cbn; by rewrite ?H.
Qed.

Lemma strip_idem s : strip (strip s) = strip s.
Proof. unfold strip. by rewrite lstrip_rstrip_lstrip, rstrip_idem. Qed.

Lemma normalize_idem s : strip (lower (strip (lower s))) = strip (lower s).
Proof. by rewrite lower_strip, lower_idem, strip_idem. Qed.

Lemma field_is_nonempty k v (d : dict) : Container.field_is k v d = true -> d <> ∅.
Proof.
  unfold Container.field_is. intros H ->. by rewrite lookup_empty in H.
Qed.

Lemma select_user_truthy field value docs x rest :
  Container.select_user field value docs = x :: rest -> dict_truthy x = true.
Proof.
  intros H. assert (Hin : In x (Container.select_user field value docs))
    by (rewrite H; left; done).
  unfold Container.select_user in Hin. apply filter_In in Hin as [_ Hx].
  apply andb_true_iff in Hx as [Hx _]. apply field_is_nonempty in Hx.
  unfold dict_truthy. by rewrite bool_decide_eq_false_2.
Qed.

(** What a query for one user finds, as a postcondition. *)
Lemma wp_query_first field value Q w :
  (let w1 := set_store_log (fun l => (l ++ [OpQuery field (py_str value)])%list) w in
   match Container.select_user field value (store w) with
   | [] => Q (Ok None) w1
   | d :: _ => Q (Ok (Some (List.length (heap w))))
                 (set_heap (fun h => (h ++ [d])%list) w1)
   end) ->
  wp (let! results := Container.query_user field value in
      CosmosDB.first_or_none results) Q w.
Proof.
  intros H. unfold Container.query_user, Container.log.
  wp_steps. wsimpl. cbn zeta in H.
  destruct (Container.select_user field value (store w));
    unfold CosmosDB.first_or_none; wp_steps; exact H.
Qed.

Lemma wp_get_user_by_entra_oid oid Q w :
  (let w1 := set_store_log (fun l => (l ++ [OpQuery "entra_oid" (py_str oid)])%list) w in
   match Container.select_user "entra_oid" oid (store w) with
   | [] => Q (Ok None) w1
   | d :: _ => Q (Ok (Some (List.length (heap w))))
                 (set_heap (fun h => (h ++ [d])%list) w1)
   end) ->
  wp (CosmosDB.get_user_by_entra_oid oid) Q w.
Proof. apply wp_query_first. Qed.

(** The address [get_user_by_email] looks for. *)
Definition normalized_email (email : pyval) : pyval :=
  match email with
  | VStr s => if String.eqb s "" then email else VStr (strip (lower s))
  | _ => email
  end.

Lemma wp_get_user_by_email email Q w :
  (truthy email = true -> exists s, email = VStr s) ->
  (let n := normalized_email email in
   let w1 := set_store_log (fun l => (l ++ [OpQuery "email" (py_str n)])%list) w in
   match Container.select_user "email" n (store w) with
   | [] => Q (Ok None) w1
   | d :: _ => Q (Ok (Some (List.length (heap w))))
                 (set_heap (fun h => (h ++ [d])%list) w1)
   end) ->
  wp (CosmosDB.get_user_by_email email) Q w.
Proof.
  intros Hty H. unfold CosmosDB.get_user_by_email.
  apply wp_bind.
  destruct (truthy email) eqn:Ht.
  - destruct Hty as [s ->]; [done|]. cbn in Ht.
    unfold as_str. wp_steps. apply wp_query_first.
    cbn in H. destruct (String.eqb s ""); [done|]. exact H.
  - wp_steps. apply wp_query_first.
    assert (normalized_email email = email) as Hn.
    { destruct email; try done. cbn in *. by destruct (String.eqb s ""). }
    rewrite Hn in H. exact H.
Qed.

Definition existing_by_email (d : dict) (docs : list dict) : option dict :=
  match d !! "email" with
  | Some (VStr e) =>
      if String.eqb e "" then None
      else if String.eqb (strip (lower e)) "" then None
      else head (Container.select_user "email" (VStr (strip (lower e))) docs)
  | _ => None
  end.

Definition existing_by_entra_oid (d : dict) (docs : list dict) : option dict :=
  if truthy (get d "entra_oid")
  then head (Container.select_user "entra_oid" (get d "entra_oid") docs)
  else None.

Definition first_existing (d : dict) (docs : list dict) : option dict :=
  match existing_by_email d docs with
  | Some x => Some x
  | None => existing_by_entra_oid d docs
  end.

Definition email_well_typed (d : dict) : Prop :=
  forall v, d !! "email" = Some v -> truthy v = true -> exists e, v = VStr e.

Definition only_queries (ops : list store_op) : Prop :=
  Forall (fun op => exists f v, op = OpQuery f v) ops.

(** The dictionary after [create_user] has normalised its email. *)
Definition normalize_email_field (d : dict) : dict :=
  match d !! "email" with
  | Some (VStr e) => if String.eqb e "" then d
                     else <["email" := VStr (strip (lower e))]> d
  | _ => d
  end.

Lemma normalized_email_field_facts d docs :
  email_well_typed d ->
  let email1 := get (normalize_email_field d) "email" in
  if truthy email1
  then (exists n, email1 = VStr n) /\ normalized_email email1 = email1
       /\ existing_by_email d docs = head (Container.select_user "email" email1 docs)
  else existing_by_email d docs = None.
Proof.
  intros Hty. unfold normalize_email_field, existing_by_email, get.
  destruct (d !! "email") as [v|] eqn:He; [|by rewrite He].
  destruct v as [|b|z|e|l].
  1-3,5: rewrite He;
    match goal with
    | |- context [truthy ?v] =>
        destruct (truthy v) eqn:Ht; [by destruct (Hty _ He Ht)|done]
    end.
  destruct (String.eqb e "") eqn:Hne.
  - rewrite He. cbn. by rewrite Hne.
  - rewrite lookup_insert_eq. cbn.
    destruct (String.eqb (strip (lower e)) "") eqn:Hn; cbn; [done|].
    split; [eauto|]. split; [|done].
    by rewrite normalize_idem.
Qed.

(** C8 (as amended).  When the user store already holds a record with the
    normalised email of the new fields or, failing that, with their
    [entra_oid], [CosmosDB.create_user] raises nothing: it returns that
    record, writes nothing to the store, and its only calls on the
    container are the look-ups. *)
Theorem C8_create_user_returns_existing now body w d x :
  heap w !! body = Some d ->
  email_well_typed d ->
  first_existing d (store w) = Some x ->
  exists u w', CosmosDB.create_user now body w = (Ok u, w')
    /\ heap w' !! u = Some x
    /\ store w' = store w
    /\ exists ops, store_log w' = (store_log w ++ ops)%list /\ only_queries ops.
Proof.
  intros Hb Hty Hx.
  assert (Hlt : (body < List.length (heap w))%nat) by (by eapply lookup_lt_Some).
  cut (wp (CosmosDB.create_user now body)
         (fun r w' => exists u, r = Ok u /\ heap w' !! u = Some x
            /\ store w' = store w
            /\ exists ops, store_log w' = (store_log w ++ ops)%list /\ only_queries ops) w).
  { intros H. apply wp_elim in H as (r & w' & Hrun & u & -> & H). eauto. }
  unfold CosmosDB.create_user.
  wp_step. eapply wp_deref_some; [done|]. cbn beta iota.
  (* the normalisation of the email in place *)
  set (d1 := normalize_email_field d).
  wp_step.
  apply (wp_mono _ (fun r w' => r = Ok tt /\ w' = set_heap (fun h => <[body := d1]> h) w)).
  { unfold normalize_email_field in d1. destruct (d !! "email") as [v|] eqn:He.
    - destruct (truthy v) eqn:Ht.
      + destruct (Hty v He Ht) as [e ->]. cbn in Ht.
        unfold as_str. wp_steps. eapply wp_setitem; [done|].
        split; [done|]. subst d1.
        destruct (String.eqb e ""); [done|]. reflexivity.
      + wp_steps. split; [done|]. subst d1.
        assert (Hd : set_heap (fun h => <[body := d]> h) w = w).
        { destruct w; unfold set_heap; cbn in *. f_equal.
          by apply list_insert_id. }
        destruct v as [| | |e|]; try (symmetry; by apply Hd).
        cbn in Ht. destruct (String.eqb e ""); [|done]. symmetry; by apply Hd.
    - wp_steps. split; [done|]. subst d1.
      destruct w; unfold set_heap; cbn in *. f_equal. symmetry.
      by apply list_insert_id. }
  intros r w' [-> ->].
  assert (H1 : heap (set_heap (fun h => <[body := d1]> h) w) !! body = Some d1).
  { wsimpl. by apply list_lookup_insert_eq. }
  wp_step. eapply wp_getitem; [done|]. cbn beta iota.
  wp_step. eapply wp_getitem; [done|]. cbn beta iota.
  assert (Hoid : get d1 "entra_oid" = get d "entra_oid").
  { subst d1. unfold normalize_email_field.
    destruct (d !! "email") as [[| | |e|]|]; try done.
    destruct (String.eqb e ""); [done|]. unfold get.
    by rewrite lookup_insert_ne. }
  rewrite Hoid.
  pose proof (normalized_email_field_facts d (store w) Hty) as Hf.
  fold d1 in Hf. cbn zeta in Hf.
  unfold first_existing in Hx.
  set (w1 := set_heap _ w) in *.
  assert (Hst1 : store w1 = store w) by done.
  assert (Hlog1 : store_log w1 = store_log w) by done.
  clearbody w1.
  wp_step.
  destruct (truthy (get d1 "email")) eqn:Ht.
  - destruct Hf as ([n Hn] & Hnorm & Hex).
    apply wp_get_user_by_email; [eauto|]. cbn zeta. rewrite Hnorm, Hst1.
    destruct (Container.select_user "email" _ _) as [|x' rest] eqn:Hsel.
    + (* nothing under the email: on to the subject *)
      rewrite Hex in Hx. cbn in Hx.
      wp_step. apply wp_truthy_obj_none. cbn beta iota.
      unfold existing_by_entra_oid in Hx.
      destruct (truthy (get d "entra_oid")) eqn:Hto; [|done].
      wp_step. apply wp_get_user_by_entra_oid. cbn zeta. wsimpl. rewrite Hst1.
      destruct (Container.select_user "entra_oid" _ _) as [|x' rest] eqn:Hsel2;
        [done|]. cbn in Hx. simplify_eq.
      wp_step. eapply wp_truthy_obj_some.
      { wsimpl. by rewrite lookup_app_r, Nat.sub_diag by lia. }
      rewrite (select_user_truthy _ _ _ _ _ Hsel2). cbn beta iota.
      wp_step. eexists. split; [done|]. wsimpl.
      split; [by rewrite lookup_app_r, Nat.sub_diag by lia|].
      split; [done|]. rewrite Hlog1. rewrite <- app_assoc.
      eexists. split; [reflexivity|]. repeat constructor; eauto.
    + rewrite Hex in Hx. cbn in Hx. simplify_eq.
      wp_step. eapply wp_truthy_obj_some.
      { wsimpl. by rewrite lookup_app_r, Nat.sub_diag by lia. }
      rewrite (select_user_truthy _ _ _ _ _ Hsel). cbn beta iota.
      wp_step. eexists. split; [done|]. wsimpl.
      split; [by rewrite lookup_app_r, Nat.sub_diag by lia|].
      split; [done|]. rewrite Hlog1.
      eexists. split; [reflexivity|]. repeat constructor; eauto.
  - rewrite Hf in Hx.
    wp_step. wp_step. apply wp_truthy_obj_none. cbn beta iota.
    unfold existing_by_entra_oid in Hx.
    destruct (truthy (get d "entra_oid")) eqn:Hto; [|done].
    wp_step. apply wp_get_user_by_entra_oid. cbn zeta. wsimpl. rewrite Hst1.
    destruct (Container.select_user "entra_oid" _ _) as [|x' rest] eqn:Hsel2;
      [done|]. cbn in Hx. simplify_eq.
    wp_step. eapply wp_truthy_obj_some.
    { wsimpl. by rewrite lookup_app_r, Nat.sub_diag by lia. }
    rewrite (select_user_truthy _ _ _ _ _ Hsel2). cbn beta iota.
    wp_step. eexists. split; [done|]. wsimpl.
    split; [by rewrite lookup_app_r, Nat.sub_diag by lia|].
    split; [done|]. rewrite Hlog1.
    eexists. split; [reflexivity|]. repeat constructor; eauto.
Qed.

(** * Example data *)

Module Examples.

Definition no_stats : stats := Stats 0 0 0 0 0 0.

(** A world with the given objects and stored documents, and empty caches. *)
Definition world_of (objects docs : list dict) : world :=
  World objects docs [] ∅ no_stats ∅ ∅ 0 0 ∅ [].

(** A stored administrator, known by email only. *)
Definition alice : dict :=
  <["id" := VStr "u1"]> (
  <["type" := VStr "user"]> (
  <["email" := VStr "a@b.com"]> (
  <["role" := VStr "admin"]> (
  <["roles" := VList [VStr "admin"]]> ∅)))).

(** Fields of a new user with the address of [alice]. *)
Definition alice_again : dict :=
  <["id" := VStr "u2"]> (
  <["type" := VStr "user"]> (
  <["email" := VStr "A@B.com "]> (
  <["roles" := VList [VStr "standard"]]> ∅))).

(** A user known under all three keys. *)
Definition bob : dict :=
  <["id" := VStr "u7"]> (
  <["type" := VStr "user"]> (
  <["email" := VStr "bob@x.org"]> (
  <["entra_oid" := VStr "oid-7"]> (
  <["roles" := VList [VStr "standard"]]> ∅)))).

(** The provider's key set: one key, ["k1"]. *)
Definition key1 : dict := <["kid" := VStr "k1"]> (<["kty" := VStr "RSA"]> ∅).
Definition jwks1 : jwks_doc := {["keys" := [key1]]}.

Definition header_of (kid : string) : dict :=
  <["alg" := VStr "RS256"]> (<["kid" := VStr kid]> ∅).

(** The claims of the tokens used below. *)
Definition alice_claims : dict :=
  <["oid" := VStr "abc123"]> (
  <["preferred_username" := VStr "a@b.com"]> (
  <["roles" := VList []]> ∅)).

Definition bob_claims : dict :=
  <["oid" := VStr "oid-7"]> (
  <["preferred_username" := VStr "bob@x.org"]> ∅).

Definition app_claims : dict :=
  <["appid" := VStr "svc-1"]> (<["appidacr" := VStr "1"]> ∅).

(** The libraries and the provider: ["tok-alice"], ["tok-bob"] and
    ["tok-app"] are provider tokens signed with ["k1"], ["tok-k2"] names
    the key ["k2"], ["tok-legacy"] is a local token for [alice]; the key
    endpoint always answers with [jwks1]. *)
Definition E0 : env := {|
  get_unverified_header := fun token =>
    if String.eqb token "tok-alice" then Ok (header_of "k1")
    else if String.eqb token "tok-bob" then Ok (header_of "k1")
    else if String.eqb token "tok-app" then Ok (header_of "k1")
    else if String.eqb token "tok-k2" then Ok (header_of "k2")
    else Raise (PyJWTError OtherPyJWTError "Invalid header");
  rs256_decode := fun token key =>
    if negb (pyval_eqb (get key "kid") (VStr "k1"))
    then Raise (PyJWTError OtherPyJWTError "Signature verification failed")
    else if String.eqb token "tok-alice" then Ok alice_claims
    else if String.eqb token "tok-bob" then Ok bob_claims
    else if String.eqb token "tok-app" then Ok app_claims
    else Raise (PyJWTError OtherPyJWTError "Signature verification failed");
  hs_decode := fun token =>
    if String.eqb token "tok-legacy" then Ok {["sub" := VStr "a@b.com"]}
    else Raise (JWTError "Signature verification failed.");
  jwks_endpoint := fun _ => Ok jwks1
|}.

Definition both : config := Config BOTH true.

(** A moment of the clock, in seconds since the epoch. *)
Definition t0 : Z := 1700000000.

(** A world whose key set was fetched at [t0], with the given objects,
    stored documents and user cache. *)
Definition world_at (objects docs : list dict)
    (ucache : gmap string cache_entry) : world :=
  World objects docs [] ucache no_stats ∅ jwks1 t0 1 ∅ [].

End Examples.

(** * Properties *)

Ltac munfold :=
  unfold bind, ret, raise, try_except, try_finally, gets, modify, lift,
         alloc, deref, setitem, getitem in *.

(** ** [UserManagementService]: no password hash leaves the service *)

Section UserManagement.
Import UserManagementService.

Definition no_password (h : list dict) (u : loc) : Prop :=
  exists d, h !! u = Some d /\ d !! "hashed_password" = None.

Lemma get_user_spec user_id w :
  match List.find (Container.has_id user_id) (store w) with
  | Some stored =>
      exists u w', get_user user_id w = (Ok (Some u), w')
        /\ heap w' !! u = Some (delete "hashed_password" stored)
  | None => exists w', get_user user_id w = (Ok None, w')
  end.
Proof.
  unfold get_user, Container.read_item, Container.log. munfold. cbn.
  destruct (List.find _ _) as [stored|] eqn:Hf; cbn.
  - rewrite lookup_app_r by lia. rewrite Nat.sub_diag. cbn.
    eexists _, _. split; [reflexivity|]. cbn.
    rewrite list_lookup_insert_eq; [done|]. rewrite length_app. cbn. lia.
  - eexists. reflexivity.
Qed.

Lemma alloc_all_spec ds w :
  alloc_all ds w =
    (Ok (seq (List.length (heap w)) (List.length ds)),
     set_heap (fun h => (h ++ ds)%list) w).
Proof.
  revert w. induction ds as [|d ds IH]; intros w.
  - cbn. unfold ret, set_heap. destruct w; cbn. by rewrite app_nil_r.
  - cbn [alloc_all]. unfold bind at 1. unfold alloc at 1.
    unfold bind at 1. rewrite IH. unfold ret. cbn.
    rewrite length_app. cbn. rewrite Nat.add_1_r.
    f_equal. destruct w; cbn. unfold set_heap; cbn. by rewrite <- app_assoc.
Qed.

(** Popping the key from every listed object: each of them ends without
    it, and every object is what it was, or that with the key removed. *)
Lemma pop_all_spec ls w :
  Forall (fun u => (u < List.length (heap w))%nat) ls ->
  exists w', pop_all ls w = (Ok tt, w')
    /\ List.length (heap w') = List.length (heap w)
    /\ store w' = store w
    /\ Forall (no_password (heap w')) ls
    /\ (forall u d, heap w' !! u = Some d ->
          exists d0, heap w !! u = Some d0
            /\ (d = d0 \/ d = delete "hashed_password" d0)).
Proof.
  revert w. induction ls as [|u ls IH]; intros w Hall.
  - exists w. cbn. unfold ret. repeat split; eauto.
  - inversion Hall as [|? ? Hu Hrest]; subst.
    destruct (lookup_lt_is_Some_2 _ _ Hu) as [d Hd].
    cbn [pop_all]. munfold. rewrite Hd. cbn.
    set (w1 := set_heap _ w).
    assert (Hlen : List.length (heap w1) = List.length (heap w))
      by (subst w1; cbn; apply length_insert).
    destruct (IH w1) as (w' & Hrun & Hl & Hs & Hclean & Hprov).
    { rewrite Hlen. exact Hrest. }
    exists w'. split; [exact Hrun|]. split; [congruence|]. split; [by rewrite Hs|].
    split.
    + constructor; [|exact Hclean].
      assert (Hu1 : heap w1 !! u = Some (delete "hashed_password" d)).
      { subst w1. cbn. by apply list_lookup_insert_eq. }
      destruct (lookup_lt_is_Some_2 (heap w') u) as [d' Hd']; [lia|].
      exists d'. split; [done|].
      destruct (Hprov _ _ Hd') as (d0 & Hd0 & [->| ->]);
        rewrite Hu1 in Hd0; simplify_eq; by rewrite ?lookup_delete_eq.
    + intros v dv Hv. destruct (Hprov _ _ Hv) as (d0 & Hd0 & Hor).
      subst w1. cbn in Hd0.
      destruct (decide (u = v)) as [->|Hne].
      * rewrite list_lookup_insert_eq in Hd0 by done. simplify_eq.
        exists d. split; [done|]. destruct Hor as [->| ->]; [by right|].
        right. by rewrite delete_delete_eq.
      * rewrite list_lookup_insert_ne in Hd0 by done. eauto.
Qed.

Lemma list_users_spec filter role auth_method skip limit w :
  exists us w',
    list_users filter role auth_method skip limit w = (Ok us, w')
    /\ store w' = store w
    /\ Forall2 (fun u stored =>
                  heap w' !! u = Some (delete "hashed_password" stored))
         us (list_query filter role auth_method skip limit (store w)).
Proof.
  unfold list_users, Container.log.
  unfold bind at 1. unfold modify at 1.
  unfold bind at 1. unfold gets at 1. cbn [store set_store_log].
  set (ds := list_query _ _ _ _ _ _).
  set (w0 := set_store_log _ w).
  unfold bind at 1. rewrite alloc_all_spec.
  set (w1 := set_heap _ w0).
  set (us := seq _ _).
  destruct (pop_all_spec us w1) as (w' & Hrun & Hlen & Hst & Hclean & Hprov).
  { apply Forall_forall. intros u Hu. apply elem_of_seq in Hu.
    subst w1 w0. cbn in *. rewrite length_app. lia. }
  unfold bind. rewrite Hrun. unfold ret.
  exists us, w'. split; [reflexivity|]. split; [by rewrite Hst|].
  apply Forall2_same_length_lookup_2.
  - subst us. by rewrite length_seq.
  - intros i u stored Hu Hs.
    subst us. apply lookup_seq in Hu as [-> Hi].
    rewrite Forall_forall in Hclean.
    destruct (Hclean (List.length (heap w0) + i)%nat) as (d & Hd & Hnp).
    { apply elem_of_seq. lia. }
    destruct (Hprov _ _ Hd) as (d0 & Hd0 & Hor).
    subst w1 w0. cbn in *. rewrite lookup_app_r in Hd0 by lia.
    replace (List.length (heap w) + i - List.length (heap w))%nat
      with i in Hd0 by lia.
    rewrite Hs in Hd0. simplify_eq.
    rewrite Hd. f_equal. destruct Hor as [->| ->]; [|done].
    symmetry. by apply delete_id.
Qed.

(** C10.  [get_user] answers with the stored document of that id less
    its [hashed_password] key, or with [None] when the read fails (no
    such document); [list_users] answers with the selected documents,
    each less its [hashed_password] key.  No record they return has a
    [hashed_password] key. *)
Theorem C10_hashed_password_removed :
  (forall user_id w,
      exists r w', get_user user_id w = (Ok r, w')
        /\ match r with
           | Some u =>
               exists stored d,
                 List.find (Container.has_id user_id) (store w) = Some stored
                 /\ heap w' !! u = Some d
                 /\ d = delete "hashed_password" stored
                 /\ d !! "hashed_password" = None
           | None => List.find (Container.has_id user_id) (store w) = None
           end)
  /\ (forall filter role auth_method skip limit w,
        exists us w',
          list_users filter role auth_method skip limit w = (Ok us, w')
          /\ Forall2 (fun u stored =>
               exists d, heap w' !! u = Some d
                 /\ d = delete "hashed_password" stored
                 /\ d !! "hashed_password" = None)
               us (list_query filter role auth_method skip limit (store w))).
Proof.
  split.
  - intros user_id w. pose proof (get_user_spec user_id w) as H.
    destruct (List.find _ _) as [stored|] eqn:Hf.
    + destruct H as (u & w' & Hrun & Hd).
      exists (Some u), w'. split; [done|].
      exists stored, (delete "hashed_password" stored).
      repeat split; try done. apply lookup_delete_eq.
    + destruct H as (w' & Hrun). by exists None, w'.
  - intros filter role auth_method skip limit w.
    destruct (list_users_spec filter role auth_method skip limit w)
      as (us & w' & Hrun & _ & Hall).
    exists us, w'. split; [done|].
    eapply Forall2_impl; [exact Hall|].
    intros u stored Hu. cbn in Hu.
    exists (delete "hashed_password" stored).
    repeat split; try done. apply lookup_delete_eq.
Qed.

End UserManagement.

(** ** [CosmosDB.create_user] on fields that are already taken *)

(** C8, counterexample.  The store holds [alice]; creating a user with the
    same address (up to case and blanks) raises no conflict: the call
    returns a copy of [alice] and the store is as before. *)
Lemma C8_counterexample :
  let w := Examples.world_of [Examples.alice_again] [Examples.alice] in
  let r := CosmosDB.create_user 1000 0%nat w in
  r.1 = Ok 1%nat
  /\ heap r.2 !! 1%nat = Some Examples.alice
  /\ store r.2 = [Examples.alice].
Proof. by_evaluation. Qed.

Lemma C8_witness :
  exists u w',
    CosmosDB.create_user 1000 0%nat
      (Examples.world_of [Examples.alice_again] [Examples.alice]) = (Ok u, w')
    /\ heap w' !! u = Some Examples.alice
    /\ store w' = [Examples.alice]
    /\ exists ops, store_log w' = ([] ++ ops)%list /\ only_queries ops.
Proof.
  apply (C8_create_user_returns_existing 1000 0%nat
           (Examples.world_of [Examples.alice_again] [Examples.alice])
           Examples.alice_again Examples.alice).
  - reflexivity.
  - intros v Hv _. vm_compute in Hv. injection Hv as <-. eauto.
  - vm_compute. reflexivity.
Defined.

(** ** The user-record cache and its keys *)

Section UserRecordCache.
Import AzureCachedUserService.

(** The keys under which [cache_user] files a record. *)
Definition user_keys (d : dict) : list string :=
  ((if truthy (get d "id")
    then [_get_cache_key "user_id" (py_str (get d "id"))] else [])
   ++ (if truthy (get d "email")
       then [_get_cache_key "email" (lower (py_str (get d "email")))] else [])
   ++ (if truthy (get d "entra_oid")
       then [_get_cache_key "entra_oid" (py_str (get d "entra_oid"))] else []))%list.

Lemma cache_user_spec now u d w :
  heap w !! u = Some d ->
  dict_truthy d = true ->
  email_well_typed d ->
  exists w1,
    cache_user now (Some u) w = (Ok tt, w1)
    /\ heap w1 = heap w /\ store w1 = store w /\ store_log w1 = store_log w
    /\ (forall k, k ∈ user_keys d ->
          user_cache w1 !! k = Some (CacheEntry (Some u) now default_ttl))
    /\ (forall k, k ∉ user_keys d -> user_cache w1 !! k = user_cache w !! k).
Proof.
  intros Hu Hd Hty.
  cut (wp (cache_user now (Some u))
         (fun r w1 => r = Ok tt
            /\ heap w1 = heap w /\ store w1 = store w /\ store_log w1 = store_log w
            /\ (forall k, k ∈ user_keys d ->
                  user_cache w1 !! k = Some (CacheEntry (Some u) now default_ttl))
            /\ (forall k, k ∉ user_keys d -> user_cache w1 !! k = user_cache w !! k)) w).
  { intros H. apply wp_elim in H as (r & w1 & Hrun & -> & H). eauto. }
  unfold cache_user.
  wp_step. eapply wp_truthy_obj_some; [done|]. rewrite Hd. cbn beta iota.
  wp_step. eapply wp_deref_some; [done|]. cbn beta iota.
  unfold user_keys.
  assert (Hemail : truthy (get d "email") = true ->
                   exists e, get d "email" = VStr e).
  { intros Ht. unfold get in *. destruct (d !! "email") as [v|] eqn:He; [|done].
    cbn in *. by apply (Hty v). }
  destruct (truthy (get d "id")) eqn:Hid;
    destruct (truthy (get d "email")) eqn:Hem;
    destruct (truthy (get d "entra_oid")) eqn:Hoid;
    try (destruct Hemail as [e He]; [done|]; rewrite He; unfold as_str);
    wp_steps; wsimpl; (split; [done|]); repeat (split; [done|]); cbn [app];
    (split; [intros k Hk; set_unfold; destruct_or?; subst;
               simplify_map_eq; try done;
               repeat (rewrite lookup_insert; case_decide; [done|]); done
            |intros k Hk; set_unfold;
               rewrite ?lookup_insert_ne by naive_solver; done]).
Qed.

(** A valid entry is served without asking the store. *)
Lemma lookup_hit now lookup_type identifier cache_key debug fetch w e :
  user_cache w !! cache_key = Some e ->
  _is_cache_valid now e = true ->
  (forall w0, debug w0 = (Ok tt, w0)) ->
  exists w', lookup now lookup_type identifier cache_key debug fetch w
             = (Ok (ce_data e), w')
    /\ heap w' = heap w /\ store w' = store w /\ store_log w' = store_log w
    /\ user_cache w' = user_cache w.
Proof.
  intros He Hv Hdbg.
  cut (wp (lookup now lookup_type identifier cache_key debug fetch)
         (fun r w' => r = Ok (ce_data e)
            /\ heap w' = heap w /\ store w' = store w
            /\ store_log w' = store_log w /\ user_cache w' = user_cache w) w).
  { intros H. apply wp_elim in H as (r & w1 & Hrun & -> & H). eauto. }
  unfold lookup. wp_steps. rewrite He, Hv.
  wp_steps.
  destruct (_should_background_refresh now e); unfold create_task; wp_steps;
    (apply wp_intro; intros r w' Hrun; rewrite Hdbg in Hrun; simplify_eq;
     wp_steps; done).
Qed.

(** What it means for the record [u] (contents [d]), cached at [now] in
    [w], to be served under each of its keys at [now'], and for the
    invalidation of one key to leave the other keys alone. *)
Definition served_under_every_key (now now' : Z) (u : loc) (d : dict)
    (w : world) : Prop :=
  exists w1,
    cache_user now (Some u) w = (Ok tt, w1)
    /\ (truthy (get d "id") = true ->
        exists w2, get_user_by_id now' (get d "id") w1 = (Ok (Some u), w2)
                   /\ store_log w2 = store_log w1)
    /\ (truthy (get d "email") = true ->
        exists w2, get_user_by_email now' (get d "email") w1 = (Ok (Some u), w2)
                   /\ store_log w2 = store_log w1)
    /\ (truthy (get d "entra_oid") = true ->
        isinstance_list (get d "entra_oid") = true
        \/ (exists s, get d "entra_oid" = VStr s) ->
        exists w2, get_user_by_entra_oid now' (get d "entra_oid") w1 = (Ok (Some u), w2)
                   /\ store_log w2 = store_log w1)
    /\ (forall identifier lookup_type,
          let key := _get_cache_key lookup_type (py_str identifier) in
          exists w3, invalidate_user_cache identifier lookup_type w1 = (Ok tt, w3)
            /\ user_cache w3 !! key = None
            /\ forall k, k ∈ user_keys d -> k <> key ->
                 user_cache w3 !! k = Some (CacheEntry (Some u) now default_ttl)).

(** C9 (as amended).  [cache_user] files the record under every key it
    has (id, email, entra_oid); within the time to live a get under any of
    them returns the record without a call on the store.
    [invalidate_user_cache] removes the entry of the one key it is given:
    the entries under the record's other keys stay and still serve it. *)
Theorem C9_cache_user_every_key now now' u d w :
  heap w !! u = Some d ->
  dict_truthy d = true ->
  email_well_typed d ->
  now' - now < default_ttl ->
  served_under_every_key now now' u d w.
Proof.
  intros Hu Hd Hty Hnow. unfold served_under_every_key.
  destruct (cache_user_spec now u d w Hu Hd Hty)
    as (w1 & Hrun & Hh & Hs & Hl & Hin & Hout).
  exists w1. split; [done|].
  assert (Hvalid : _is_cache_valid now' (CacheEntry (Some u) now default_ttl) = true).
  { unfold _is_cache_valid. cbn. apply Z.ltb_lt. done. }
  split; [|split; [|split]].
  - intros Ht. unfold get_user_by_id.
    assert (Hk : _get_cache_key "user_id" (py_str (get d "id")) ∈ user_keys d).
    { unfold user_keys. rewrite Ht. set_solver. }
    edestruct (lookup_hit now' "user_id" (get d "id")) as (w2 & Hr & _ & _ & Hlog & _);
      [exact (Hin _ Hk)|exact Hvalid| |].
    + done.
    + exists w2. split; [exact Hr|done].
  - intros Ht. unfold get_user_by_email.
    assert (exists e, get d "email" = VStr e) as [e He].
    { unfold get in *. destruct (d !! "email") as [v|] eqn:He; [|done].
      cbn in *. by apply (Hty v). }
    assert (Hk : _get_cache_key "email" (lower e) ∈ user_keys d).
    { unfold user_keys. rewrite Ht, He. cbn [py_str]. set_solver. }
    rewrite He. unfold as_str, bind at 1, ret at 1.
    edestruct (lookup_hit now' "email" (VStr e)) as (w2 & Hr & _ & _ & Hlog & _);
      [exact (Hin _ Hk)|exact Hvalid| |].
    + done.
    + exists w2. split; [exact Hr|done].
  - intros Ht Hsl. unfold get_user_by_entra_oid.
    assert (Hk : _get_cache_key "entra_oid" (py_str (get d "entra_oid")) ∈ user_keys d).
    { unfold user_keys. rewrite Ht. clear. set_solver. }
    assert (Hdbg : forall w0, sliceable (get d "entra_oid") w0 = (Ok tt, w0)).
    { intros w0. destruct Hsl as [Hsl|[s Hsl]].
      - by destruct (get d "entra_oid").
      - by rewrite Hsl. }
    destruct (lookup_hit now' "entra_oid" (get d "entra_oid") _
                (sliceable (get d "entra_oid"))
                (_fetch_user_by_entra_oid (get d "entra_oid")) w1 _
                (Hin _ Hk) Hvalid Hdbg) as (w2 & Hr & _ & _ & Hlog & _).
    exists w2. split; [exact Hr|done].
  - intros identifier lookup_type. unfold invalidate_user_cache.
    eexists. split; [reflexivity|]. wsimpl.
    split; [apply lookup_delete_eq|].
    intros k Hk Hne. rewrite lookup_delete_ne by done. by apply Hin.
Qed.

(** C9, counterexample.  [bob] is cached under his three keys and then
    invalidated under his email: the email key misses, but the id key and
    the entra_oid key still serve the cached record, with no call on the
    store. *)
Lemma C9_counterexample :
  let w0 := Examples.world_of [Examples.bob] [] in
  let w1 := (cache_user 1000 (Some 0%nat) w0).2 in
  let w2 := (invalidate_user_cache (VStr "bob@x.org") "email" w1).2 in
  (get_user_by_email 1100 (VStr "bob@x.org") w2).1 = Ok None
  /\ (get_user_by_id 1100 (VStr "u7") w2).1 = Ok (Some 0%nat)
  /\ store_log (get_user_by_id 1100 (VStr "u7") w2).2 = []
  /\ (get_user_by_entra_oid 1100 (VStr "oid-7") w2).1 = Ok (Some 0%nat)
  /\ store_log (get_user_by_entra_oid 1100 (VStr "oid-7") w2).2 = [].
Proof. by_evaluation. Qed.

Lemma C9_witness :
  served_under_every_key 1000 1100 0%nat Examples.bob
    (Examples.world_of [Examples.bob] []).
Proof.
  apply C9_cache_user_every_key.
  - reflexivity.
  - vm_compute. reflexivity.
  - intros v Hv _. vm_compute in Hv. injection Hv as <-. eauto.
  - reflexivity.
Defined.

End UserRecordCache.

(** ** Verification of a token whose key id is unknown *)

Section UnknownKey.
Import EntraAuthService.

(** With the time stamp at 0 the cached set is taken as expired at any
    moment of the real clock: the forced call does fetch, once. *)
Lemma forced_refetch_fetches E now w :
  jwks_cache_ttl <= now ->
  jwks_fetches (_fetch_jwks_with_cache E now (set_jwks (jwks_cache w) 0 w)).2
  = S (jwks_fetches w).
Proof.
  intros Hnow. unfold _fetch_jwks_with_cache.
  unfold bind at 1. unfold gets at 1. unfold cache_is_valid. wsimpl.
  replace (now - 0 <? jwks_cache_ttl) with false
    by (symmetry; apply Z.ltb_ge; lia).
  rewrite andb_false_r.
  unfold bind, gets, modify, try_except, lift, ret, raise. wsimpl.
  destruct (jwks_endpoint E (jwks_fetches w)) as [doc|e]; [done|].
  destruct e; try done. by destruct (jwks_truthy _).
Qed.

(** A key id found neither in the set at hand nor in the set fetched
    again: the 401 raised for it is caught by the last handler of
    [verify_token] and leaves as a 500. *)
Lemma verify_token_unknown_kid E now token header jwks_a w1 jwks_b w2 w :
  get_unverified_header E token = Ok header ->
  truthy (get header "kid") = true ->
  _fetch_jwks_with_cache E now w = (Ok jwks_a, w1) ->
  find_key jwks_a (get header "kid") = None ->
  _fetch_jwks_with_cache E now (set_jwks (jwks_cache w1) 0 w1) = (Ok jwks_b, w2) ->
  find_key jwks_b (get header "kid") = None ->
  verify_token E now token w
  = (Raise (HTTPException 500 "Internal authentication error"), w2).
Proof.
  intros Hh Hkid Hf1 Hk1 Hf2 Hk2. unfold verify_token.
  unfold try_except, bind at 1, lift at 1. rewrite Hh. rewrite Hkid. cbn [negb].
  unfold bind at 1. rewrite Hf1.
  unfold bind at 1. rewrite Hk1.
  unfold bind at 1, gets at 1. unfold bind at 1, modify at 1.
  unfold bind at 1. rewrite Hf2. rewrite Hk2. reflexivity.
Qed.

(** C7.  The key set cached at [t0] and the set the provider serves both
    hold the key ["k1"] only.  Verifying a token whose header names
    ["k2"] fetches the set again once, and then leaves [verify_token] as
    [HTTPException(500, "Internal authentication error")], not as the 401
    "Unable to find appropriate key" that the code raises for it. *)
Theorem C7_unknown_kid_leaves_as_500 :
  let w := Examples.world_at [] [] ∅ in
  let r := verify_token Examples.E0 (Examples.t0 + 100) "tok-k2" w in
  r.1 = Raise (HTTPException 500 "Internal authentication error")
  /\ jwks_fetches r.2 = S (jwks_fetches w)
  /\ jwks_cache r.2 = Examples.jwks1.
Proof. by_evaluation. Qed.

End UnknownKey.

(** ** Roles and subject of a record found by email *)

Section FoundByEmail.
Import Examples.

(** The value under [k] of the record a resolver returned. *)
Definition returned (k : string) (r : res loc * world) : option pyval :=
  match r.1 with
  | Ok u => (heap r.2 !! u) ≫= (fun d => d !! k)
  | Raise _ => None
  end.

(** [alice] once the subject of the token is written to her record at
    [t0 + 100]. *)
Definition alice_migrated : dict :=
  <["updated_at" := VStr "1700000100"]> (<["entra_oid" := VStr "abc123"]> alice).

(** C3.  The store holds [alice] with roles [["admin"]]; her provider
    token carries an empty roles claim.  [get_me] returns her with roles
    [[]]: line 635 assigns the claim whatever it is.  (The two resolvers
    keep the stored roles, see [resolvers_keep_stored_roles].) *)
Theorem C3_get_me_blanks_roles :
  let r := Auth.get_me E0 both (t0 + 100) "tok-alice" (world_at [] [alice] ∅) in
  alice !! "roles" = Some (VList [VStr "admin"])
  /\ alice_claims !! "roles" = Some (VList [])
  /\ returned "id" r = Some (VStr "u1")
  /\ returned "roles" r = Some (VList []).
Proof. by_evaluation. Qed.

Lemma resolvers_keep_stored_roles :
  returned "roles"
    (Auth.get_current_user_cached E0 both (t0 + 100) "tok-alice"
       (world_at [] [alice] ∅)) = Some (VList [VStr "admin"])
  /\ returned "roles"
       (Auth.get_current_user_any E0 both (t0 + 100) "tok-alice"
          (world_at [] [alice] ∅)) = Some (VList [VStr "admin"]).
Proof. by_evaluation. Qed.

(** C4.  The store holds [alice] by email only; her provider token
    carries the subject ["abc123"].  [get_current_user_cached] returns her
    with the subject set on the returned dictionary only: the store is not
    written, and a look-up by the subject, in the store or through the
    cache, finds nothing.  [get_current_user_entra] writes the subject to
    the store and then fails with a 401, on the call of
    [invalidate_user_cache] with keywords it does not take. *)
Theorem C4_subject_not_persisted :
  let w := world_at [] [alice] ∅ in
  let rc := Auth.get_current_user_cached E0 both (t0 + 100) "tok-alice" w in
  let re := Auth.get_current_user_entra E0 both (t0 + 100) "tok-alice" w in
  (returned "id" rc = Some (VStr "u1")
   /\ returned "entra_oid" rc = Some (VStr "abc123")
   /\ store rc.2 = [alice]
   /\ (CosmosDB.get_user_by_entra_oid (VStr "abc123") rc.2).1 = Ok None
   /\ (AzureCachedUserService.get_user_by_entra_oid (t0 + 200)
         (VStr "abc123") rc.2).1 = Ok None)
  /\ (re.1 = Raise (HTTPException 401
        "Invalid Entra ID token or user migration error: invalidate_user_cache() got an unexpected keyword argument 'user_id'")
      /\ store re.2 = [alice_migrated]).
Proof. by_evaluation. Qed.

(** The resolver defined at line 866 does both: the subject is in the
    store afterwards, and a look-up by it returns the record. *)
Lemma any_persists_subject :
  let w := world_at [] [alice] ∅ in
  let r := Auth.get_current_user_any E0 both (t0 + 100) "tok-alice" w in
  let q := CosmosDB.get_user_by_entra_oid (VStr "abc123") r.2 in
  returned "id" r = Some (VStr "u1")
  /\ store r.2 = [alice_migrated]
  /\ q.1 = Ok (Some 2%nat)
  /\ heap q.2 !! 2%nat = Some alice_migrated.
Proof. by_evaluation. Qed.

End FoundByEmail.

(** ** Service tokens *)

Section ServiceToken.
Import Auth.

(** Only the key-set fields of the world differ. *)
Definition only_jwks_changed (w w' : world) : Prop :=
  heap w' = heap w /\ store w' = store w /\ store_log w' = store_log w
  /\ user_cache w' = user_cache w /\ cache_stats w' = cache_stats w
  /\ auth_cache w' = auth_cache w
  /\ user_creation_locks w' = user_creation_locks w /\ tasks w' = tasks w.

Lemma only_jwks_changed_refl w : only_jwks_changed w w.
Proof. by repeat split. Qed.

Lemma only_jwks_changed_trans w1 w2 w3 :
  only_jwks_changed w1 w2 -> only_jwks_changed w2 w3 -> only_jwks_changed w1 w3.
Proof.
  unfold only_jwks_changed. intros (?&?&?&?&?&?&?&?) (?&?&?&?&?&?&?&?).
  repeat split; congruence.
Qed.

Lemma fetch_jwks_frame E now w :
  wp (EntraAuthService._fetch_jwks_with_cache E now)
     (fun _ w' => only_jwks_changed w w') w.
Proof.
  unfold EntraAuthService._fetch_jwks_with_cache.
  wp_steps. destruct (EntraAuthService.cache_is_valid now w).
  - wp_steps. apply only_jwks_changed_refl.
  - wp_steps. destruct (jwks_endpoint E (jwks_fetches w)) as [doc|e].
    + wp_steps. by repeat split.
    + destruct e; wp_steps; try by repeat split.
      wsimpl. destruct (EntraAuthService.jwks_truthy (jwks_cache w));
        wp_steps; by repeat split.
Qed.

(** Invariants: a property of the world that each step keeps. *)
Lemma wp_bind_inv {A B} (m : M A) (k : A -> M B) (P : world -> Prop) w :
  wp m (fun _ w' => P w') w ->
  (forall a w', P w' -> wp (k a) (fun _ w'' => P w'') w') ->
  wp (bind m k) (fun _ w' => P w') w.
Proof.
  intros Hm Hk. apply wp_bind. eapply wp_mono; [exact Hm|].
  intros [a|e] w' HP; [by apply Hk|done].
Qed.

Lemma wp_try_except_inv {A} (m : M A) h (P : world -> Prop) w :
  wp m (fun _ w' => P w') w ->
  (forall e w', P w' -> wp (h e) (fun _ w'' => P w'') w') ->
  wp (try_except m h) (fun _ w' => P w') w.
Proof.
  intros Hm Hh. apply wp_try_except. eapply wp_mono; [exact Hm|].
  intros [a|e] w' HP; [done|by apply Hh].
Qed.

Lemma verify_token_frame E now token w :
  wp (EntraAuthService.verify_token E now token)
     (fun _ w' => only_jwks_changed w w') w.
Proof.
  unfold EntraAuthService.verify_token.
  apply wp_try_except_inv.
  2:{ intros e w' H. destruct e as [| | | | | |[] ?| |]; by wp_steps. }
  apply wp_bind_inv; [wp_steps; apply only_jwks_changed_refl|].
  intros header w0 H0.
  destruct (negb (truthy (get header "kid"))); [by wp_steps|].
  apply wp_bind_inv.
  { eapply wp_mono; [apply fetch_jwks_frame|]. intros r1 w1 H1.
    by eapply only_jwks_changed_trans. }
  intros jwks w1 H1.
  apply wp_bind_inv; [|intros key w2 H2; by wp_steps].
  destruct (EntraAuthService.find_key jwks (get header "kid")) as [key|];
    [by wp_steps|].
  apply wp_bind_inv; [by wp_steps|]. intros c w2 H2.
  apply wp_bind_inv.
  { wp_steps. eapply only_jwks_changed_trans; [exact H2|]. by repeat split. }
  intros _ w3 H3.
  apply wp_bind_inv.
  { eapply wp_mono; [apply fetch_jwks_frame|]. intros r4 w4 H4.
    by eapply only_jwks_changed_trans. }
  intros jwks2 w4 H4.
  destruct (EntraAuthService.find_key jwks2 (get header "kid")); by wp_steps.
Qed.


Definition app_id_of (payload : dict) : pyval :=
  py_or (get payload "appid") (get payload "azp").

(** [not email or not entra_oid] *)
Definition no_user_identity (payload : dict) : bool :=
  (negb (truthy (email_claim payload)) || negb (truthy (get payload "oid")))%bool.

Definition service_identity (payload : dict) (u : loc) (w1 : world) : Prop :=
  exists d, heap w1 !! u = Some d
    /\ d !! "id" = Some (VStr ("app_" ++ py_str (app_id_of payload)))
    /\ d !! "auth_type" = Some (VStr "entra_app").

Definition user_store_untouched (w w1 : world) : Prop :=
  store w1 = store w /\ store_log w1 = store_log w
  /\ user_cache w1 = user_cache w /\ cache_stats w1 = cache_stats w
  /\ tasks w1 = tasks w.

Lemma is_app_only_default payload dflt :
  truthy dflt = false ->
  is_app_only payload (get_default payload "roles" dflt)
  = is_app_only payload (get payload "roles").
Proof.
  intros Hd. unfold is_app_only, get_default, get.
  destruct (payload !! "roles"); cbn; [done|]. by rewrite Hd.
Qed.

Lemma app_identity_dict_fields app_id roles :
  app_identity_dict app_id roles !! "id" = Some (VStr ("app_" ++ py_str app_id))
  /\ app_identity_dict app_id roles !! "auth_type" = Some (VStr "entra_app").
Proof. unfold app_identity_dict. split; by simplify_map_eq. Qed.

Lemma verify_with_ok E cfg now token w payload w' :
  verify_with E cfg now token w = (Ok payload, w') ->
  entra_service_present cfg = true
  /\ EntraAuthService.verify_token E now token w = (Ok payload, w')
  /\ only_jwks_changed w w'.
Proof.
  unfold verify_with. intros H. destruct (entra_service_present cfg); [|done].
  repeat split; try done.
  all: by apply (wp_run _ _ _ _ _ H (verify_token_frame E now token w)).
Qed.

(** What the claim says of a service token whose verified claims are
    [payload]: both resolvers return the identity of the service
    principal, neither calls the user store nor touches the user-record
    cache; the resolver of line 866 also files the identity in the
    authentication cache. *)
Definition service_token_resolution (E : env) (cfg : config) (now : Z)
    (token : string) (payload : dict) (w : world) : Prop :=
  (exists u w1,
      get_current_user_cached E cfg now token w = (Ok u, w1)
      /\ service_identity payload u w1
      /\ user_store_untouched w w1
      /\ auth_cache w1 = auth_cache w)
  /\ (is_entra_enabled cfg = true ->
      auth_cache w !! AuthenticationCache.generate_token_hash token = None ->
      exists u w1,
        get_current_user_any E cfg now token w = (Ok u, w1)
        /\ service_identity payload u w1
        /\ user_store_untouched w w1
        /\ auth_cache w1
           = <[AuthenticationCache.generate_token_hash token := AuthEntry u now]>
               (auth_cache w)).

(** C6.  A verified token without a usable email or subject that the code
    classifies as application-only (an application id, and [appidacr] of
    "1" or roles without [scp]) resolves to the identity ["app_<appid>"]
    of kind ["entra_app"]; the store, its call log, the user-record cache
    and the scheduled tasks are as they were. *)
Theorem C6_service_token_bypasses_user_store E cfg now token payload w w' :
  verify_with E cfg now token w = (Ok payload, w') ->
  no_user_identity payload = true ->
  is_app_only payload (get payload "roles") = true ->
  service_token_resolution E cfg now token payload w.
Proof.
  intros Hv Hno Happ. unfold service_token_resolution.
  destruct (verify_with_ok _ _ _ _ _ _ _ Hv)
    as (Hsvc & Hv' & Hh & Hs & Hl & Hc & Hcs & Ha & Hlk & Ht).
  unfold no_user_identity in Hno.
  split.
  - unfold get_current_user_cached, try_except, cached_entra_part.
    unfold bind at 1. rewrite Hv. rewrite Hno.
    rewrite (is_app_only_default payload VNone eq_refl), Happ.
    unfold alloc. eexists _, _. split; [reflexivity|].
    split; [|split].
    + eexists. split; [wsimpl; by rewrite lookup_app_r, Nat.sub_diag by lia|].
      apply app_identity_dict_fields.
    + by repeat split.
    + done.
  - intros Hen Hmiss.
    unfold get_current_user_any.
    unfold bind at 1. unfold AuthenticationCache.get.
    unfold bind at 1, gets at 1. rewrite Hmiss. unfold ret at 1.
    unfold bind at 1. unfold truthy_obj at 1, ret at 1.
    rewrite Hen, Hsvc. cbn [andb].
    unfold try_except, any_entra_part.
    unfold bind at 1. rewrite Hv'. rewrite Hno.
    rewrite (is_app_only_default payload (VList []) eq_refl), Happ.
    unfold bind at 1, alloc at 1. unfold bind at 1.
    unfold AuthenticationCache.set, modify, ret.
    eexists _, _. split; [reflexivity|].
    split; [|split].
    + eexists. split; [wsimpl; by rewrite lookup_app_r, Nat.sub_diag by lia|].
      apply app_identity_dict_fields.
    + by repeat split.
    + wsimpl. by rewrite Ha, Hh.
Qed.

Lemma C6_witness :
  service_token_resolution Examples.E0 Examples.both (Examples.t0 + 100)
    "tok-app" Examples.app_claims
    (Examples.world_at [] [Examples.alice] ∅).
Proof.
  apply (C6_service_token_bypasses_user_store _ _ _ _ _ _
           (Examples.world_at [] [Examples.alice] ∅)).
  - vm_compute. reflexivity.
  - vm_compute. reflexivity.
  - vm_compute. reflexivity.
Defined.

End ServiceToken.

(** ** The authentication cache and the second call *)

Section SecondCall.
Import Auth.

(** Whatever [m] does, go on from its outcome. *)
Lemma wp_bind_any {A B} (m : M A) (k : A -> M B) (Q : res B -> world -> Prop) w :
  (forall e w', Q (Raise e) w') ->
  (forall a w', wp (k a) Q w') ->
  wp (bind m k) Q w.
Proof.
  intros He Hk. apply wp_bind. apply wp_intro. intros [a|e] w' _; eauto.
Qed.

Lemma wp_setitem_any l k v (Q : res unit -> world -> Prop) w :
  (forall d, heap w !! l = Some d ->
     Q (Ok tt) (set_heap (fun h => <[l := <[k := v]> d]> h) w)) ->
  (forall e, Q (Raise e) w) ->
  wp (setitem l k v) Q w.
Proof.
  intros Hok He. unfold setitem. apply wp_bind. apply wp_deref.
  destruct (heap w !! l) as [d|] eqn:Hd; [|apply He].
  apply wp_modify. by apply Hok.
Qed.

(** The identity [u] is filed under [h] at [now], and is a non-empty
    dictionary. *)
Definition filed (h : string) (now : Z) (u : loc) (w : world) : Prop :=
  auth_cache w !! h = Some (AuthEntry u now)
  /\ exists d, heap w !! u = Some d /\ dict_truthy d = true.

Definition filed_on_success (h : string) (now : Z) (r : res loc) (w : world) : Prop :=
  forall u, r = Ok u -> filed h now u w.

Lemma dict_truthy_insert (d : dict) k v : dict_truthy (<[k := v]> d) = true.
Proof.
  unfold dict_truthy. rewrite bool_decide_eq_false_2; [done|].
  apply insert_non_empty.
Qed.

(** The last steps of every successful path: mark the record, file it,
    return it. *)
Lemma mark_file_return h now user k v w :
  wp (setitem user k v;; AuthenticationCache.set now h user;; ret user)
     (filed_on_success h now) w.
Proof.
  apply wp_bind. apply wp_setitem_any; [|by intros e u].
  intros d Hd. unfold AuthenticationCache.set. wp_steps.
  intros u [= <-]. split; wsimpl.
  - apply lookup_insert_eq.
  - eexists. split; [|apply dict_truthy_insert].
    apply list_lookup_insert_eq. by eapply lookup_lt_Some.
Qed.

Lemma any_entra_part_files E now token h w :
  wp (any_entra_part E now token h) (filed_on_success h now) w.
Proof.
  unfold any_entra_part.
  apply wp_bind_any; [by intros e w' u|]. intros payload w0.
  destruct (_ || _)%bool.
  - destruct (is_app_only _ _); [|by wp_steps].
    unfold AuthenticationCache.set. wp_steps.
    intros u [= <-]. split; wsimpl.
    + apply lookup_insert_eq.
    + eexists. split; [by rewrite lookup_app_r, Nat.sub_diag by lia|].
      unfold app_identity_dict. apply dict_truthy_insert.
  - apply wp_bind_any; [by intros e w' u|]. intros by_oid w1.
    apply wp_bind_any; [by intros e w' u|]. intros found w2.
    apply wp_bind_any; [by intros e w' u|]. intros user w3.
    apply wp_bind_any; [by intros e w' u|]. intros found' w4.
    destruct user as [user|]; [destruct found'|].
    + apply wp_bind_any; [by intros e w' u|]. intros _ w5.
      apply wp_bind_any; [by intros e w' u|]. intros _ w6.
      apply wp_bind_any; [by intros e w' u|]. intros _ w7.
      apply mark_file_return.
    + apply wp_bind_any; [by intros e w' u|]. intros user_data w5.
      apply mark_file_return.
    + apply wp_bind_any; [by intros e w' u|]. intros user_data w5.
      apply mark_file_return.
Qed.

Lemma any_legacy_part_files E cfg now token h w :
  wp (any_legacy_part E cfg now token h) (filed_on_success h now) w.
Proof.
  unfold any_legacy_part.
  apply wp_bind_any; [by intros e w' u|]. intros payload w0.
  destruct (negb _); [by wp_steps|].
  apply wp_bind_any; [by intros e w' u|]. intros user w1.
  apply wp_bind_any; [by intros e w' u|]. intros found w2.
  destruct user as [user|]; [destruct found|]; try by wp_steps.
  apply mark_file_return.
Qed.

Lemma any_after_entra_files E cfg now token h err w :
  wp (any_after_entra E cfg now token h err) (filed_on_success h now) w.
Proof.
  unfold any_after_entra.
  destruct (is_legacy_enabled cfg); [|by wp_steps].
  apply wp_try_except. eapply wp_mono; [apply any_legacy_part_files|].
  intros [u|e] w' H; [done|]. by wp_steps.
Qed.

(** No entry of the authentication cache is valid for [h] at [now]. *)
Definition no_valid_entry (h : string) (now : Z) (w : world) : Prop :=
  forall e, auth_cache w !! h = Some e ->
            AuthenticationCache.ttl_seconds <= now - ae_timestamp e.

Lemma get_current_user_any_files E cfg now token w :
  no_valid_entry (AuthenticationCache.generate_token_hash token) now w ->
  wp (get_current_user_any E cfg now token)
     (filed_on_success (AuthenticationCache.generate_token_hash token) now) w.
Proof.
  intros Hmiss. unfold get_current_user_any.
  set (h := AuthenticationCache.generate_token_hash token) in *.
  apply wp_bind.
  apply (wp_mono _ (fun r w' => r = Ok None)).
  { unfold AuthenticationCache.get. wp_steps.
    destruct (auth_cache w !! h) as [e|] eqn:He; [|by wp_steps].
    specialize (Hmiss e He).
    replace (now - ae_timestamp e <? AuthenticationCache.ttl_seconds) with false
      by (symmetry; apply Z.ltb_ge; lia).
    by wp_steps. }
  intros r w0 ->.
  wp_step. apply wp_truthy_obj_none. cbn beta iota.
  destruct (_ && _)%bool.
  - apply wp_try_except. eapply wp_mono; [apply any_entra_part_files|].
    intros [u|e] w' H; [done|].
    destruct (negb _); [by wp_steps|]. apply any_after_entra_files.
  - apply any_after_entra_files.
Qed.

(** A second call finds the identity filed by the first. *)
Lemma get_current_user_any_hit E cfg now now' token u w :
  filed (AuthenticationCache.generate_token_hash token) now u w ->
  now' - now < AuthenticationCache.ttl_seconds ->
  get_current_user_any E cfg now' token w = (Ok u, w).
Proof.
  intros [Hc (d & Hd & Ht)] Hnow. unfold get_current_user_any.
  unfold bind at 1. unfold AuthenticationCache.get.
  unfold bind at 1, gets at 1. rewrite Hc. cbn [ae_timestamp ae_user_data].
  replace (now' - now <? AuthenticationCache.ttl_seconds) with true
    by (symmetry; by apply Z.ltb_lt).
  unfold ret at 1. unfold bind at 1, truthy_obj.
  unfold bind at 1, deref. rewrite Hd. unfold ret at 1. by rewrite Ht.
Qed.

(** The second call: the identity [u] filed at [now] is what the call at
    [now'] returns, and the call changes nothing, in the store, its call
    log or anywhere else. *)
Definition second_call_from_cache (E : env) (cfg : config) (now now' : Z)
    (token : string) (u : loc) (w1 : world) : Prop :=
  auth_cache w1 !! AuthenticationCache.generate_token_hash token
  = Some (AuthEntry u now)
  /\ get_current_user_any E cfg now' token w1 = (Ok u, w1).

(** C1 (as amended).  For [get_current_user_any] as defined at line 866:
    when a call at [now] resolves a token for which the authentication
    cache held no valid entry, the identity it returns is filed under the
    hash of the token, and a call with the same token less than
    [ttl_seconds] later returns that same identity and leaves the world
    as it was: no look-up and no write reaches the user store. *)
Theorem C1_second_call_from_auth_cache E cfg now now' token w u w1 :
  no_valid_entry (AuthenticationCache.generate_token_hash token) now w ->
  get_current_user_any E cfg now token w = (Ok u, w1) ->
  now' - now < AuthenticationCache.ttl_seconds ->
  second_call_from_cache E cfg now now' token u w1.
Proof.
  intros Hmiss Hrun Hnow.
  pose proof (wp_run _ _ _ _ _ Hrun (get_current_user_any_files E cfg now token w Hmiss))
    as Hf.
  specialize (Hf u eq_refl). split.
  - by destruct Hf as [Hc _].
  - by eapply get_current_user_any_hit.
Qed.

Lemma C1_witness :
  exists u w1,
    get_current_user_any Examples.E0 Examples.both (Examples.t0 + 100)
      "tok-alice" (Examples.world_at [] [Examples.alice] ∅) = (Ok u, w1)
    /\ second_call_from_cache Examples.E0 Examples.both (Examples.t0 + 100)
         (Examples.t0 + 250) "tok-alice" u w1.
Proof.
  eexists _, _. split; [vm_compute; reflexivity|].
  eapply (C1_second_call_from_auth_cache _ _ _ _ _
            (Examples.world_at [] [Examples.alice] ∅)).
  - intros e He. vm_compute in He. discriminate He.
  - vm_compute. reflexivity.
  - vm_compute. reflexivity.
Defined.

(** C1, counterexample.  Under the name that the other routers import the
    resolver is [get_current_user_cached].  The user cache holds [bob]
    since [t0].  A first call at [t0 + 650] resolves the token from that
    entry; nothing is filed in the authentication cache.  The second call,
    250 seconds later, finds the entry expired and asks the store. *)
Lemma C1_counterexample :
  let key := AzureCachedUserService._get_cache_key "entra_oid" "oid-7" in
  let w := Examples.world_at [Examples.bob] [Examples.bob]
             {[key := CacheEntry (Some 0%nat) Examples.t0 900]} in
  let r1 := exported_get_current_user_any Examples.E0 Examples.both
              (Examples.t0 + 650) "tok-bob" w in
  let r2 := exported_get_current_user_any Examples.E0 Examples.both
              (Examples.t0 + 900) "tok-bob" r1.2 in
  r1.1 = Ok 0%nat
  /\ store_log r1.2 = []
  /\ auth_cache r1.2 = ∅
  /\ r2.1 = Ok 1%nat
  /\ store_log r2.2 = [OpQuery "entra_oid" "oid-7"].
Proof. by_evaluation. Qed.

End SecondCall.

(** ** Roles of a resolved identity *)

Section ResolvedRoles.
Import Auth.

(** ** Frames

    [rel K st w w']: every object of [w] is still there in [w'] with the
    same values under the keys [K]; when [st] is set, the store is the
    same too. *)
Definition rel (K : list string) (st : bool) (w w' : world) : Prop :=
  (forall l d, heap w !! l = Some d ->
     exists d', heap w' !! l = Some d' /\ forall k, In k K -> d' !! k = d !! k)
  /\ (st = true -> store w' = store w).

Lemma rel_refl K st w : rel K st w w.
Proof. split; eauto. Qed.

Lemma rel_trans K st w1 w2 w3 : rel K st w1 w2 -> rel K st w2 w3 -> rel K st w1 w3.
Proof.
  intros [H12 S12] [H23 S23]. split.
  - intros l d H. destruct (H12 _ _ H) as (d' & H' & Hr).
    destruct (H23 _ _ H') as (d'' & H'' & Hr'). exists d''. split; [done|].
    intros k Hk. rewrite Hr', Hr; done.
  - intros Hst. rewrite S23, S12; done.
Qed.

Lemma rel_frame K st w w' :
  heap w' = heap w -> (st = true -> store w' = store w) -> rel K st w w'.
Proof. intros Hh Hs. split; [|done]. intros l d H. rewrite Hh. eauto. Qed.

Lemma rel_alloc K st w d : rel K st w (set_heap (fun h => (h ++ [d])%list) w).
Proof.
  split; [|done]. intros l d0 H. exists d0. split; [|done]. wsimpl.
  by apply lookup_app_l_Some.
Qed.

Lemma rel_setitem K st w l k v d :
  heap w !! l = Some d -> ~ In k K ->
  rel K st w (set_heap (fun h => <[l := <[k := v]> d]> h) w).
Proof.
  intros Hl Hk. split; [|done]. intros l' d' H. wsimpl.
  destruct (decide (l = l')) as [->|Hne].
  - rewrite list_lookup_insert_eq by (by eapply lookup_lt_Some).
    eexists. split; [done|]. intros k' Hk'.
    rewrite lookup_insert_ne by (intros ->; done). congruence.
  - rewrite list_lookup_insert_ne by done. eauto.
Qed.

(** [rwp K st m w]: whatever [m] does from [w] respects [rel K st]. *)
Definition rwp {A} (K : list string) (st : bool) (m : M A) (w : world) : Prop :=
  wp m (fun _ w' => rel K st w w') w.

Lemma rwp_bind {A B} K st (m : M A) (k : A -> M B) w :
  rwp K st m w -> (forall a w', rwp K st (k a) w') -> rwp K st (bind m k) w.
Proof.
  unfold rwp. intros Hm Hk. apply wp_bind. eapply wp_mono; [exact Hm|].
  intros [a|e] w' H; [|done].
  eapply wp_mono; [apply Hk|]. intros r w'' H'. exact (rel_trans _ _ _ _ _ H H').
Qed.

Lemma rwp_try_except {A} K st (m : M A) h w :
  rwp K st m w -> (forall e w', rwp K st (h e) w') -> rwp K st (try_except m h) w.
Proof.
  unfold rwp. intros Hm Hh. apply wp_try_except. eapply wp_mono; [exact Hm|].
  intros [a|e] w' H; [done|].
  eapply wp_mono; [apply Hh|]. intros r w'' H'. exact (rel_trans _ _ _ _ _ H H').
Qed.

Lemma rwp_try_finally {A} K st (m : M A) f w :
  rwp K st m w -> (forall w', rwp K st f w') -> rwp K st (try_finally m f) w.
Proof.
  unfold rwp. intros Hm Hf. apply wp_try_finally. eapply wp_mono; [exact Hm|].
  intros r w' H. eapply wp_mono; [apply Hf|].
  intros [[]|e] w'' H'; exact (rel_trans _ _ _ _ _ H H').
Qed.

Lemma rwp_ret {A} K st (a : A) w : rwp K st (ret a) w.
Proof. apply wp_ret, rel_refl. Qed.
Lemma rwp_raise {A} K st e w : rwp K st (raise e : M A) w.
Proof. apply wp_raise, rel_refl. Qed.
Lemma rwp_lift {A} K st (r : res A) w : rwp K st (lift r) w.
Proof. apply wp_lift, rel_refl. Qed.
Lemma rwp_gets {A} K st (f : world -> A) w : rwp K st (gets f) w.
Proof. apply wp_gets, rel_refl. Qed.
Lemma rwp_modify K st f w :
  heap (f w) = heap w -> (st = true -> store (f w) = store w) ->
  rwp K st (modify f) w.
Proof. intros H Hs. apply wp_modify. by apply rel_frame. Qed.
Lemma rwp_alloc K st d w : rwp K st (alloc d) w.
Proof. apply wp_alloc, rel_alloc. Qed.
Lemma rwp_deref K st l w : rwp K st (deref l) w.
Proof. apply wp_deref. destruct (heap w !! l); apply rel_refl. Qed.
Lemma rwp_setitem K st l k v w : ~ In k K -> rwp K st (setitem l k v) w.
Proof.
  intros Hk. unfold setitem. apply wp_bind, wp_deref.
  destruct (heap w !! l) as [d|] eqn:Hl; [|apply rel_refl].
  apply wp_modify. by apply rel_setitem.
Qed.

Ltac not_in_keys := cbn; intuition discriminate.

Ltac rel_go :=
  repeat (intros;
    lazymatch goal with
    | |- rwp _ _ (bind _ _) _ => apply rwp_bind
    | |- rwp _ _ (ret _) _ => apply rwp_ret
    | |- rwp _ _ (raise _) _ => apply rwp_raise
    | |- rwp _ _ (lift _) _ => apply rwp_lift
    | |- rwp _ _ (gets _) _ => apply rwp_gets
    | |- rwp _ _ (modify _) _ =>
        apply rwp_modify; [reflexivity|first [reflexivity|discriminate]]
    | |- rwp _ _ (alloc _) _ => apply rwp_alloc
    | |- rwp _ _ (deref _) _ => apply rwp_deref
    | |- rwp _ _ (setitem _ _ _) _ => apply rwp_setitem; not_in_keys
    | |- rwp _ _ (try_except _ _) _ => apply rwp_try_except
    | |- rwp _ _ (try_finally _ _) _ => apply rwp_try_finally
    | |- rwp _ _ (match ?x with _ => _ end) _ => destruct x
    | |- rwp _ _ (if ?b then _ else _) _ => destruct b
    end).

Lemma rwp_setdefault K st l k v w : ~ In k K -> rwp K st (setdefault l k v) w.
Proof. intros Hk. unfold setdefault. rel_go. Qed.

Lemma rwp_getitem K st l k w : rwp K st (getitem l k) w.
Proof. unfold getitem. rel_go. Qed.

Lemma rwp_truthy_obj K st o w : rwp K st (truthy_obj o) w.
Proof. unfold truthy_obj. rel_go. Qed.

Lemma rwp_as_str K st v w : rwp K st (as_str v) w.
Proof. unfold as_str. rel_go. Qed.

Lemma rwp_query_user K st f v w : rwp K st (Container.query_user f v) w.
Proof. unfold Container.query_user, Container.log. rel_go. Qed.

Lemma rwp_first_or_none K st rs w : rwp K st (CosmosDB.first_or_none rs) w.
Proof. unfold CosmosDB.first_or_none. rel_go. Qed.

Lemma rwp_get_user_by_email K st e w : rwp K st (CosmosDB.get_user_by_email e) w.
Proof.
  unfold CosmosDB.get_user_by_email. rel_go;
    first [apply rwp_as_str | apply rwp_query_user | apply rwp_first_or_none].
Qed.

Lemma rwp_get_user_by_entra_oid K st o w :
  rwp K st (CosmosDB.get_user_by_entra_oid o) w.
Proof.
  unfold CosmosDB.get_user_by_entra_oid. rel_go;
    first [apply rwp_query_user | apply rwp_first_or_none].
Qed.

Lemma rwp_replace_item K i b w : rwp K false (Container.replace_item i b) w.
Proof. unfold Container.replace_item, Container.log. rel_go. Qed.

Lemma rwp_cache_user K st now o w :
  rwp K st (AzureCachedUserService.cache_user now o) w.
Proof.
  unfold AzureCachedUserService.cache_user.
  apply rwp_bind; [apply rwp_truthy_obj|]. intros t w1.
  destruct o as [u|]; [destruct t|]; rel_go; apply rwp_as_str.
Qed.

Lemma wp_conj {A} (m : M A) (Q1 Q2 : res A -> world -> Prop) w :
  wp m Q1 w -> wp m Q2 w -> wp m (fun r w' => Q1 r w' /\ Q2 r w') w.
Proof. unfold wp. done. Qed.

(** The object [l] has a non-empty value under ["roles"]. *)
Definition roles_at (w : world) (l : loc) : Prop :=
  exists d, heap w !! l = Some d /\ truthy (get d "roles") = true.

Definition returns_with_roles (r : res loc) (w : world) : Prop :=
  forall u, r = Ok u -> roles_at w u.

Lemma roles_at_rel K st w w' l :
  In "roles" K -> rel K st w w' -> roles_at w l -> roles_at w' l.
Proof.
  intros HK [Hh _] (d & Hd & Hr). destruct (Hh _ _ Hd) as (d' & Hd' & Hk).
  exists d'. split; [done|]. unfold get in *. by rewrite (Hk _ HK).
Qed.

(** The stored users with the address [n] or the subject [oid] have
    roles. *)
Definition matching_have_roles (n oid : pyval) (w : world) : Prop :=
  forall doc,
    In doc (Container.select_user "email" n (store w))
    \/ In doc (Container.select_user "entra_oid" oid (store w)) ->
    truthy (get doc "roles") = true.

Lemma matching_have_roles_rel K n oid w w' :
  rel K true w w' -> matching_have_roles n oid w -> matching_have_roles n oid w'.
Proof. intros [_ Hs] H doc. rewrite Hs by done. apply H. Qed.

(** What a look-up in the store returns is one of the selected documents. *)
Lemma query_first_found field value w :
  wp (let! results := Container.query_user field value in
      CosmosDB.first_or_none results)
     (fun r w' =>
        forall l, r = Ok (Some l) ->
          exists doc, heap w' !! l = Some doc
            /\ In doc (Container.select_user field value (store w))) w.
Proof.
  apply wp_query_first. cbn zeta.
  destruct (Container.select_user field value (store w)) as [|doc rest].
  - intros l [=].
  - intros l [= <-]. exists doc. split; [|by left]. wsimpl.
    by rewrite lookup_app_r, Nat.sub_diag by lia.
Qed.

Lemma get_user_by_entra_oid_found K oid w :
  wp (CosmosDB.get_user_by_entra_oid oid)
     (fun r w' =>
        rel K true w w'
        /\ forall l, r = Ok (Some l) ->
             exists doc, heap w' !! l = Some doc
               /\ In doc (Container.select_user "entra_oid" oid (store w))) w.
Proof.
  apply wp_conj; [apply rwp_get_user_by_entra_oid|apply query_first_found].
Qed.

Lemma get_user_by_email_found K email w :
  wp (CosmosDB.get_user_by_email email)
     (fun r w' =>
        rel K true w w'
        /\ forall l, r = Ok (Some l) ->
             exists doc, heap w' !! l = Some doc
               /\ In doc (Container.select_user "email" (normalized_email email)
                            (store w))) w.
Proof.
  apply wp_conj; [apply rwp_get_user_by_email|].
  unfold CosmosDB.get_user_by_email. apply wp_bind.
  destruct (truthy email) eqn:Ht.
  - destruct email as [|b|z|s|l]; unfold as_str; try by wp_steps.
    wp_steps. cbn in Ht. cbn [normalized_email].
    destruct (String.eqb s ""); [done|]. apply query_first_found.
  - wp_steps.
    assert (normalized_email email = email) as ->.
    { destruct email as [|b|z|s|l]; try done. cbn in *.
      by destruct (String.eqb s ""). }
    apply query_first_found.
Qed.

(** A stored record that was looked up under [n] or [oid] has roles. *)
Lemma found_has_roles n oid w w' l doc field :
  matching_have_roles n oid w ->
  heap w' !! l = Some doc ->
  (field = "email" /\ In doc (Container.select_user "email" n (store w))
   \/ field = "entra_oid" /\ In doc (Container.select_user "entra_oid" oid (store w))) ->
  roles_at w' l.
Proof.
  intros Hinv Hl Hin. exists doc. split; [done|]. apply Hinv.
  destruct Hin as [[_ H]|[_ H]]; eauto.
Qed.

(** One step under an invariant that the frame preserves. *)
Lemma wp_bind_rel {A B} K st (I : world -> Prop) (m : M A) (k : A -> M B)
    (Q : res B -> world -> Prop) w :
  I w ->
  (forall w w', rel K st w w' -> I w -> I w') ->
  rwp K st m w ->
  (forall e w', I w' -> Q (Raise e) w') ->
  (forall a w', I w' -> wp (k a) Q w') ->
  wp (bind m k) Q w.
Proof.
  unfold rwp. intros HI Hpres Hm He Hk. apply wp_bind. eapply wp_mono; [exact Hm|].
  intros [a|e] w' Hrel; cbn beta in Hrel; [apply Hk|apply He]; eauto.
Qed.

Lemma set_heap_id f w : f (heap w) = heap w -> set_heap f w = w.
Proof. intros H. destruct w. unfold set_heap. cbn in *. by rewrite H. Qed.

Lemma select_user_app f v s1 s2 :
  Container.select_user f v (s1 ++ s2)
  = (Container.select_user f v s1 ++ Container.select_user f v s2)%list.
Proof. unfold Container.select_user. apply List.filter_app. Qed.

Lemma select_user_In f v doc s :
  In doc (Container.select_user f v s) -> In doc s.
Proof. unfold Container.select_user. intros H. by apply filter_In in H as [H _]. Qed.

Lemma wp_truthy_obj_any o (Q : res bool -> world -> Prop) w :
  (forall r, Q r w) -> wp (truthy_obj o) Q w.
Proof.
  intros H. unfold truthy_obj. destruct o as [l|]; [|by wp_steps].
  apply wp_bind, wp_deref. destruct (heap w !! l); [by wp_steps|done].
Qed.

Section CreateUser.
Variables (now : Z) (body : loc) (n0 : string).
Hypothesis Hnorm : strip (lower n0) = n0.

(** The new record, as [create_user] keeps it: its email is the
    normalised [n0], its subject is [oid], and it has roles. *)
Definition new_record (oid : pyval) (w : world) : Prop :=
  exists d, heap w !! body = Some d
    /\ d !! "email" = Some (VStr n0)
    /\ get d "entra_oid" = oid
    /\ truthy (get d "roles") = true.

Definition create_inv (oid : pyval) (w : world) : Prop :=
  new_record oid w /\ matching_have_roles (VStr n0) oid w.

Definition create_post (oid : pyval) (r : res loc) (w : world) : Prop :=
  matching_have_roles (VStr n0) oid w /\ returns_with_roles r w.

Lemma create_inv_rel oid w w' :
  rel ["roles"; "email"; "entra_oid"] true w w' ->
  create_inv oid w -> create_inv oid w'.
Proof.
  intros Hrel [(d & Hd & He & Ho & Hr) Hinv]. split.
  - destruct Hrel as [Hh _]. destruct (Hh _ _ Hd) as (d' & Hd' & Hk).
    exists d'. split; [done|]. unfold get in *.
    rewrite !Hk by (cbn; tauto). done.
  - by eapply matching_have_roles_rel.
Qed.

Lemma create_item_post oid w :
  create_inv oid w ->
  wp (Container.create_item body) (create_post oid) w.
Proof.
  intros [(d & Hd & He & Ho & Hr) Hinv].
  unfold Container.create_item, Container.log.
  wp_steps. eapply wp_deref_some; [wsimpl; exact Hd|]. cbn beta iota.
  wp_steps. wsimpl.
  destruct (Container.doc_id d) as [id|]; [|wp_steps; split; [done|by intros u]].
  destruct (existsb _ _); wp_steps; [split; [done|by intros u]|].
  split.
  - intros doc. wsimpl. rewrite !select_user_app, !in_app_iff.
    intros [[H|H]|[H|H]]; try (apply Hinv; by eauto).
    all: apply select_user_In in H as [<-|[]]; done.
  - intros u [= <-]. exists d. split; [|done]. wsimpl.
    by rewrite lookup_app_r, Nat.sub_diag by lia.
Qed.

Lemma created_id_post oid created w :
  matching_have_roles (VStr n0) oid w -> roles_at w created ->
  wp (let! c := deref created in
      match c !! "id" with
      | Some _ => ret created
      | None => raise (KeyError "id")
      end) (create_post oid) w.
Proof.
  intros Hinv Hr. apply wp_bind, wp_deref.
  destruct (heap w !! created) as [c|]; [|split; [done|by intros u]].
  destruct (c !! "id"); wp_steps; (split; [done|]); [|by intros u].
  by intros u [= <-].
Qed.

Lemma create_user_post oid w :
  create_inv oid w ->
  wp (CosmosDB.create_user now body) (create_post oid) w.
Proof.
  intros HI. pose proof HI as [(d & Hd & He & Ho & Hr) Hinv].
  unfold CosmosDB.create_user.
  wp_step. eapply wp_deref_some; [exact Hd|]. cbn beta iota. rewrite He.
  (* the email is normalised already: the assignment changes nothing *)
  wp_step.
  apply (wp_mono _ (fun r w' => r = Ok tt /\ w' = w)).
  { destruct (truthy (VStr n0)); [|by wp_steps].
    unfold as_str. wp_steps. eapply wp_setitem; [exact Hd|].
    split; [done|]. apply set_heap_id. rewrite Hnorm.
    rewrite (insert_id d) by done. by apply list_insert_id. }
  intros r w' [-> ->].
  wp_step. eapply wp_getitem; [exact Hd|]. cbn beta iota.
  wp_step. eapply wp_getitem; [exact Hd|]. cbn beta iota.
  assert (Hge : get d "email" = VStr n0) by (unfold get; by rewrite He).
  rewrite !Hge, !Ho.
  assert (Hexc : forall e w', create_inv oid w' -> create_post oid (Raise e) w').
  { intros e w' [_ H]. split; [done|by intros u]. }
  (* the look-up by email *)
  wp_step.
  apply (wp_mono _ (fun r w' =>
           create_inv oid w'
           /\ forall l, r = Ok (Some l) -> roles_at w' l)).
  { destruct (truthy (VStr n0)) eqn:Ht; [|wp_steps; split; [exact HI|intros l [=]]].
    eapply wp_mono; [apply get_user_by_email_found|].
    intros r w' [Hrel Hfound]. split.
    - by eapply create_inv_rel.
    - intros l ->. destruct (Hfound l eq_refl) as (doc & Hl & Hin).
      eapply found_has_roles; [exact Hinv|exact Hl|]. left. split; [done|].
      cbn in Ht. cbn [normalized_email] in Hin.
      destruct (String.eqb n0 ""); [done|]. by rewrite Hnorm in Hin. }
  intros [by_email|e] w1 [HI1 Hf1]; [|by apply Hexc].
  wp_step. apply wp_truthy_obj_any. intros [found|e]; [|by apply Hexc].
  assert (Hrest :
    wp (let! by_oid :=
          (if truthy oid then CosmosDB.get_user_by_entra_oid oid else ret None) in
        let! found_by_oid := truthy_obj by_oid in
        match by_oid, found_by_oid with
        | Some existing_user, true => ret existing_user
        | _, _ =>
            setitem body "type" (VStr "user");;
            let! d := deref body in
            setdefault body "auth_method"
              (get_default d "auth_method" (VStr "legacy"));;
            setdefault body "display_name"
              (py_or (get d "displayName") (get d "email"));;
            setdefault body "last_login" (isoformat now);;
            setdefault body "is_active" (VBool true);;
            setdefault body "created_at" (isoformat now);;
            setdefault body "updated_at" (isoformat now);;
            let! created_user := Container.create_item body in
            let! c := deref created_user in
            match c !! "id" with
            | Some _ => ret created_user
            | None => raise (KeyError "id")
            end
        end) (create_post oid) w1).
  { clear Hf1 by_email found.
    wp_step.
    apply (wp_mono _ (fun r w' =>
             create_inv oid w'
             /\ forall l, r = Ok (Some l) -> roles_at w' l)).
    { destruct (truthy oid) eqn:Ht; [|wp_steps; split; [exact HI1|intros l [=]]].
      eapply wp_mono; [apply get_user_by_entra_oid_found|].
      intros r w' [Hrel Hfound]. split.
      - by eapply create_inv_rel.
      - intros l ->. destruct (Hfound l eq_refl) as (doc & Hl & Hin).
        destruct HI1 as [_ Hinv1].
        eapply found_has_roles; [exact Hinv1|exact Hl|]. by right. }
    intros [by_oid|e] w2 [HI2 Hf2]; [|by apply Hexc].
    wp_step. apply wp_truthy_obj_any. intros [found|e]; [|by apply Hexc].
    assert (Htail :
      wp (setitem body "type" (VStr "user");;
          let! d := deref body in
          setdefault body "auth_method"
            (get_default d "auth_method" (VStr "legacy"));;
          setdefault body "display_name"
            (py_or (get d "displayName") (get d "email"));;
          setdefault body "last_login" (isoformat now);;
          setdefault body "is_active" (VBool true);;
          setdefault body "created_at" (isoformat now);;
          setdefault body "updated_at" (isoformat now);;
          let! created_user := Container.create_item body in
          let! c := deref created_user in
          match c !! "id" with
          | Some _ => ret created_user
          | None => raise (KeyError "id")
          end) (create_post oid) w2).
    { clear Hf2 by_oid found.
      eapply (wp_bind_rel _ true (create_inv oid));
        [exact HI2|apply create_inv_rel|apply rwp_setitem; not_in_keys|exact Hexc|].
      intros _ w3 HI3.
      eapply (wp_bind_rel _ true (create_inv oid));
        [exact HI3|apply create_inv_rel|apply rwp_deref|exact Hexc|].
      intros d3 w4 HI4.
      do 6 (eapply (wp_bind_rel _ true (create_inv oid));
            [eassumption|apply create_inv_rel
            |apply rwp_setdefault; not_in_keys|exact Hexc|];
            intros _ ? ?).
      wp_step. eapply wp_mono; [apply create_item_post; eassumption|].
      intros [created|e] wc [Hinvc Hret]; [|split; [done|by intros u]].
      apply created_id_post; [done|]. by apply Hret. }
    destruct by_oid as [existing|]; [destruct found|]; try exact Htail.
    wp_steps. destruct HI2 as [_ Hinv2]. split; [done|].
    intros u [= <-]. by apply Hf2. }
  destruct by_email as [existing|]; [destruct found|]; try exact Hrest.
  wp_steps. destruct HI1 as [_ Hinv1]. split; [done|].
  intros u [= <-]. by apply Hf1.
Qed.

End CreateUser.

Section GetOrCreate.
Variables (now : Z) (cache_user : option loc -> M unit).
Hypothesis cache_user_frame : forall o w, rwp ["roles"] true (cache_user o) w.
Variables (s : string) (oid roles : pyval).
Hypothesis email_truthy : truthy (VStr s) = true.
Hypothesis roles_truthy : truthy roles = true.

Let n0 := strip (lower s).
Let inv := matching_have_roles (VStr n0) oid.

Lemma inv_rel K w w' : rel K true w w' -> inv w -> inv w'.
Proof. apply matching_have_roles_rel. Qed.

Lemma roles_at_rel_roles st l w w' :
  rel ["roles"] st w w' -> roles_at w l -> roles_at w' l.
Proof. apply roles_at_rel. by left. Qed.

Lemma by_email_found w :
  inv w ->
  wp (CosmosDB.get_user_by_email (VStr s))
     (fun r w' => inv w' /\ forall l, r = Ok (Some l) -> roles_at w' l) w.
Proof.
  intros Hinv. eapply wp_mono; [apply (get_user_by_email_found ["roles"])|].
  intros r w' [Hrel Hfound]. split; [by eapply inv_rel|].
  intros l ->. destruct (Hfound l eq_refl) as (doc & Hl & Hin).
  eapply found_has_roles; [exact Hinv|exact Hl|]. left. split; [done|].
  cbn [normalized_email] in Hin. cbn in email_truthy.
  by destruct (String.eqb s "").
Qed.

Lemma by_oid_found w :
  inv w ->
  wp (if truthy oid then CosmosDB.get_user_by_entra_oid oid else ret None)
     (fun r w' => inv w' /\ forall l, r = Ok (Some l) -> roles_at w' l) w.
Proof.
  intros Hinv. destruct (truthy oid); [|wp_steps; split; [done|intros l [=]]].
  eapply wp_mono; [apply (get_user_by_entra_oid_found ["roles"])|].
  intros r w' [Hrel Hfound]. split; [by eapply inv_rel|].
  intros l ->. destruct (Hfound l eq_refl) as (doc & Hl & Hin).
  eapply found_has_roles; [exact Hinv|exact Hl|]. by right.
Qed.

(** Steps that keep the roles of [existing], then return it. *)
Lemma keep_then_return {A} (m : M A) existing w :
  rwp ["roles"] false m w -> roles_at w existing ->
  wp (m;; ret existing) returns_with_roles w.
Proof.
  intros Hm Hr.
  eapply (wp_bind_rel ["roles"] false (fun w => roles_at w existing));
    [exact Hr|intros ? ?; apply roles_at_rel_roles|exact Hm| |].
  - by intros e w' _ u.
  - intros _ w' Hr'. wp_steps. by intros u [= <-].
Qed.

Lemma handler_post create_error w :
  inv w ->
  wp (let! again := CosmosDB.get_user_by_email (VStr s) in
      let! found := truthy_obj again in
      match again, found with
      | Some existing_user, true => ret existing_user
      | _, _ => raise create_error
      end) returns_with_roles w.
Proof.
  intros Hinv. wp_step. eapply wp_mono; [by apply by_email_found|].
  intros [again|e] w' [_ Hf]; [|by intros u].
  wp_step. apply wp_truthy_obj_any. intros [found|e]; [|by intros u].
  destruct again as [existing|]; [destruct found|]; wp_steps; try by intros u.
  intros u [= <-]. by apply Hf.
Qed.

Lemma new_user_dict_record role w :
  let d :=
    <["id" := VStr ("user_" ++ pretty (now * 1000))]> (
    <["type" := VStr "user"]> (
    <["email" := VStr (strip (lower s))]> (
    <["entra_oid" := oid]> (
    <["roles" := py_or roles (VList [VStr "standard"])]> (
    <["role" := role]> (
    <["auth_method" := VStr "entra"]> (
    <["auth_type" := VStr "entra"]> (
    <["display_name" := VStr (strip (lower s))]> (
    <["is_active" := VBool true]> (
    <["created_at" := isoformat now]> (
    <["updated_at" := isoformat now]> ∅))))))))))) in
  new_record (List.length (heap w)) n0 oid
    (set_heap (fun h => (h ++ [d])%list) w).
Proof.
  intros d. exists d. split; [wsimpl; by rewrite lookup_app_r, Nat.sub_diag by lia|].
  subst d. unfold get. split; [by simplify_map_eq|]. split; [by simplify_map_eq|].
  simplify_map_eq. unfold py_or. by rewrite roles_truthy.
Qed.

Lemma get_or_create_entra_user_post w :
  inv w ->
  wp (get_or_create_entra_user now cache_user (VStr s) oid roles)
     returns_with_roles w.
Proof.
  intros Hinv. unfold get_or_create_entra_user.
  assert (Hexc : forall e w', inv w' -> returns_with_roles (Raise e) w')
    by (by intros e w' _ u).
  eapply (wp_bind_rel ["roles"] true inv);
    [exact Hinv|apply inv_rel| |exact Hexc|].
  { unfold hashable, as_str. rel_go. }
  intros lock_identifier w1 Hinv1.
  eapply (wp_bind_rel ["roles"] true inv);
    [exact Hinv1|apply inv_rel| |exact Hexc|].
  { unfold get_or_create_user_lock. rel_go. }
  intros _ w2 Hinv2.
  apply wp_try_finally.
  eapply (wp_mono _ returns_with_roles).
  2:{ intros r w' Hr. unfold AzureCachedUserService.create_task. wp_steps.
      intros u ->. destruct (Hr u eq_refl) as (d & Hd & Ht). by exists d. }
  wp_step. eapply wp_mono; [by apply by_email_found|].
  intros [by_email|e] w3 [Hinv3 Hf3]; [|by intros u].
  wp_step. apply wp_truthy_obj_any. intros [found|e]; [|by intros u].
  assert (Hrest :
    wp (let! by_oid :=
          (if truthy oid then CosmosDB.get_user_by_entra_oid oid else ret None) in
        let! found := truthy_obj by_oid in
        match by_oid, found with
        | Some existing_user, true =>
            let! d := deref existing_user in
            let! old := as_str (get_default d "email" (VStr "")) in
            let! e := as_str (VStr s) in
            (if negb (String.eqb (lower old) (lower e))
             then
               setitem existing_user "email" (VStr (strip (lower e)));;
               setitem existing_user "updated_at" (isoformat now);;
               let! _ := Container.replace_item existing_user existing_user in
               ret tt
             else ret tt);;
            ret existing_user
        | _, _ =>
            let! e := as_str (VStr s) in
            let! role :=
              (if truthy roles
               then let! n := len roles in
                    if 0 <? n then first_item roles else ret (VStr "standard")
               else ret (VStr "standard")) in
            let! user_data := alloc (
              <["id" := VStr ("user_" ++ pretty (now * 1000))]> (
              <["type" := VStr "user"]> (
              <["email" := VStr (strip (lower e))]> (
              <["entra_oid" := oid]> (
              <["roles" := py_or roles (VList [VStr "standard"])]> (
              <["role" := role]> (
              <["auth_method" := VStr "entra"]> (
              <["auth_type" := VStr "entra"]> (
              <["display_name" := VStr (strip (lower e))]> (
              <["is_active" := VBool true]> (
              <["created_at" := isoformat now]> (
              <["updated_at" := isoformat now]> ∅)))))))))))) in
            try_except
              (let! created_user := CosmosDB.create_user now user_data in
               cache_user (Some created_user);;
               ret created_user)
              (fun create_error =>
                 let! again := CosmosDB.get_user_by_email (VStr s) in
                 let! found := truthy_obj again in
                 match again, found with
                 | Some existing_user, true => ret existing_user
                 | _, _ => raise create_error
                 end)
        end) returns_with_roles w3).
  { clear Hf3 by_email found.
    wp_step. eapply wp_mono; [by apply by_oid_found|].
    intros [by_oid|e] w4 [Hinv4 Hf4]; [|by intros u].
    wp_step. apply wp_truthy_obj_any. intros [found|e]; [|by intros u].
    assert (Hcreate :
      wp (let! e := as_str (VStr s) in
          let! role :=
            (if truthy roles
             then let! n := len roles in
                  if 0 <? n then first_item roles else ret (VStr "standard")
             else ret (VStr "standard")) in
          let! user_data := alloc (
            <["id" := VStr ("user_" ++ pretty (now * 1000))]> (
            <["type" := VStr "user"]> (
            <["email" := VStr (strip (lower e))]> (
            <["entra_oid" := oid]> (
            <["roles" := py_or roles (VList [VStr "standard"])]> (
            <["role" := role]> (
            <["auth_method" := VStr "entra"]> (
            <["auth_type" := VStr "entra"]> (
            <["display_name" := VStr (strip (lower e))]> (
            <["is_active" := VBool true]> (
            <["created_at" := isoformat now]> (
            <["updated_at" := isoformat now]> ∅)))))))))))) in
          try_except
            (let! created_user := CosmosDB.create_user now user_data in
             cache_user (Some created_user);;
             ret created_user)
            (fun create_error =>
               let! again := CosmosDB.get_user_by_email (VStr s) in
               let! found := truthy_obj again in
               match again, found with
               | Some existing_user, true => ret existing_user
               | _, _ => raise create_error
               end)) returns_with_roles w4).
    { clear Hf4 by_oid found.
      unfold as_str at 1. wp_step. wp_step. cbn beta iota.
      eapply (wp_bind_rel ["roles"] true inv);
        [exact Hinv4|apply inv_rel| |exact Hexc|].
      { unfold len, first_item. rel_go. }
      intros role w5 Hinv5.
      wp_step. wp_step. cbn beta iota.
      set (w6 := set_heap _ w5).
      assert (Hnew : create_inv (List.length (heap w5)) n0 oid w6).
      { split; [apply new_user_dict_record|]. subst w6. intros doc. apply Hinv5. }
      apply wp_try_except. wp_step.
      eapply wp_mono;
        [apply (create_user_post now _ n0); [apply normalize_idem|exact Hnew]|].
      intros [created|e] w7 [Hinv7 Hret]; [|by apply handler_post].
      assert (Hr7 : roles_at w7 created) by (by apply Hret).
      wp_step. pose proof (cache_user_frame (Some created) w7) as Hcu.
      unfold rwp in Hcu. eapply wp_mono; [exact Hcu|].
      intros [[]|e] w8 Hrel; cbn beta in Hrel.
      - wp_steps. intros u [= <-]. by eapply roles_at_rel_roles.
      - apply handler_post. by eapply inv_rel. }
    destruct by_oid as [existing|]; [destruct found|]; try exact Hcreate.
    assert (Hr4 : roles_at w4 existing) by (by apply Hf4).
    (* found by the subject: the email may be rewritten, the roles stay *)
    eapply (wp_bind_rel ["roles"] false (fun w => roles_at w existing));
      [exact Hr4|intros ? ?; apply roles_at_rel_roles|apply rwp_deref
      |by intros e w' _ u|].
    intros d w5 Hr5.
    eapply (wp_bind_rel ["roles"] false (fun w => roles_at w existing));
      [exact Hr5|intros ? ?; apply roles_at_rel_roles|apply rwp_as_str
      |by intros e w' _ u|].
    intros old w6 Hr6.
    unfold as_str at 1. wp_step. wp_step. cbn beta iota.
    apply keep_then_return; [|done].
    rel_go. apply rwp_replace_item. }
  destruct by_email as [existing|]; [destruct found|]; try exact Hrest.
  assert (Hr3 : roles_at w3 existing) by (by apply Hf3).
  eapply (wp_bind_rel ["roles"] false (fun w => roles_at w existing));
    [exact Hr3|intros ? ?; apply roles_at_rel_roles|apply rwp_getitem
    |by intros e w' _ u|].
  intros oid0 w4 Hr4.
  apply keep_then_return; [|done].
  rel_go. apply rwp_replace_item.
Qed.

End GetOrCreate.

(** ** Look-ups through the user-record cache *)

(** The entry holds a record, not the mark of a look-up that found
    nothing. *)
Definition holds_record (w : world) (e : cache_entry) : Prop :=
  exists l d, ce_data e = Some l /\ heap w !! l = Some d /\ dict_truthy d = true.

(** A valid entry under [key] holds no record: the look-up is answered
    with "not found" from the cache, whatever the store holds. *)
Definition valid_miss (now : Z) (key : string) (w : world) : Prop :=
  exists e, user_cache w !! key = Some e
    /\ AzureCachedUserService._is_cache_valid now e = true
    /\ ~ holds_record w e.

Lemma holds_record_or_not w e : holds_record w e \/ ~ holds_record w e.
Proof.
  unfold holds_record. destruct (ce_data e) as [l|]; [|right; by intros (?&?&?&_)].
  destruct (heap w !! l) as [d|] eqn:Hd.
  - destruct (dict_truthy d) eqn:Ht; [left; by exists l, d|].
    right. intros (l' & d' & [= <-] & Hd' & Ht'). congruence.
  - right. intros (l' & d' & [= <-] & Hd' & _). congruence.
Qed.

(** From [w] to [w']: the store is the same, the objects are as they
    were, and so are the cache entries under keys other than [key]. *)
Definition unchanged_but (key : string) (w w' : world) : Prop :=
  store w' = store w
  /\ (forall l d, heap w !! l = Some d -> heap w' !! l = Some d)
  /\ (forall k, k <> key -> user_cache w' !! k = user_cache w !! k).

(** The look-up returned a record, or else [absent] holds. *)
Definition found_or (absent : Prop) (r : res (option loc)) (w : world) : Prop :=
  forall o, r = Ok o ->
    (exists l d, o = Some l /\ heap w !! l = Some d /\ dict_truthy d = true)
    \/ absent.

(** What a fetch from the store does. *)
Definition fetch_post (absent : Prop) (w : world) (r : res (option loc))
    (w' : world) : Prop :=
  store w' = store w /\ user_cache w' = user_cache w
  /\ (forall l d, heap w !! l = Some d -> heap w' !! l = Some d)
  /\ (exists o, r = Ok o)
  /\ found_or absent r w'.

Lemma lookup_spec now lookup_type identifier key debug fetch absent w :
  (forall w0, wp debug (fun _ w1 => w1 = w0) w0) ->
  (forall w0, store w0 = store w -> heap w0 = heap w ->
     user_cache w0 = user_cache w ->
     wp fetch (fetch_post absent w0) w0) ->
  wp (AzureCachedUserService.lookup now lookup_type identifier key debug fetch)
     (fun r w' => unchanged_but key w w'
                  /\ found_or (absent \/ valid_miss now key w) r w') w.
Proof.
  intros Hdebug Hfetch. unfold AzureCachedUserService.lookup.
  wp_step. wp_step. cbn beta iota zeta.
  assert (Hmiss :
    wp (modify (set_cache_stats AzureCachedUserService.bump_misses);;
        debug;;
        try_except
          (let! user := fetch in
           modify (set_user_cache
                     (fun c => <[key := CacheEntry user now
                                   AzureCachedUserService.default_ttl]> c));;
           ret user)
          (fun _ => modify (set_cache_stats AzureCachedUserService.bump_errors);;
                    ret None))
       (fun r w' => unchanged_but key w w'
                    /\ found_or (absent \/ valid_miss now key w) r w') w).
  { wp_step. wp_step. cbn beta iota. wp_step.
    eapply wp_mono; [apply Hdebug|]. intros [[]|e] w1 ->.
    2:{ split; [by repeat split|intros o [=]]. }
    wp_step. wp_step.
    eapply wp_mono; [apply Hfetch; reflexivity|].
    intros r w2 (Hs & Hc & Hh & [o ->] & Hf). wsimpl.
    wp_steps. split.
    - split; [done|]. split; [done|].
      intros k Hk. wsimpl. rewrite lookup_insert_ne by done. by rewrite Hc.
    - intros o' Ho'. destruct (Hf o' Ho') as [?|?]; [by left|by right; left]. }
  destruct (user_cache w !! key) as [e|] eqn:He; [|exact Hmiss].
  destruct (AzureCachedUserService._is_cache_valid now e) eqn:Hv; [|exact Hmiss].
  wp_step. wp_step. cbn beta iota. wp_step.
  assert (Hrest : forall w0, heap w0 = heap w -> store w0 = store w ->
            user_cache w0 = user_cache w ->
            wp (debug;; ret (ce_data e))
               (fun r w' => unchanged_but key w w'
                            /\ found_or (absent \/ valid_miss now key w) r w') w0).
  { intros w0 Hh Hs Hc. wp_step. eapply wp_mono; [apply Hdebug|].
    intros [[]|err] w1 ->.
    - wp_steps. split.
      + split; [done|]. split; [by rewrite Hh|]. intros k _. by rewrite Hc.
      + intros o [= <-].
        destruct (holds_record_or_not w e) as [(l & d & Hl & Hd & Ht)|Hno].
        * left. exists l, d. by rewrite Hh.
        * right. right. by exists e.
    - split; [|intros o [=]].
      split; [done|]. split; [by rewrite Hh|]. intros k _. by rewrite Hc. }
  destruct (AzureCachedUserService._should_background_refresh now e).
  - unfold AzureCachedUserService.create_task. wp_step. cbn beta iota.
    by apply Hrest.
  - wp_step. cbn beta iota. by apply Hrest.
Qed.

Lemma fetch_by_entra_oid_spec oid w :
  wp (AzureCachedUserService._fetch_user_by_entra_oid oid)
     (fetch_post (Container.select_user "entra_oid" oid (store w) = []) w) w.
Proof.
  unfold AzureCachedUserService._fetch_user_by_entra_oid.
  wp_step. wp_step. cbn beta iota. apply wp_get_user_by_entra_oid. cbn zeta. wsimpl.
  destruct (Container.select_user "entra_oid" oid (store w)) as [|doc rest] eqn:Hsel.
  - repeat split; eauto. intros o _. by right.
  - repeat split; wsimpl; eauto.
    + intros l d Hl. by apply lookup_app_l_Some.
    + intros o [= <-]. left. exists (List.length (heap w)), doc.
      split; [done|]. wsimpl.
      split; [by rewrite lookup_app_r, Nat.sub_diag by lia|].
      by eapply select_user_truthy.
Qed.

Lemma fetch_by_email_spec s w :
  wp (AzureCachedUserService._fetch_user_by_email (VStr s))
     (fetch_post
        (Container.select_user "email" (normalized_email (VStr s)) (store w) = [])
        w) w.
Proof.
  unfold AzureCachedUserService._fetch_user_by_email.
  wp_step. wp_step. cbn beta iota.
  apply wp_get_user_by_email; [by eauto|]. cbn zeta. wsimpl.
  destruct (Container.select_user "email" (normalized_email (VStr s)) (store w))
    as [|doc rest] eqn:Hsel.
  - repeat split; eauto. intros o _. by right.
  - repeat split; wsimpl; eauto.
    + intros l d Hl. by apply lookup_app_l_Some.
    + intros o [= <-]. left. exists (List.length (heap w)), doc.
      split; [done|]. wsimpl.
      split; [by rewrite lookup_app_r, Nat.sub_diag by lia|].
      by eapply select_user_truthy.
Qed.

Lemma get_user_by_entra_oid_spec now oid w :
  let key := AzureCachedUserService._get_cache_key "entra_oid" (py_str oid) in
  wp (AzureCachedUserService.get_user_by_entra_oid now oid)
     (fun r w' =>
        unchanged_but key w w'
        /\ found_or (Container.select_user "entra_oid" oid (store w) = []
                     \/ valid_miss now key w) r w') w.
Proof.
  intros key. unfold AzureCachedUserService.get_user_by_entra_oid. cbn zeta.
  apply lookup_spec.
  - intros w0. unfold AzureCachedUserService.sliceable. by destruct oid; wp_steps.
  - intros w0 Hs _ _. rewrite <- Hs. apply fetch_by_entra_oid_spec.
Qed.

Lemma get_user_by_email_spec now s w :
  let key := AzureCachedUserService._get_cache_key "email" (lower s) in
  wp (AzureCachedUserService.get_user_by_email now (VStr s))
     (fun r w' =>
        unchanged_but key w w'
        /\ found_or (Container.select_user "email" (normalized_email (VStr s))
                       (store w) = []
                     \/ valid_miss now key w) r w') w.
Proof.
  intros key. unfold AzureCachedUserService.get_user_by_email, as_str.
  wp_step. wp_step. cbn beta iota zeta.
  apply lookup_spec.
  - intros w0. by wp_steps.
  - intros w0 Hs _ _. rewrite <- Hs. apply fetch_by_email_spec.
Qed.

Lemma cache_keys_differ x y :
  AzureCachedUserService._get_cache_key "email" x
  <> AzureCachedUserService._get_cache_key "entra_oid" y.
Proof. unfold AzureCachedUserService._get_cache_key. cbn. discriminate. Qed.

Lemma holds_record_unchanged key w w' e :
  unchanged_but key w w' -> holds_record w e -> holds_record w' e.
Proof.
  intros (_ & Hh & _) (l & d & Hl & Hd & Ht). exists l, d. eauto.
Qed.

(** [truthy_obj] reads only. *)
Lemma truthy_obj_reads o w r w' : truthy_obj o w = (r, w') -> w' = w.
Proof.
  unfold truthy_obj. destruct o as [l|]; [|by intros [= _ <-]].
  unfold bind, deref. destruct (heap w !! l); by intros [= _ <-].
Qed.

Lemma truthy_obj_found o w w' l d :
  truthy_obj o w = (Ok false, w') ->
  o = Some l -> heap w !! l = Some d -> dict_truthy d = true -> False.
Proof.
  intros Hrun -> Hd Ht. unfold truthy_obj, bind, deref in Hrun.
  rewrite Hd in Hrun. unfold ret in Hrun. congruence.
Qed.

Lemma truthy_obj_true_some o w w' :
  truthy_obj o w = (Ok true, w') -> exists l, o = Some l.
Proof. destruct o; [eauto|]. unfold truthy_obj, ret. congruence. Qed.

(** ** Roles of the identity that [get_current_user_cached] returns *)

(** The identity is that of a service, or has roles. *)
Definition service_or_roles (d : dict) : Prop :=
  d !! "auth_type" = Some (VStr "entra_app") \/ truthy (get d "roles") = true.

Definition identity_has_roles (r : res loc) (w : world) : Prop :=
  forall u, r = Ok u -> exists d, heap w !! u = Some d /\ service_or_roles d.

Lemma raise_has_roles e w : identity_has_roles (Raise e) w.
Proof. by intros u. Qed.

(** Assigning a non-empty list of roles and returning the record. *)
Lemma set_roles_return user v rest w :
  wp (setitem user "roles" (VList (v :: rest));; ret user) identity_has_roles w.
Proof.
  apply wp_bind. apply wp_setitem_any; [|intros e; apply raise_has_roles].
  intros d Hd. wp_steps. intros u [= <-]. eexists. split.
  - wsimpl. apply list_lookup_insert_eq. by eapply lookup_lt_Some.
  - right. unfold get. by rewrite lookup_insert_eq.
Qed.

(** The record found through the cache (lines 772-790): whatever its
    roles were, it leaves with a non-empty list. *)
Lemma found_branch_roles user oid roles w :
  wp (setitem user "auth_type" (VStr "entra");;
      setitem user "entra_oid" oid;;
      (if (isinstance_list roles && (0 <? py_len roles))%bool
       then setitem user "roles" roles
       else ret tt);;
      let! d := deref user in
      (match d !! "roles" with
       | Some (VList (_ :: _)) => ret tt
       | _ =>
           let fallback_role := get_default d "role" (VStr "standard") in
           setitem user "roles" (VList [fallback_role])
       end);;
      ret user) identity_has_roles w.
Proof.
  do 2 (apply wp_bind_any; [apply raise_has_roles|]; intros _ ?).
  apply wp_bind_any; [apply raise_has_roles|]. intros _ w3.
  apply wp_bind. apply wp_deref.
  destruct (heap w3 !! user) as [d|] eqn:Hd; [|apply raise_has_roles].
  destruct (d !! "roles") as [[| | | |[|x rest]]|] eqn:Hr;
    try apply set_roles_return.
  wp_steps. intros u [= <-]. exists d. split; [done|]. right.
  unfold get. by rewrite Hr.
Qed.

Lemma cached_legacy_part_roles E cfg now token w :
  wp (cached_legacy_part E cfg now token) identity_has_roles w.
Proof.
  unfold cached_legacy_part. apply wp_try_except.
  eapply wp_mono with (Q := identity_has_roles);
    [|intros [u|e] w' H; [done|by wp_steps]].
  apply wp_bind_any; [apply raise_has_roles|]. intros payload w0.
  destruct (negb _); [by wp_steps|].
  apply wp_bind_any; [apply raise_has_roles|]. intros user w1.
  apply wp_bind_any; [apply raise_has_roles|]. intros found w2.
  destruct user as [user|]; [destruct found|]; try by wp_steps.
  do 3 (apply wp_bind_any; [apply raise_has_roles|]; intros ? ?).
  apply set_roles_return.
Qed.

Lemma app_identity_is_service app_id roles :
  service_or_roles (app_identity_dict app_id roles).
Proof. left. unfold app_identity_dict. by simplify_map_eq. Qed.

(** The stored users with [value] under [field] have roles. *)
Definition stored_have_roles (field : string) (value : pyval) (w : world) : Prop :=
  forall doc, In doc (Container.select_user field value (store w)) ->
    truthy (get doc "roles") = true.

(** A valid entry under [key] holds a record. *)
Definition served_is_record (now : Z) (key : string) (w : world) : Prop :=
  forall e, user_cache w !! key = Some e ->
    AzureCachedUserService._is_cache_valid now e = true -> holds_record w e.

(** The look-up of [value] under [field], cached under [ident], cannot
    hide a stored user without roles: the cache does not answer it with
    "not found", or the stored users it would hide have roles. *)
Definition key_safe (now : Z) (field ident : string) (value : pyval) (w : world)
  : Prop :=
  served_is_record now (AzureCachedUserService._get_cache_key field ident) w
  \/ stored_have_roles field value w.

(** The two look-ups that [get_current_user_cached] makes for the claims
    of [token], when it is a provider token with a subject and an email. *)
Definition lookups_safe (E : env) (cfg : config) (now : Z) (token : string)
    (w : world) : Prop :=
  forall payload w0, verify_with E cfg now token w = (Ok payload, w0) ->
    key_safe now "entra_oid" (py_str (get payload "oid")) (get payload "oid") w
    /\ forall s, email_claim payload = VStr s ->
         key_safe now "email" (lower s) (VStr (strip (lower s))) w.

(** A look-up that did not find a user, in a world [w'] that differs
    from [w] by new objects and other cache entries. *)
Lemma not_found_have_roles now field ident value w w' :
  key_safe now field ident value w ->
  store w' = store w ->
  (forall l d, heap w !! l = Some d -> heap w' !! l = Some d) ->
  user_cache w' !! AzureCachedUserService._get_cache_key field ident
    = user_cache w !! AzureCachedUserService._get_cache_key field ident ->
  Container.select_user field value (store w') = []
    \/ valid_miss now (AzureCachedUserService._get_cache_key field ident) w' ->
  stored_have_roles field value w'.
Proof.
  intros Hsafe Hs Hh Hc [Hnone|(e & He & Hv & Hno)] doc.
  - by rewrite Hnone.
  - destruct Hsafe as [Hserved|Hdocs]; [|rewrite Hs; apply Hdocs].
    destruct Hno. rewrite Hc in He.
    destruct (Hserved e He Hv) as (l & d & Hl & Hd & Ht). exists l, d. eauto.
Qed.

Lemma stored_have_roles_matching n oid w :
  stored_have_roles "email" n w -> stored_have_roles "entra_oid" oid w ->
  matching_have_roles n oid w.
Proof. intros He Ho doc [H|H]; [by apply He|by apply Ho]. Qed.

(** The new user of lines 793-815. *)
Lemma created_branch_roles now s oid roles w :
  truthy (VStr s) = true ->
  matching_have_roles (VStr (strip (lower s))) oid w ->
  wp (try_except
        (let! user_data :=
           get_or_create_entra_user now
             (AzureCachedUserService.cache_user now) (VStr s) oid
             (if truthy roles then roles else VList [VStr "standard"]) in
         setitem user_data "auth_type" (VStr "entra");;
         ret user_data)
        (fun create_error =>
           raise (HTTPException 500
                    ("Failed to create user account: " ++ exn_str create_error))))
     identity_has_roles w.
Proof.
  intros Ht Hinv. apply wp_try_except.
  eapply wp_mono with (Q := identity_has_roles);
    [|intros [u|e] w' H; [done|by wp_steps]].
  apply wp_bind.
  eapply wp_mono;
    [apply (get_or_create_entra_user_post now (AzureCachedUserService.cache_user now))|].
  - intros o w0. apply rwp_cache_user.
  - exact Ht.
  - by destruct (truthy roles) eqn:Hr.
  - exact Hinv.
  - intros [u|e] w' Hret; [|apply raise_has_roles].
    destruct (Hret u eq_refl) as (d & Hd & Hr).
    apply wp_bind. eapply wp_setitem; [exact Hd|]. wp_steps.
    intros ? [= <-]. eexists. split.
    + wsimpl. apply list_lookup_insert_eq. by eapply lookup_lt_Some.
    + right. unfold get in *. by rewrite lookup_insert_ne.
Qed.

Lemma cached_entra_part_roles E cfg now token w :
  lookups_safe E cfg now token w ->
  wp (cached_entra_part E cfg now token) identity_has_roles w.
Proof.
  intros Hsafe. unfold cached_entra_part.
  apply wp_bind. apply wp_intro. intros [payload|e] w0 Hrun;
    [|apply raise_has_roles].
  assert (Hframe : only_jwks_changed w w0).
  { revert Hrun. unfold verify_with.
    destruct (entra_service_present cfg); [|by intros [=]].
    intros Hrun. exact (wp_run _ _ _ _ _ Hrun (verify_token_frame E now token w)). }
  destruct Hframe as (Hh0 & Hs0 & _ & Hc0 & _).
  destruct (Hsafe payload w0 Hrun) as [Hsafe_oid Hsafe_email]. clear Hsafe Hrun.
  set (oid := get payload "oid") in *.
  set (roles := get_default payload "roles" VNone).
  destruct (negb (truthy (email_claim payload)) || negb (truthy oid))%bool eqn:Hmiss.
  { destruct (is_app_only payload roles); [|by wp_steps].
    wp_steps. intros u [= <-]. eexists. split.
    - wsimpl. by rewrite lookup_app_r, Nat.sub_diag by lia.
    - apply app_identity_is_service. }
  apply orb_false_iff in Hmiss as [Hemail _]. apply negb_false_iff in Hemail.
  (* the look-up by subject *)
  apply wp_bind.
  eapply wp_mono; [apply get_user_by_entra_oid_spec|].
  intros [by_oid|e] w1 [Hun1 Hf1]; [|apply raise_has_roles].
  specialize (Hf1 by_oid eq_refl).
  apply wp_bind. apply wp_intro. intros [found|e] w1' Hrun1;
    [|apply raise_has_roles].
  pose proof (truthy_obj_reads _ _ _ _ Hrun1) as ->.
  destruct found.
  { (* found by subject *)
    destruct (truthy_obj_true_some _ _ _ Hrun1) as [user ->].
    wp_step. wp_step. cbn beta iota.
    apply wp_bind. apply wp_intro. intros [found|e] w2 Hrun2;
      [|apply raise_has_roles].
    pose proof (truthy_obj_reads _ _ _ _ Hrun2) as ->.
    assert (found = true) as -> by congruence.
    apply found_branch_roles. }
  assert (Hdocs_oid : stored_have_roles "entra_oid" oid w0).
  { apply (not_found_have_roles now "entra_oid" (py_str oid) oid w w0);
      [done|done|by rewrite Hh0|by rewrite Hc0|].
    destruct Hf1 as [(l & d & Ho & Hd & Ht)|H]; [|done].
    by destruct (truthy_obj_found _ _ _ _ _ Hrun1 Ho Hd Ht). }
  (* the look-up by email *)
  destruct (email_claim payload) as [| | |s|] eqn:Hs;
    try (unfold AzureCachedUserService.get_user_by_email, as_str;
         wp_step; wp_step; wp_step; apply raise_has_roles).
  specialize (Hsafe_email s eq_refl).
  assert (Hn : normalized_email (VStr s) = VStr (strip (lower s))).
  { cbn in Hemail |- *. by destruct (String.eqb s ""). }
  apply wp_bind.
  eapply wp_mono; [apply get_user_by_email_spec|].
  intros [by_email|e] w2 [Hun2 Hf2]; [|apply raise_has_roles].
  specialize (Hf2 by_email eq_refl).
  apply wp_bind. apply wp_intro. intros [found|e] w2' Hrun2; [|apply raise_has_roles].
  pose proof (truthy_obj_reads _ _ _ _ Hrun2) as ->.
  assert (Hcreate :
    (forall l d, by_email = Some l -> heap w2 !! l = Some d ->
       dict_truthy d = true -> False) ->
    wp (try_except
          (let! user_data :=
             get_or_create_entra_user now
               (AzureCachedUserService.cache_user now) (VStr s) oid
               (if truthy roles then roles else VList [VStr "standard"]) in
           setitem user_data "auth_type" (VStr "entra");;
           ret user_data)
          (fun create_error =>
             raise (HTTPException 500
                      ("Failed to create user account: " ++ exn_str create_error))))
       identity_has_roles w2).
  { intros Hnone. apply created_branch_roles; [done|].
    destruct Hun1 as (Hs1 & Hh1 & Hc1). destruct Hun2 as (Hs2 & _ & _).
    apply stored_have_roles_matching.
    - intros doc. rewrite Hs2.
      apply (not_found_have_roles now "email" (lower s) (VStr (strip (lower s))) w w1);
        [done|by rewrite Hs1|intros l d Hl; apply Hh1; by rewrite Hh0| |].
      + rewrite Hc1 by apply cache_keys_differ. by rewrite Hc0.
      + rewrite <- Hn. destruct Hf2 as [(l & d & Ho & Hd & Ht)|H]; [|done].
        by destruct (Hnone l d Ho Hd Ht).
    - intros doc. rewrite Hs2, Hs1. apply Hdocs_oid. }
  destruct by_email as [user|]; [destruct found|].
  - apply found_branch_roles.
  - apply Hcreate. intros l d Ho Hd Ht.
    by destruct (truthy_obj_found _ _ _ _ _ Hrun2 Ho Hd Ht).
  - apply Hcreate. intros l d [=].
Qed.

Lemma get_current_user_cached_roles E cfg now token w :
  lookups_safe E cfg now token w ->
  wp (get_current_user_cached E cfg now token) identity_has_roles w.
Proof.
  intros Hsafe. unfold get_current_user_cached. apply wp_try_except.
  eapply wp_mono; [by apply cached_entra_part_roles|].
  intros [u|e] w' H; [done|]. apply cached_legacy_part_roles.
Qed.

(** C5 (as amended).  Every identity that [get_current_user_cached]
    returns, for a provider token or a local one, is the identity of a
    service (kind ["entra_app"]) or has a non-empty value under
    ["roles"], provided that neither of the two look-ups made for the
    claims of a provider token can hide a stored user without roles
    ([lookups_safe]): under the key of the subject, and under the key of
    the email, the cache holds no valid entry that answers "not found",
    or else the stored users with that subject, or that email, have
    roles.  Entries under other keys, expired entries and entries that
    hold a record do not matter, and nothing is asked for a local token.
    The record found through the cache leaves with a non-empty list, the
    legacy user with the list of their one role, the new user with the
    roles of the token or [["standard"]].  The identity of a service
    carries the roles of its token, which may be none. *)
Theorem C5_identities_have_roles E cfg now token w u w' :
  lookups_safe E cfg now token w ->
  get_current_user_cached E cfg now token w = (Ok u, w') ->
  exists d, heap w' !! u = Some d /\ service_or_roles d.
Proof.
  intros Hsafe Hrun.
  exact (wp_run _ _ _ _ _ Hrun
           (get_current_user_cached_roles E cfg now token w Hsafe) u eq_refl).
Qed.

(** The world that a first call for [alice] leaves.  The store knows
    her by email only, so the look-up by subject has left a "not found"
    under the key of her subject and the look-up by email her record; an
    earlier look-up for somebody else has left a "not found" as well. *)
Definition before_first_call : world :=
  Examples.world_at [] [Examples.alice]
    {[AzureCachedUserService._get_cache_key "entra_oid" "oid-7"
        := CacheEntry None Examples.t0 900]}.

Definition after_first_call : world :=
  Eval vm_compute in
    (get_current_user_cached Examples.E0 Examples.both (Examples.t0 + 100)
       "tok-alice" before_first_call).2.

Lemma after_first_call_eq :
  after_first_call
  = (get_current_user_cached Examples.E0 Examples.both (Examples.t0 + 100)
       "tok-alice" before_first_call).2.
Proof. vm_compute. reflexivity. Qed.

(** Her record as the first call has left it. *)
Definition alice_served : dict :=
  Eval vm_compute in default ∅ (heap after_first_call !! 0%nat).

(** The second call for [alice], 100 seconds after the first: the entry
    under her subject answers "not found", and no stored user has that
    subject; the entry under her email holds her record. *)
Lemma C5_witness :
  valid_miss (Examples.t0 + 200)
    (AzureCachedUserService._get_cache_key "entra_oid" "abc123") after_first_call
  /\ exists u w1,
       get_current_user_cached Examples.E0 Examples.both (Examples.t0 + 200)
         "tok-alice" after_first_call = (Ok u, w1)
       /\ exists d, heap w1 !! u = Some d /\ service_or_roles d.
Proof.
  split.
  { exists (CacheEntry None (Examples.t0 + 100) 900).
    split; [vm_compute; reflexivity|]. split; [vm_compute; reflexivity|].
    intros (l & d & Hl & _). discriminate Hl. }
  eexists _, _. split; [vm_compute; reflexivity|].
  eapply (C5_identities_have_roles Examples.E0 Examples.both
            (Examples.t0 + 200) "tok-alice" after_first_call).
  - intros payload w0 Hv.
    assert (Hp : Ok payload = Ok Examples.alice_claims :> res dict).
    { change (Ok payload) with ((Ok payload, w0).1). rewrite <- Hv.
      vm_compute. reflexivity. }
    injection Hp as ->. split.
    + right. intros doc.
      assert (Hsel : Container.select_user "entra_oid"
                       (get Examples.alice_claims "oid") (store after_first_call)
                     = []) by (vm_compute; reflexivity).
      rewrite Hsel. intros [].
    + intros s Hs.
      assert (Hs' : VStr s = VStr "a@b.com")
        by (rewrite <- Hs; vm_compute; reflexivity).
      injection Hs' as ->.
      left. intros e He _.
      assert (Hl : user_cache after_first_call
                     !! AzureCachedUserService._get_cache_key "email" (lower "a@b.com")
                   = Some (CacheEntry (Some 0%nat) (Examples.t0 + 100) 900))
        by (vm_compute; reflexivity).
      rewrite Hl in He. injection He as <-.
      exists 0%nat, alice_served. split; [reflexivity|].
      split; [vm_compute; reflexivity|vm_compute; reflexivity].
  - vm_compute. reflexivity.
Defined.

(** C5, counterexample.  A service token without a roles claim resolves
    to the identity ["app_svc-1"] with the empty list of roles. *)
Lemma C5_counterexample :
  let r := get_current_user_cached Examples.E0 Examples.both (Examples.t0 + 100)
             "tok-app" (Examples.world_at [] [] ∅) in
  returned "id" r = Some (VStr "app_svc-1")
  /\ returned "auth_type" r = Some (VStr "entra_app")
  /\ returned "roles" r = Some (VList []).
Proof. by_evaluation. Qed.

(** Why the look-ups must be safe: both look-ups for [bob] are answered
    "not found" from the cache while the store has a record with his
    address and no roles; [get_or_create_entra_user] finds that record
    and it is returned as it is. *)
Definition bob_by_hand : dict :=
  <["id" := VStr "u9"]> (<["type" := VStr "user"]> (<["email" := VStr "bob@x.org"]> ∅)).

Lemma stale_miss_gives_no_roles :
  let miss := CacheEntry None Examples.t0 900 in
  let w := Examples.world_at [] [bob_by_hand]
             (<[AzureCachedUserService._get_cache_key "entra_oid" "oid-7" := miss]>
                {[AzureCachedUserService._get_cache_key "email" "bob@x.org" := miss]}) in
  let r := get_current_user_cached Examples.E0 Examples.both (Examples.t0 + 100)
             "tok-bob" w in
  returned "id" r = Some (VStr "u9")
  /\ returned "auth_type" r = Some (VStr "entra")
  /\ returned "roles" r = None.
Proof. by_evaluation. Qed.

(** The function [get_current_user_any] of line 866 gives no such
    guarantee for a local token: its legacy half returns the stored
    record as it is (lines 991-997).  A legacy user stored with a role
    and no roles leaves it without roles, and leaves
    [get_current_user_cached] with the list of that one role. *)
Definition legacy_alice : dict :=
  <["id" := VStr "u1"]> (
  <["type" := VStr "user"]> (
  <["email" := VStr "a@b.com"]> (
  <["role" := VStr "admin"]> ∅))).

Lemma any_legacy_record_as_stored :
  let w := Examples.world_at [] [legacy_alice] ∅ in
  let r := get_current_user_any Examples.E0 Examples.both (Examples.t0 + 100)
             "tok-legacy" w in
  let r' := get_current_user_cached Examples.E0 Examples.both (Examples.t0 + 100)
              "tok-legacy" w in
  returned "id" r = Some (VStr "u1")
  /\ returned "auth_type" r = Some (VStr "legacy")
  /\ returned "roles" r = None
  /\ returned "roles" r' = Some (VList [VStr "admin"]).
Proof. by_evaluation. Qed.

End ResolvedRoles.

(** * Further properties of the code *)

(** ** Parts of the world that a computation leaves alone *)

(** [m] leaves the part [f] of the world as it is, whatever it returns
    or raises. *)
Definition keeps {A X} (f : world -> X) (m : M A) : Prop :=
  forall w, wp m (fun _ w' => f w' = f w) w.

Lemma keeps_run {A X} (f : world -> X) (m : M A) w r w' :
  keeps f m -> m w = (r, w') -> f w' = f w.
Proof. intros H Hrun. exact (wp_run _ _ _ _ _ Hrun (H w)). Qed.

Lemma keeps_bind {A B X} (f : world -> X) (m : M A) (k : A -> M B) :
  keeps f m -> (forall a, keeps f (k a)) -> keeps f (bind m k).
Proof.
  intros Hm Hk w. apply wp_bind. eapply wp_mono; [apply Hm|].
  intros [a|e] w1 H1; cbn beta iota; [|done].
  eapply wp_mono; [apply Hk|]. intros r w2 H2. cbn beta in *. congruence.
Qed.

Lemma keeps_try_except {A X} (f : world -> X) (m : M A) h :
  keeps f m -> (forall e, keeps f (h e)) -> keeps f (try_except m h).
Proof.
  intros Hm Hh w. apply wp_try_except. eapply wp_mono; [apply Hm|].
  intros [a|e] w1 H1; cbn beta iota; [done|].
  eapply wp_mono; [apply Hh|]. intros r w2 H2. cbn beta in *. congruence.
Qed.

Lemma keeps_try_finally {A X} (f : world -> X) (m : M A) fin :
  keeps f m -> keeps f fin -> keeps f (try_finally m fin).
Proof.
  intros Hm Hf w. apply wp_try_finally. eapply wp_mono; [apply Hm|].
  intros r w1 H1. cbn beta. eapply wp_mono; [apply Hf|].
  intros [[]|e] w2 H2; cbn beta in *; congruence.
Qed.

Lemma keeps_ret {A X} (f : world -> X) (a : A) : keeps f (ret a).
Proof. by intros w. Qed.
Lemma keeps_raise {A X} (f : world -> X) e : keeps f (raise e : M A).
Proof. by intros w. Qed.
Lemma keeps_lift {A X} (f : world -> X) (r : res A) : keeps f (lift r).
Proof. by intros w. Qed.
Lemma keeps_gets {A X} (f : world -> X) (g : world -> A) : keeps f (gets g).
Proof. by intros w. Qed.
Lemma keeps_modify {X} (f : world -> X) g :
  (forall w, f (g w) = f w) -> keeps f (modify g).
Proof. intros H w. apply wp_modify. apply H. Qed.
Lemma keeps_deref {X} (f : world -> X) l : keeps f (deref l).
Proof. intros w. apply wp_deref. by destruct (heap w !! l). Qed.

(** Parts that do not depend on the objects. *)
Definition heap_free {X} (f : world -> X) : Prop :=
  forall g w, f (set_heap g w) = f w.

Lemma keeps_alloc {X} (f : world -> X) d : heap_free f -> keeps f (alloc d).
Proof. intros H w. apply wp_alloc. apply H. Qed.

Lemma keeps_setitem {X} (f : world -> X) l k v :
  heap_free f -> keeps f (setitem l k v).
Proof.
  intros H. unfold setitem. apply keeps_bind; [apply keeps_deref|].
  intros d. apply keeps_modify. intros w. apply H.
Qed.

Ltac keeps_go :=
  repeat (intros;
    lazymatch goal with
    | |- keeps _ (bind _ _) => apply keeps_bind
    | |- keeps _ (ret _) => apply keeps_ret
    | |- keeps _ (raise _) => apply keeps_raise
    | |- keeps _ (lift _) => apply keeps_lift
    | |- keeps _ (gets _) => apply keeps_gets
    | |- keeps _ (modify _) => apply keeps_modify; intros; reflexivity
    | |- keeps _ (alloc _) => apply keeps_alloc; intros ? ?; reflexivity
    | |- keeps _ (deref _) => apply keeps_deref
    | |- keeps _ (setitem _ _ _) => apply keeps_setitem; intros ? ?; reflexivity
    | |- keeps _ (try_except _ _) => apply keeps_try_except
    | |- keeps _ (try_finally _ _) => apply keeps_try_finally
    | |- keeps _ (match ?x with _ => _ end) => destruct x
    | |- keeps _ (if ?b then _ else _) => destruct b
    end).

Lemma keeps_truthy_obj {X} (f : world -> X) o : keeps f (truthy_obj o).
Proof. unfold truthy_obj. keeps_go. Qed.

Lemma keeps_as_str {X} (f : world -> X) v : keeps f (as_str v).
Proof. unfold as_str. keeps_go. Qed.

Lemma keeps_getitem {X} (f : world -> X) l k : keeps f (getitem l k).
Proof. unfold getitem. keeps_go. Qed.

(** The look-ups in the store write nothing but the call log and the
    object they return. *)
Lemma keeps_store_get_user_by_entra_oid oid :
  keeps store (CosmosDB.get_user_by_entra_oid oid).
Proof.
  unfold CosmosDB.get_user_by_entra_oid, Container.query_user, Container.log,
    CosmosDB.first_or_none. keeps_go.
Qed.

Lemma keeps_store_get_user_by_email email :
  keeps store (CosmosDB.get_user_by_email email).
Proof.
  unfold CosmosDB.get_user_by_email, Container.query_user, Container.log,
    CosmosDB.first_or_none, as_str. keeps_go.
Qed.

Lemma keeps_cache_get_user_by_entra_oid oid :
  keeps user_cache (CosmosDB.get_user_by_entra_oid oid).
Proof.
  unfold CosmosDB.get_user_by_entra_oid, Container.query_user, Container.log,
    CosmosDB.first_or_none. keeps_go.
Qed.

Lemma keeps_cache_get_user_by_email email :
  keeps user_cache (CosmosDB.get_user_by_email email).
Proof.
  unfold CosmosDB.get_user_by_email, Container.query_user, Container.log,
    CosmosDB.first_or_none, as_str. keeps_go.
Qed.

Lemma keeps_store_lookup now lookup_type identifier key debug fetch :
  keeps store debug -> keeps store fetch ->
  keeps store
    (AzureCachedUserService.lookup now lookup_type identifier key debug fetch).
Proof.
  intros Hd Hf. unfold AzureCachedUserService.lookup,
    AzureCachedUserService.create_task. keeps_go; assumption.
Qed.

Lemma keeps_store_cached_by_entra_oid now oid :
  keeps store (AzureCachedUserService.get_user_by_entra_oid now oid).
Proof.
  unfold AzureCachedUserService.get_user_by_entra_oid. cbn zeta.
  apply keeps_store_lookup.
  - unfold AzureCachedUserService.sliceable. keeps_go.
  - unfold AzureCachedUserService._fetch_user_by_entra_oid. keeps_go.
    intros; apply keeps_store_get_user_by_entra_oid.
Qed.

Lemma keeps_store_cached_by_email now email :
  keeps store (AzureCachedUserService.get_user_by_email now email).
Proof.
  unfold AzureCachedUserService.get_user_by_email.
  apply keeps_bind; [apply keeps_as_str|]. intros s. cbn zeta.
  apply keeps_store_lookup; [keeps_go|].
  unfold AzureCachedUserService._fetch_user_by_email. keeps_go.
  intros; apply keeps_store_get_user_by_email.
Qed.

Lemma keeps_verify_with {X} (f : world -> X) E cfg now token :
  (forall w w', only_jwks_changed w w' -> f w' = f w) ->
  keeps f (Auth.verify_with E cfg now token).
Proof.
  intros Hf. unfold Auth.verify_with.
  destruct (entra_service_present cfg); [|keeps_go].
  intros w. eapply wp_mono; [apply verify_token_frame|].
  intros r w' H. by apply Hf.
Qed.

Lemma keeps_legacy_decode {X} (f : world -> X) E cfg token :
  keeps f (Auth.legacy_decode E cfg token).
Proof. unfold Auth.legacy_decode. keeps_go. Qed.

(** ** The authentication cache *)

Section AuthCacheEntries.
Import AuthenticationCache.

(** An entry is served for [ttl_seconds] and not longer: a [get] before
    that returns the stored identity and changes nothing; a [get] at or
    after it returns [None] and removes the entry, leaving the others. *)
Theorem auth_cache_entry_lifetime now now' h u w :
  let w1 := (set now h u w).2 in
  (now' - now < ttl_seconds -> get now' h w1 = (Ok (Some u), w1))
  /\ (ttl_seconds <= now' - now ->
      exists w2, get now' h w1 = (Ok None, w2)
        /\ auth_cache w2 !! h = None
        /\ (forall h', h' <> h -> auth_cache w2 !! h' = auth_cache w !! h')
        /\ heap w2 = heap w /\ store w2 = store w).
Proof.
  intros w1. subst w1. unfold set, get, modify, bind, gets. cbn [snd]. wsimpl.
  rewrite lookup_insert_eq. cbn [ae_timestamp ae_user_data]. split.
  - intros Hlt. by replace (now' - now <? ttl_seconds) with true
      by (symmetry; by apply Z.ltb_lt).
  - intros Hge. replace (now' - now <? ttl_seconds) with false
      by (symmetry; by apply Z.ltb_ge).
    eexists. split; [reflexivity|]. wsimpl. split; [apply lookup_delete_eq|].
    split; [|done]. intros h' Hne.
    by rewrite lookup_delete_ne, lookup_insert_ne.
Qed.

(** After [invalidate] the hash is unknown at every later moment, and the
    other entries are as they were; after [clear] every hash is unknown. *)
Theorem auth_cache_invalidate_clear now h h' w :
  (let w1 := (invalidate h w).2 in
   get now h w1 = (Ok None, w1)
   /\ (h' <> h -> auth_cache w1 !! h' = auth_cache w !! h'))
  /\ (let w2 := (clear w).2 in get now h' w2 = (Ok None, w2)).
Proof.
  split.
  - intros w1. subst w1. unfold invalidate, get, modify, bind, gets. cbn [snd]. wsimpl.
    rewrite lookup_delete_eq. split; [done|]. intros Hne. by rewrite lookup_delete_ne.
  - intros w2. subst w2. unfold clear, get, modify, bind, gets. cbn [snd]. wsimpl.
    by rewrite lookup_empty.
Qed.

End AuthCacheEntries.

(** ** Cache keys *)

Section CacheKeys.
Import AzureCachedUserService.

(** No [":"] in the string. *)
Fixpoint no_colon (s : string) : bool :=
  match s with
  | EmptyString => true
  | String c r => (negb (Ascii.eqb c ":") && no_colon r)%bool
  end.

Lemma colon_split t1 t2 a b :
  no_colon t1 = true -> no_colon t2 = true ->
  t1 ++ ":" ++ a = t2 ++ ":" ++ b -> t1 = t2.
Proof.
  revert t2. induction t1 as [|c t1 IH]; intros [|c2 t2] H1 H2 Heq; cbn in *.
  - done.
  - injection Heq as Hc _. subst c2. by rewrite Ascii.eqb_refl in H2.
  - injection Heq as Hc _. subst c. by rewrite Ascii.eqb_refl in H1.
  - injection Heq as -> Heq. f_equal.
    apply andb_true_iff in H1 as [_ H1]. apply andb_true_iff in H2 as [_ H2].
    by eapply IH.
Qed.

(** Keys of different look-up types never collide, whatever the values. *)
Theorem cache_key_types_disjoint t1 t2 v1 v2 :
  no_colon t1 = true -> no_colon t2 = true -> t1 <> t2 ->
  _get_cache_key t1 v1 <> _get_cache_key t2 v2.
Proof.
  intros H1 H2 Hne Heq. apply Hne. unfold _get_cache_key in Heq.
  by eapply colon_split.
Qed.

Lemma cache_key_types_disjoint_witness :
  _get_cache_key "email" "x" <> _get_cache_key "entra_oid" "x"
  /\ _get_cache_key "email" "x" <> _get_cache_key "user_id" "x"
  /\ _get_cache_key "user_id" "x" <> _get_cache_key "entra_oid" "x".
Proof.
  repeat split; apply cache_key_types_disjoint; (reflexivity || discriminate).
Defined.

End CacheKeys.

Section CacheCleanup.
Import AzureCachedUserService.

(** ** The periodic clean-up of the user-record cache *)

Definition keys (items : cache_items) : list string := map fst items.

Lemma existsb_eqb k ks : existsb (String.eqb k) ks = true <-> k ∈ ks.
Proof.
  rewrite existsb_exists. split.
  - intros (x & Hin & He). apply String.eqb_eq in He as ->. by apply list_elem_of_In.
  - intros H. exists k. split; [by apply list_elem_of_In|apply String.eqb_refl].
Qed.

Lemma del_keys_In ks items p :
  In p (del_keys ks items) <-> In p items /\ fst p ∉ ks.
Proof.
  unfold del_keys. by rewrite filter_In, negb_true_iff, <- existsb_eqb,
    not_true_iff_false.
Qed.

Lemma del_keys_NoDup ks items :
  NoDup (keys items) -> NoDup (keys (del_keys ks items)).
Proof.
  unfold keys, del_keys. induction items as [|p items IH]; cbn; [done|].
  rewrite NoDup_cons. intros [Hp Hnd].
  destruct (negb _); cbn; [|by apply IH].
  apply NoDup_cons. split; [|by apply IH].
  intros Hin. apply Hp. apply list_elem_of_fmap in Hin as (q & Hq & Hin).
  apply list_elem_of_fmap. exists q. split; [done|].
  apply list_elem_of_In in Hin. apply filter_In in Hin as [Hin _].
  by apply list_elem_of_In.
Qed.

(** Deleting [ks], distinct keys of the dictionary, takes away as many
    items. *)
Lemma del_keys_length ks items :
  NoDup (keys items) -> NoDup ks -> (forall k, k ∈ ks -> k ∈ keys items) ->
  (List.length (del_keys ks items) + List.length ks = List.length items)%nat.
Proof.
  revert ks. induction items as [|[k e] items IH]; intros ks Hnd Hks Hsub.
  - destruct ks as [|k ks]; [done|].
    specialize (Hsub k (list_elem_of_here _ _)). by apply elem_of_nil in Hsub.
  - cbn in Hnd. apply NoDup_cons in Hnd as [Hk Hnd].
    unfold del_keys. cbn [List.filter fst].
    destruct (existsb (String.eqb k) ks) eqn:Hex; cbn [negb].
    + apply existsb_eqb in Hex.
      apply list_elem_of_split in Hex as (ks1 & ks2 & ->).
      apply NoDup_app in Hks as (Hn1 & Hdis & Hn2).
      apply NoDup_cons in Hn2 as [Hk2 Hn2].
      assert (Hk1 : k ∉ ks1) by (intros H; apply (Hdis _ H); left).
      assert (Heq : List.filter (fun p => negb (existsb (String.eqb p.1) (ks1 ++ k :: ks2)%list)) items
                    = del_keys (ks1 ++ ks2)%list items).
      { unfold del_keys. apply filter_ext_in. intros [k' e'] Hin. cbn [fst].
        f_equal. apply eq_true_iff_eq. rewrite !existsb_eqb.
        rewrite !elem_of_app, elem_of_cons.
        assert (k' <> k).
        { intros ->. apply Hk. apply list_elem_of_fmap. exists (k, e').
          split; [done|by apply list_elem_of_In]. }
        tauto. }
      rewrite Heq.
      specialize (IH (ks1 ++ ks2)%list Hnd).
      rewrite length_app in *. cbn [List.length].
      cut (List.length (del_keys (ks1 ++ ks2) items)
           + (List.length ks1 + List.length ks2) = List.length items)%nat; [lia|].
      apply IH.
      * apply NoDup_app. split; [done|]. split; [|done].
        intros x Hx Hx2. apply (Hdis x Hx). by right.
      * intros k' Hk'. 
        assert (k' ∈ keys ((k, e) :: items))
          by (apply Hsub; rewrite elem_of_app, elem_of_cons in *; tauto).
        cbn in H. apply elem_of_cons in H as [->|H]; [|done].
        rewrite elem_of_app in Hk'. tauto.
    + cbn [List.length]. f_equal.
      change (List.filter _ items) with (del_keys ks items).
      cut (List.length (del_keys ks items) + List.length ks = List.length items)%nat;
        [lia|].
      apply IH; [done|done|].
      intros k' Hk'. specialize (Hsub k' Hk'). cbn in Hsub.
      apply elem_of_cons in Hsub as [->|H]; [|done].
      apply existsb_eqb in Hk'. congruence.
Qed.

Lemma insert_by_timestamp_perm x l : insert_by_timestamp x l ≡ₚ x :: l.
Proof.
  induction l as [|y l IH]; cbn; [done|].
  destruct (_ <? _); [|done]. rewrite IH. apply Permutation_swap.
Qed.

Lemma sorted_by_timestamp_perm items : sorted_by_timestamp items ≡ₚ items.
Proof.
  unfold sorted_by_timestamp. induction items as [|x l IH]; cbn; [done|].
  by rewrite insert_by_timestamp_perm, IH.
Qed.

Lemma expired_keys_NoDup now items :
  NoDup (keys items) ->
  NoDup (map fst (List.filter (fun p => is_expired now (snd p)) items)).
Proof.
  unfold keys. induction items as [|p items IH]; cbn; [done|].
  rewrite NoDup_cons. intros [Hp Hnd].
  destruct (is_expired now p.2); cbn; [|by apply IH].
  apply NoDup_cons. split; [|by apply IH].
  intros Hin. apply Hp. apply list_elem_of_fmap in Hin as (q & Hq & Hin).
  apply list_elem_of_fmap. exists q. split; [done|].
  apply list_elem_of_In in Hin. apply filter_In in Hin as [Hin _].
  by apply list_elem_of_In.
Qed.

Lemma del_keys_shorter ks items :
  (List.length (del_keys ks items) <= List.length items)%nat.
Proof. unfold del_keys. apply filter_length_le. Qed.

(** With distinct keys, the key decides the item. *)
Lemma NoDup_keys_item (items : cache_items) k e e' :
  NoDup (keys items) -> (k, e) ∈ items -> (k, e') ∈ items -> e = e'.
Proof.
  unfold keys. induction items as [|[k0 e0] items IH]; cbn.
  - intros _ H. by apply elem_of_nil in H.
  - rewrite NoDup_cons. intros [Hk Hnd] H1 H2.
    apply elem_of_cons in H1 as [H1|H1];
      apply elem_of_cons in H2 as [H2|H2]; simplify_eq; try done.
    + destruct Hk. apply list_elem_of_fmap. by exists (k0, e').
    + destruct Hk. apply list_elem_of_fmap. by exists (k0, e).
    + by apply IH.
Qed.

(** After the clean-up no item is expired: what is left was there before
    and has an age of at most its time to live.  While the cache is
    within its size limit the converse holds too, every item that is not
    expired is left; so an entry whose age is exactly its time to live
    stays in the cache (the clean-up tests [age > ttl]) although no
    look-up serves it (a look-up tests [age < ttl]).  Beyond the size
    limit such an entry can be evicted as any other. *)
Theorem cleanup_leaves_no_expired now items :
  (forall k e, In (k, e) (_cleanup_expired_cache now items).1 ->
     In (k, e) items /\ now - ce_timestamp e <= ce_ttl e)
  /\ (NoDup (keys items) ->
      (List.length items <= Z.to_nat max_cache_size)%nat ->
      forall k e, In (k, e) items -> now - ce_timestamp e <= ce_ttl e ->
        In (k, e) (_cleanup_expired_cache now items).1
        /\ (now - ce_timestamp e = ce_ttl e -> _is_cache_valid now e = false)).
Proof.
  split.
  - intros k e. unfold _cleanup_expired_cache. cbn zeta.
    set (expired_keys := map fst _).
    assert (Hfirst : In (k, e) (del_keys expired_keys items) ->
              In (k, e) items /\ now - ce_timestamp e <= ce_ttl e).
    { intros H. apply del_keys_In in H as [Hin Hk]. split; [done|].
      destruct (Z.leb_spec (now - ce_timestamp e) (ce_ttl e)) as [|Hlt]; [done|].
      exfalso. apply Hk. subst expired_keys. apply list_elem_of_fmap.
      exists (k, e). split; [done|]. apply list_elem_of_In, filter_In.
      split; [done|]. unfold is_expired. cbn. by apply Z.ltb_lt. }
    destruct (_ <? _)%nat; cbn [fst]; [|exact Hfirst].
    intros H. apply del_keys_In in H as [Hin _]. by apply Hfirst.
  - intros Hnd Hsize k e Hin Hage. split.
    2:{ intros He. unfold _is_cache_valid. rewrite He. apply Z.ltb_irrefl. }
    unfold _cleanup_expired_cache. cbn zeta.
    set (expired_keys := map fst _).
    pose proof (del_keys_shorter expired_keys items) as Hlen.
    destruct (Nat.ltb_spec (Z.to_nat max_cache_size)
                (List.length (del_keys expired_keys items))) as [Hlt|_]; [lia|].
    cbn [fst]. apply del_keys_In. split; [done|]. cbn [fst]. intros Hk.
    subst expired_keys. apply list_elem_of_fmap in Hk as ([k2 e2] & Hk2 & Hx).
    cbn in Hk2. subst k2. apply list_elem_of_In, filter_In in Hx as [Hx He2].
    cbn in He2.
    assert (e = e2).
    { eapply NoDup_keys_item; [exact Hnd| |]; by apply list_elem_of_In. }
    subst e2. unfold is_expired in He2. apply Z.ltb_lt in He2. lia.
Qed.

(** An entry of age 900 with a time to live of 900, and an older one. *)
Definition aged_items : cache_items :=
  [("email:1", CacheEntry None 100 900); ("email:2", CacheEntry None 50 900)].

Lemma cleanup_leaves_no_expired_witness :
  (_cleanup_expired_cache 1000 aged_items).1 = [("email:1", CacheEntry None 100 900)]
  /\ In ("email:1", CacheEntry None 100 900) (_cleanup_expired_cache 1000 aged_items).1
  /\ _is_cache_valid 1000 (CacheEntry None 100 900) = false.
Proof.
  split; [reflexivity|].
  destruct (cleanup_leaves_no_expired 1000 aged_items) as [_ Hkept].
  destruct (Hkept) with (k := "email:1") (e := CacheEntry None 100 900)
    as [Hin Hv].
  - unfold keys, aged_items. cbn. apply NoDup_cons.
    split; [rewrite list_elem_of_singleton; discriminate|apply NoDup_singleton].
  - apply Nat.leb_le. vm_compute. reflexivity.
  - left. reflexivity.
  - cbn. lia.
  - split; [exact Hin|]. apply Hv. reflexivity.
Defined.

(** After the clean-up the cache holds at most [max_cache_size] items,
    and the [evictions] counter has grown by the number of items that
    are gone. *)
Theorem cleanup_bounds_size now items :
  NoDup (keys items) ->
  let r := _cleanup_expired_cache now items in
  (List.length r.1 <= Z.to_nat max_cache_size)%nat
  /\ (List.length r.1 + r.2 = List.length items)%nat.
Proof.
  intros Hnd r. subst r. unfold _cleanup_expired_cache. cbn zeta.
  set (expired_keys := map fst _).
  set (items1 := del_keys expired_keys items).
  assert (H1 : (List.length items1 + List.length expired_keys
                = List.length items)%nat).
  { apply del_keys_length; [done|by apply expired_keys_NoDup|].
    intros k Hk. subst expired_keys. apply list_elem_of_fmap in Hk as (p & -> & Hin).
    apply list_elem_of_fmap. exists p. split; [done|].
    apply list_elem_of_In in Hin. apply filter_In in Hin as [Hin _].
    by apply list_elem_of_In. }
  assert (Hnd1 : NoDup (keys items1)) by (by apply del_keys_NoDup).
  destruct (Nat.ltb_spec (Z.to_nat max_cache_size) (List.length items1)) as [Hlt|Hle];
    cbn [fst snd]; [|lia].
  set (excess := (List.length items1 - Z.to_nat max_cache_size)%nat).
  set (victims := map fst (take excess (sorted_by_timestamp items1))).
  assert (Hperm : map fst (sorted_by_timestamp items1) ≡ₚ keys items1)
    by (unfold keys; by rewrite sorted_by_timestamp_perm).
  assert (Hvl : List.length victims = excess).
  { subst victims. rewrite length_map, length_take.
    rewrite (Permutation_length (sorted_by_timestamp_perm items1)). lia. }
  assert (H2 : (List.length (del_keys victims items1) + List.length victims
                = List.length items1)%nat).
  { subst victims. rewrite <- firstn_map. apply del_keys_length; [done| |].
    - eapply sublist_NoDup; [|apply sublist_take]. by rewrite Hperm.
    - intros k Hk. rewrite <- Hperm.
      apply elem_of_take in Hk as (i & Hi & _). by eapply list_elem_of_lookup_2. }
  lia.
Qed.

Definition two_items : cache_items :=
  [("email:1", CacheEntry None 100 900); ("email:2", CacheEntry None 2000 900)].

Lemma cleanup_bounds_size_witness :
  let r := _cleanup_expired_cache 1500 two_items in
  (List.length r.1 <= Z.to_nat max_cache_size)%nat
  /\ (List.length r.1 + r.2 = List.length two_items)%nat.
Proof.
  apply (cleanup_bounds_size 1500 two_items).
  unfold keys, two_items. cbn. apply NoDup_cons.
  split; [rewrite list_elem_of_singleton; discriminate|apply NoDup_singleton].
Defined.

End CacheCleanup.

Section Configuration.

(** ** A configuration that was accepted *)

(** When [AuthConfig()] succeeds, at least one method is enabled and the
    variables each enabled method needs are set and not empty; an
    [AUTH_METHOD] that names no method enables both. *)
Theorem accepted_config_is_usable getenv m :
  AuthConfig_init getenv = Ok m ->
  forall present,
    let c := Config m present in
    (is_legacy_enabled c || is_entra_enabled c = true)
    /\ (is_legacy_enabled c = true -> env_set getenv "JWT_SECRET_KEY" = true)
    /\ (is_entra_enabled c = true ->
        forall v, In v entra_required_vars -> env_set getenv v = true)
    /\ (m = auth_method_of_string (lower (default "both" (getenv "AUTH_METHOD")))).
Proof.
  unfold AuthConfig_init. cbn zeta.
  set (m0 := auth_method_of_string _).
  destruct (config_errors getenv m0) as [|err errs] eqn:Herr; [|done].
  intros [= Hm] present. subst m.
  unfold config_errors in Herr. apply app_eq_nil in Herr as [Hleg Hentra].
  unfold is_legacy_enabled, is_entra_enabled in *. cbn [auth_method] in *.
  split; [by destruct m0|]. split; [|split; [|done]].
  - intros Hl. rewrite Hl in Hleg.
    by destruct (env_set getenv "JWT_SECRET_KEY").
  - intros He v Hv. rewrite He in Hentra.
    apply map_eq_nil in Hentra.
    destruct (env_set getenv v) eqn:Hset; [done|].
    assert (Hin : In v (List.filter (fun v => negb (env_set getenv v))
                          entra_required_vars))
      by (apply filter_In; by rewrite Hset).
    by rewrite Hentra in Hin.
Qed.

Definition env_legacy (name : string) : option string :=
  if String.eqb name "AUTH_METHOD" then Some "Legacy"
  else if String.eqb name "JWT_SECRET_KEY" then Some "s3cret"
  else None.

Lemma accepted_config_is_usable_witness :
  let c := Config LEGACY true in
  (is_legacy_enabled c || is_entra_enabled c = true)
  /\ (is_legacy_enabled c = true -> env_set env_legacy "JWT_SECRET_KEY" = true)
  /\ (is_entra_enabled c = true ->
      forall v, In v entra_required_vars -> env_set env_legacy v = true)
  /\ (LEGACY = auth_method_of_string
                 (lower (default "both" (env_legacy "AUTH_METHOD")))).
Proof.
  apply (accepted_config_is_usable env_legacy LEGACY). reflexivity.
Defined.

End Configuration.

Section UserCacheEntries.
Import AzureCachedUserService.

(** ** What the user-record cache remembers *)

(** No entry under [key] can be served at [now]. *)
Definition no_valid_user_entry (key : string) (now : Z) (w : world) : Prop :=
  forall e, user_cache w !! key = Some e -> _is_cache_valid now e = false.

(** Without a valid entry the look-up goes to the store. *)
Lemma lookup_miss now lookup_type identifier key debug fetch w :
  no_valid_user_entry key now w ->
  lookup now lookup_type identifier key debug fetch w
  = (modify (set_cache_stats bump_misses);;
     debug;;
     try_except
       (let! user := fetch in
        modify (set_user_cache
                  (fun c => <[key := CacheEntry user now default_ttl]> c));;
        ret user)
       (fun _ => modify (set_cache_stats bump_errors);; ret None)) w.
Proof.
  intros Hmiss. unfold lookup. unfold bind at 1, gets at 1. cbn beta iota zeta.
  destruct (user_cache w !! key) as [e|] eqn:He; [|done].
  by rewrite (Hmiss e He).
Qed.

(** A look-up by subject that finds nothing is remembered: until the
    entry expires the same look-up answers [None] without a call on the
    store, whatever the store holds by then. *)
Theorem not_found_is_cached now now' s docs w :
  no_valid_user_entry (_get_cache_key "entra_oid" s) now w ->
  Container.select_user "entra_oid" (VStr s) (store w) = [] ->
  now' - now < default_ttl ->
  let r1 := get_user_by_entra_oid now (VStr s) w in
  let r2 := get_user_by_entra_oid now' (VStr s) (set_store (fun _ => docs) r1.2) in
  r1.1 = Ok None /\ r2.1 = Ok None /\ store_log r2.2 = store_log r1.2.
Proof.
  intros Hmiss Hsel Hnow r1 r2.
  assert (Hr1 : r1 = (Ok None,
            set_user_cache
              (fun c => <[_get_cache_key "entra_oid" s := CacheEntry None now default_ttl]> c)
              (set_store_log (fun l => (l ++ [OpQuery "entra_oid" s])%list)
                 (set_cache_stats bump_database_queries
                    (set_cache_stats bump_misses w))))).
  { subst r1 r2. unfold get_user_by_entra_oid. cbn zeta. cbn [py_str].
    rewrite lookup_miss by exact Hmiss.
    unfold _fetch_user_by_entra_oid, CosmosDB.get_user_by_entra_oid,
      Container.query_user, Container.log, CosmosDB.first_or_none, sliceable.
    unfold try_except, bind, modify, gets, ret. cbn [py_str]. wsimpl.
    by rewrite Hsel. }
  split; [by rewrite Hr1|].
  destruct (lookup_hit now' "entra_oid" (VStr s) (_get_cache_key "entra_oid" s)
              (sliceable (VStr s)) (_fetch_user_by_entra_oid (VStr s))
              (set_store (fun _ => docs) r1.2)
              (CacheEntry None now default_ttl))
    as (w2 & Hrun & _ & _ & Hlog & _).
  - rewrite Hr1. cbn [snd]. wsimpl. apply lookup_insert_eq.
  - unfold _is_cache_valid. cbn [ce_timestamp ce_ttl]. by apply Z.ltb_lt.
  - done.
  - subst r2. unfold get_user_by_entra_oid. cbn zeta. cbn [py_str].
    rewrite Hrun. cbn [fst snd]. split; [done|]. by rewrite Hlog.
Qed.

Lemma not_found_is_cached_witness :
  let w := Examples.world_at [] [] ∅ in
  let r1 := get_user_by_entra_oid 1000 (VStr "oid-7") w in
  let r2 := get_user_by_entra_oid 1800 (VStr "oid-7")
              (set_store (fun _ => [Examples.bob]) r1.2) in
  r1.1 = Ok None /\ r2.1 = Ok None /\ store_log r2.2 = store_log r1.2.
Proof.
  apply (not_found_is_cached 1000 1800 "oid-7" [Examples.bob]
           (Examples.world_at [] [] ∅)).
  - intros e He. cbn in He. by rewrite lookup_empty in He.
  - reflexivity.
  - reflexivity.
Defined.

(** [get_user_by_id] never asks the store: [CosmosDB] has no
    [get_user_by_id], the failure is swallowed, and nothing is filed.
    So it returns a record only from an entry that is already in the
    cache, and [None] otherwise. *)
Theorem get_user_by_id_only_from_cache now user_id w :
  let key := _get_cache_key "user_id" (py_str user_id) in
  let r := get_user_by_id now user_id w in
  store_log r.2 = store_log w
  /\ store r.2 = store w
  /\ user_cache r.2 = user_cache w
  /\ exists o, r.1 = Ok o
       /\ forall u, o = Some u ->
            exists e, user_cache w !! key = Some e
              /\ _is_cache_valid now e = true /\ ce_data e = Some u.
Proof.
  intros key r. subst r. unfold get_user_by_id. cbn zeta. fold key.
  assert (Hmiss : no_valid_user_entry key now w ->
    let r := lookup now "user_id" user_id key (ret tt)
               (_fetch_user_by_id user_id) w in
    store_log r.2 = store_log w /\ store r.2 = store w
    /\ user_cache r.2 = user_cache w
    /\ exists o, r.1 = Ok o /\ forall u, o = Some u ->
         exists e, user_cache w !! key = Some e
           /\ _is_cache_valid now e = true /\ ce_data e = Some u).
  { intros Hno. rewrite lookup_miss by exact Hno. cbn. repeat split.
    exists None. split; [done|]. intros u [=]. }
  destruct (user_cache w !! key) as [e|] eqn:He.
  2:{ apply Hmiss. intros e He'. congruence. }
  destruct (_is_cache_valid now e) eqn:Hv.
  2:{ apply Hmiss. intros e' He'. congruence. }
  destruct (lookup_hit now "user_id" user_id key (ret tt)
              (_fetch_user_by_id user_id) w e He Hv)
    as (w' & Hrun & _ & Hs & Hl & Hc); [done|].
  rewrite Hrun. cbn [fst snd]. repeat (split; [done|]).
  exists (ce_data e). split; [done|]. intros u Hu. by exists e.
Qed.

(** [update_user] of the cached service never updates anything: reading
    the current record by id fails, and the failure is raised again. *)
Theorem cached_update_user_always_fails now user_id update_data w :
  let r := update_user now user_id update_data w in
  r.1 = Raise (AttributeError "'CosmosDB' object has no attribute 'get_user_by_id'")
  /\ store r.2 = store w /\ store_log r.2 = store_log w
  /\ user_cache r.2 = user_cache w /\ heap r.2 = heap w.
Proof. done. Qed.

(** [_background_refresh_user] raises nothing, writes nothing to the
    store, and does not bring back an entry that has been invalidated
    in the meantime. *)
Theorem background_refresh_is_silent now lookup_type identifier key w :
  let r := _background_refresh_user now lookup_type identifier key w in
  r.1 = Ok tt
  /\ store r.2 = store w
  /\ (user_cache w !! key = None -> user_cache r.2 = user_cache w).
Proof.
  intros r. subst r.
  destruct (_background_refresh_user now lookup_type identifier key w)
    as [r w'] eqn:Hrun. cbn [fst snd].
  assert (Hfetch : forall X (f : world -> X),
            (forall g w, f (set_cache_stats g w) = f w) ->
            (forall oid, keeps f (CosmosDB.get_user_by_entra_oid oid)) ->
            (forall e, keeps f (CosmosDB.get_user_by_email e)) ->
            keeps f
              (if String.eqb lookup_type "entra_oid" then
                 let! u := _fetch_user_by_entra_oid identifier in ret (Some u)
               else if String.eqb lookup_type "email" then
                 let! u := _fetch_user_by_email identifier in ret (Some u)
               else if String.eqb lookup_type "user_id" then
                 let! u := _fetch_user_by_id identifier in ret (Some u)
               else ret None)).
  { intros X f Hs Ho He.
    unfold _fetch_user_by_entra_oid, _fetch_user_by_email, _fetch_user_by_id.
    repeat (lazymatch goal with
            | |- keeps _ (if ?b then _ else _) => destruct b
            | |- keeps _ (bind _ _) => apply keeps_bind
            | |- keeps _ (ret _) => apply keeps_ret
            | |- keeps _ (raise _) => apply keeps_raise
            | |- keeps _ (modify _) => apply keeps_modify; intros; apply Hs
            | |- keeps _ (CosmosDB.get_user_by_entra_oid _) => apply Ho
            | |- keeps _ (CosmosDB.get_user_by_email _) => apply He
            | |- _ -> _ => intros
            | |- forall _, _ => intros
            end). }
  split; [|split].
  - revert Hrun. unfold _background_refresh_user, try_except.
    match goal with |- context [?m w] =>
      match m with bind _ _ => destruct (m w) as [[[]|e] w1] end end;
      by intros [= <- <-].
  - eapply (keeps_run store); [|exact Hrun].
    unfold _background_refresh_user. apply keeps_try_except; [|keeps_go].
    apply keeps_bind.
    + apply Hfetch; [done|apply keeps_store_get_user_by_entra_oid
                     |apply keeps_store_get_user_by_email].
    + keeps_go.
  - intros Hnone.
    pose proof (Hfetch _ user_cache (fun _ _ => eq_refl)
                  keeps_cache_get_user_by_entra_oid
                  keeps_cache_get_user_by_email w) as Hf.
    revert Hrun. unfold _background_refresh_user, try_except. unfold bind at 1.
    unfold wp in Hf.
    match type of Hf with context [?m w] => destruct (m w) as [[fd|e] w1] end;
      cbn [fst snd] in Hf.
    2:{ by intros [= <- <-]. }
    destruct fd as [fresh|]; [|by intros [= <- <-]].
    unfold bind at 1, gets at 1. rewrite Hf, Hnone. by intros [= <- <-].
Qed.

End UserCacheEntries.

(** ** Creating a user and finding them again *)

Lemma pyval_eqb_str v s : pyval_eqb v (VStr s) = true -> v = VStr s.
Proof. destruct v; cbn; try done. intros H. by apply String.eqb_eq in H as ->. Qed.

Lemma field_is_str k s (d : dict) :
  Container.field_is k (VStr s) d = true <-> d !! k = Some (VStr s).
Proof.
  unfold Container.field_is. split.
  - destruct (d !! k) as [v|]; [|done]. intros H. by rewrite (pyval_eqb_str _ _ H).
  - intros ->. cbn. apply String.eqb_refl.
Qed.

Lemma select_user_email_In n doc docs :
  In doc (Container.select_user "email" (VStr n) docs) ->
  doc !! "email" = Some (VStr n) /\ doc !! "type" = Some (VStr "user").
Proof.
  unfold Container.select_user. intros H. apply filter_In in H as [_ H].
  apply andb_true_iff in H as [Ht He]. by rewrite <- !field_is_str.
Qed.

Section CreateThenFind.
Variables (now : Z) (body : loc) (n : string) (oid : pyval) (w0 : world).
Hypothesis n_normal : strip (lower n) = n.
Hypothesis n_truthy : truthy (VStr n) = true.
Hypothesis oid_free :
  truthy oid = true -> Container.select_user "entra_oid" oid (store w0) = [].

(** The new record keeps its address and subject while [create_user]
    works on it, and the store is as at the start. *)
Definition pending (typed : bool) (w : world) : Prop :=
  store w = store w0
  /\ exists d, heap w !! body = Some d
       /\ d !! "email" = Some (VStr n) /\ get d "entra_oid" = oid
       /\ (typed = true -> d !! "type" = Some (VStr "user")).

(** Afterwards: the fields are as they were, and on success the store
    has a user with the address. *)
Definition findable (r : res loc) (w : world) : Prop :=
  (exists d, heap w !! body = Some d
     /\ d !! "email" = Some (VStr n) /\ get d "entra_oid" = oid)
  /\ (forall u, r = Ok u ->
        Container.select_user "email" (VStr n) (store w) <> []).

Lemma pending_rel typed w w' :
  rel ["email"; "entra_oid"; "type"] true w w' -> pending typed w -> pending typed w'.
Proof.
  intros [Hh Hs] (Hst & d & Hd & He & Ho & Ht).
  destruct (Hh _ _ Hd) as (d' & Hd' & Hk).
  split; [by rewrite Hs|]. exists d'. split; [done|]. unfold get in *.
  rewrite !Hk by (cbn; tauto). done.
Qed.

Lemma pending_findable typed e w : pending typed w -> findable (Raise e) w.
Proof. intros (_ & d & ? & ? & ? & _). split; [eauto|]. by intros u. Qed.

Lemma create_item_findable w :
  pending true w -> wp (Container.create_item body) findable w.
Proof.
  intros (Hst & d & Hd & He & Ho & Ht). specialize (Ht eq_refl).
  assert (Hbody : forall w', heap w' = heap w \/ (exists x, heap w' = heap w ++ [x])%list ->
            exists d, heap w' !! body = Some d
              /\ d !! "email" = Some (VStr n) /\ get d "entra_oid" = oid).
  { intros w' [->|[x ->]]; exists d; (split; [|done]); [done|].
    by apply lookup_app_l_Some. }
  unfold Container.create_item, Container.log.
  wp_steps. eapply wp_deref_some; [wsimpl; exact Hd|]. cbn beta iota.
  wp_steps. wsimpl.
  destruct (Container.doc_id d) as [id|];
    [|wp_steps; split; [apply Hbody; by left|by intros u]].
  destruct (existsb _ _); wp_steps;
    [split; [apply Hbody; by left|by intros u]|].
  split; [apply Hbody; wsimpl; eauto|].
  intros u _. wsimpl. rewrite select_user_app.
  assert (Hsel : Container.select_user "email" (VStr n) [d] = [d]).
  { unfold Container.select_user. cbn [List.filter].
    by rewrite (proj2 (field_is_str "type" "user" d) Ht),
               (proj2 (field_is_str "email" n d) He). }
  rewrite Hsel. by destruct (Container.select_user "email" (VStr n) (store w)).
Qed.

Lemma findable_any r r' u w : findable r w -> r = Ok u -> findable r' w.
Proof. intros [Hf Hs] ->. split; [done|]. intros ? _. by apply (Hs u). Qed.

Lemma create_user_findable d e :
  heap w0 !! body = Some d ->
  d !! "email" = Some (VStr e) -> strip (lower e) = n ->
  get d "entra_oid" = oid ->
  wp (CosmosDB.create_user now body) findable w0.
Proof.
  intros Hd He Hn Ho. unfold CosmosDB.create_user.
  assert (He_truthy : truthy (VStr e) = true).
  { cbn in *. destruct (String.eqb_spec e ""); [subst e|done].
    cbn in Hn. by subst n. }
  assert (Hnn : normalized_email (VStr n) = VStr n).
  { cbn in *. destruct (String.eqb n ""); [done|]. by rewrite n_normal. }
  wp_step. eapply wp_deref_some; [exact Hd|]. cbn beta iota.
  rewrite He, He_truthy. unfold as_str at 1.
  wp_step. wp_step. wp_step. cbn beta iota.
  eapply wp_setitem; [exact Hd|]. rewrite Hn.
  set (d1 := <["email" := VStr n]> d).
  set (w1 := set_heap _ w0).
  assert (Hd1 : heap w1 !! body = Some d1).
  { subst w1. wsimpl. apply list_lookup_insert_eq. by eapply lookup_lt_Some. }
  assert (Hg1 : get d1 "email" = VStr n)
    by (unfold get, d1; by rewrite lookup_insert_eq).
  assert (Ho1 : get d1 "entra_oid" = oid)
    by (unfold get, d1 in *; by rewrite lookup_insert_ne).
  assert (HP : pending false w1).
  { split; [done|]. exists d1. split; [done|]. split; [apply lookup_insert_eq|].
    split; [done|discriminate]. }
  clearbody w1.
  assert (Hexc : forall typed e w', pending typed w' -> findable (Raise e) w')
    by (intros; by eapply pending_findable).
  wp_step. eapply wp_getitem; [exact Hd1|]. cbn beta iota.
  wp_step. eapply wp_getitem; [exact Hd1|]. cbn beta iota.
  rewrite Hg1, Ho1, n_truthy.
  (* the look-up by email *)
  wp_step. eapply wp_mono;
    [apply (get_user_by_email_found ["email"; "entra_oid"; "type"])|].
  intros [by_email|err] w2 [Hrel Hfound]; cbn beta iota;
    [|eapply Hexc, pending_rel; eauto].
  assert (HP2 : pending false w2) by (by eapply pending_rel).
  wp_step. apply wp_truthy_obj_any. intros [found|err]; [|by eapply Hexc].
  assert (Hrest :
    wp (let! by_oid :=
          (if truthy oid then CosmosDB.get_user_by_entra_oid oid else ret None) in
        let! found_by_oid := truthy_obj by_oid in
        match by_oid, found_by_oid with
        | Some existing_user, true => ret existing_user
        | _, _ =>
            setitem body "type" (VStr "user");;
            let! d := deref body in
            setdefault body "auth_method"
              (get_default d "auth_method" (VStr "legacy"));;
            setdefault body "display_name"
              (py_or (get d "displayName") (get d "email"));;
            setdefault body "last_login" (isoformat now);;
            setdefault body "is_active" (VBool true);;
            setdefault body "created_at" (isoformat now);;
            setdefault body "updated_at" (isoformat now);;
            let! created_user := Container.create_item body in
            let! c := deref created_user in
            match c !! "id" with
            | Some _ => ret created_user
            | None => raise (KeyError "id")
            end
        end) findable w2).
  { clear Hfound by_email found.
    wp_step.
    apply (wp_mono _ (fun r w' => pending false w'
                        /\ forall l, r <> Ok (Some l))).
    { destruct (truthy oid) eqn:Ht; [|wp_steps; split; [exact HP2|intros l [=]]].
      eapply wp_mono;
        [apply (get_user_by_entra_oid_found ["email"; "entra_oid"; "type"])|].
      intros r w' [Hrel' Hfound]. split; [by eapply pending_rel|].
      intros l ->. destruct (Hfound l eq_refl) as (doc & _ & Hin).
      destruct HP2 as [Hst _]. rewrite Hst, (oid_free eq_refl) in Hin. destruct Hin. }
    intros [by_oid|err] w3 [HP3 Hnone]; cbn beta iota; [|by eapply Hexc].
    destruct by_oid as [l|]; [by destruct (Hnone l)|].
    wp_step. apply wp_truthy_obj_none. cbn beta iota.
    (* the new document *)
    pose proof HP3 as (Hst3 & d3 & Hd3 & He3 & Ho3 & _).
    wp_step. eapply wp_setitem; [exact Hd3|].
    set (w4 := set_heap _ w3).
    assert (HP4 : pending true w4).
    { split; [done|]. eexists. split.
      - subst w4. wsimpl. apply list_lookup_insert_eq. by eapply lookup_lt_Some.
      - split; [by rewrite lookup_insert_ne|].
        split; [unfold get in *; by rewrite lookup_insert_ne|].
        intros _. apply lookup_insert_eq. }
    clearbody w4.
    eapply (wp_bind_rel ["email"; "entra_oid"; "type"] true (pending true));
      [exact HP4|apply pending_rel|apply rwp_deref|apply Hexc|].
    intros d4 w5 HP5.
    do 6 (eapply (wp_bind_rel ["email"; "entra_oid"; "type"] true (pending true));
          [eassumption|apply pending_rel
          |apply rwp_setdefault; cbn; intuition discriminate|apply Hexc|];
          intros _ ? ?).
    wp_step. eapply wp_mono; [by apply create_item_findable|].
    intros [created|err] wc Hf; cbn beta iota; [|exact Hf].
    apply wp_bind, wp_deref.
    destruct (heap wc !! created) as [c|]; [|by eapply findable_any].
    destruct (c !! "id"); wp_steps; by eapply findable_any. }
  destruct by_email as [existing|]; [destruct found|]; try exact Hrest.
  wp_steps. split.
  - destruct HP2 as (_ & d2 & ? & ? & ? & _). eauto.
  - intros u _. destruct (Hfound existing eq_refl) as (doc & _ & Hin).
    rewrite Hnn in Hin. destruct HP2 as [Hst2 _], HP as [Hst1 _].
    rewrite Hst2, <- Hst1. intros Hnil. by rewrite Hnil in Hin.
Qed.

End CreateThenFind.

Lemma wp_eq {A} (m m' : M A) Q w : m w = m' w -> wp m' Q w -> wp m Q w.
Proof. unfold wp. by intros ->. Qed.

Section RoundTrip.
Import AzureCachedUserService.

(** A look-up in the store for an address that some user has. *)
Lemma get_user_by_email_finds e2 n w :
  strip (lower e2) = n -> n <> "" ->
  Container.select_user "email" (VStr n) (store w) <> [] ->
  wp (CosmosDB.get_user_by_email (VStr e2))
     (fun r w' =>
        store w' = store w /\ user_cache w' = user_cache w
        /\ exists u d, r = Ok (Some u) /\ heap w' !! u = Some d
             /\ d !! "email" = Some (VStr n)) w.
Proof.
  intros Hn Hne Hsel.
  assert (He2 : normalized_email (VStr e2) = VStr n).
  { cbn. destruct (String.eqb_spec e2 ""); [|by rewrite Hn].
    subst e2. cbn in Hn. by subst n. }
  apply wp_get_user_by_email; [eauto|]. cbn zeta. rewrite He2.
  destruct (Container.select_user "email" (VStr n) (store w)) as [|doc rest] eqn:Hs;
    [done|].
  split; [done|]. split; [done|]. exists (List.length (heap w)), doc.
  split; [done|]. wsimpl. split; [by rewrite lookup_app_r, Nat.sub_diag by lia|].
  eapply select_user_email_In. rewrite Hs. by left.
Qed.

(** After [CosmosDB.create_user] has succeeded for a record with an
    address, a look-up by that address, in any case and with blanks
    around it, finds a user with the normalised address. *)
Theorem created_user_is_found now body d e e2 w u w1 :
  heap w !! body = Some d ->
  d !! "email" = Some (VStr e) ->
  strip (lower e) <> "" ->
  (truthy (get d "entra_oid") = true ->
   Container.select_user "entra_oid" (get d "entra_oid") (store w) = []) ->
  strip (lower e2) = strip (lower e) ->
  CosmosDB.create_user now body w = (Ok u, w1) ->
  exists u2 w2 d2,
    CosmosDB.get_user_by_email (VStr e2) w1 = (Ok (Some u2), w2)
    /\ heap w2 !! u2 = Some d2
    /\ d2 !! "email" = Some (VStr (strip (lower e)))
    /\ store w2 = store w1.
Proof.
  intros Hd He Hne Hoid He2 Hrun.
  assert (Hn : truthy (VStr (strip (lower e))) = true).
  { cbn. by destruct (String.eqb_spec (strip (lower e)) ""). }
  pose proof (create_user_findable now body (strip (lower e)) (get d "entra_oid") w
                (normalize_idem e) Hn Hoid d e Hd He eq_refl eq_refl) as Hwp.
  apply (wp_run _ _ _ _ _ Hrun) in Hwp as [_ Hsel]. specialize (Hsel u eq_refl).
  destruct (wp_elim _ _ _ (get_user_by_email_finds e2 _ w1 He2 Hne Hsel))
    as (r & w2 & Hrun2 & Hs & _ & u2 & d2 & -> & Hd2 & Hem).
  by exists u2, w2, d2.
Qed.

Definition alice_new : dict :=
  <["id" := VStr "u3"]> (<["email" := VStr " Alice@B.com"]> ∅).

Lemma created_user_is_found_witness :
  exists u2 w2 d2,
    CosmosDB.get_user_by_email (VStr "ALICE@b.com ")
      (CosmosDB.create_user 1000 0%nat (Examples.world_of [alice_new] [])).2
    = (Ok (Some u2), w2)
    /\ heap w2 !! u2 = Some d2
    /\ d2 !! "email" = Some (VStr (strip (lower " Alice@B.com")))
    /\ store w2 = store (CosmosDB.create_user 1000 0%nat
                           (Examples.world_of [alice_new] [])).2.
Proof.
  eapply (created_user_is_found 1000 0%nat alice_new " Alice@B.com" "ALICE@b.com "
            (Examples.world_of [alice_new] []) 1%nat).
  - reflexivity.
  - reflexivity.
  - vm_compute. discriminate.
  - intros _. reflexivity.
  - vm_compute. reflexivity.
  - vm_compute. reflexivity.
Defined.

(** What [create_user] of the cached service leaves behind. *)
Lemma cached_create_user_post now body d e w :
  heap w !! body = Some d ->
  d !! "email" = Some (VStr e) ->
  strip (lower e) <> "" ->
  (truthy (get d "entra_oid") = true ->
   Container.select_user "entra_oid" (get d "entra_oid") (store w) = []) ->
  wp (create_user now body)
     (fun r w1 => forall u, r = Ok u ->
        Container.select_user "email" (VStr (strip (lower e))) (store w1) <> []
        /\ user_cache w1 !! _get_cache_key "email" (strip (lower e)) = None) w.
Proof.
  intros Hd He Hne Hoid.
  assert (Hn : truthy (VStr (strip (lower e))) = true).
  { cbn. by destruct (String.eqb_spec (strip (lower e)) ""). }
  unfold create_user, _create_user_in_db.
  apply wp_try_except. wp_step. wp_step. wp_step. cbn beta iota.
  eapply wp_mono.
  { apply (create_user_findable now body (strip (lower e)) (get d "entra_oid")
             (set_cache_stats bump_database_queries w)
             (normalize_idem e) Hn Hoid d e Hd He eq_refl eq_refl). }
  intros [created|err] w1 [(d1 & Hd1 & He1 & Ho1) Hsel]; cbn beta iota.
  2:{ wp_steps. by intros u. }
  specialize (Hsel created eq_refl).
  wp_step. eapply wp_getitem; [exact Hd1|]. cbn beta iota.
  wp_step. eapply wp_getitem; [exact Hd1|]. cbn beta iota.
  assert (Hg : get d1 "email" = VStr (strip (lower e)))
    by (unfold get; by rewrite He1).
  rewrite Hg, Hn. unfold invalidate_user_cache. cbn [py_str].
  destruct (truthy (get d1 "entra_oid")); wp_steps; intros u _; wsimpl;
    (split; [done|]); rewrite ?lookup_delete_None; eauto using lookup_delete_eq.
Qed.

(** After [create_user] of the cached service has succeeded, a cached
    look-up by the address, in any case, finds the user: an entry that
    said "not found" before is gone. *)
Theorem cached_create_then_lookup now now' body d e e2 w u w1 :
  heap w !! body = Some d ->
  d !! "email" = Some (VStr e) ->
  strip (lower e) <> "" ->
  (truthy (get d "entra_oid") = true ->
   Container.select_user "entra_oid" (get d "entra_oid") (store w) = []) ->
  lower e2 = strip (lower e) ->
  create_user now body w = (Ok u, w1) ->
  exists u2 w2 d2,
    get_user_by_email now' (VStr e2) w1 = (Ok (Some u2), w2)
    /\ heap w2 !! u2 = Some d2
    /\ d2 !! "email" = Some (VStr (strip (lower e))).
Proof.
  intros Hd He Hne Hoid He2 Hrun.
  pose proof (cached_create_user_post now body d e w Hd He Hne Hoid) as Hwp.
  apply (wp_run _ _ _ _ _ Hrun) in Hwp. destruct (Hwp u eq_refl) as [Hsel Hkey].
  cut (wp (get_user_by_email now' (VStr e2))
         (fun r w2 => exists u2 d2, r = Ok (Some u2) /\ heap w2 !! u2 = Some d2
                      /\ d2 !! "email" = Some (VStr (strip (lower e)))) w1).
  { intros H. apply wp_elim in H as (r & w2 & Hr & u2 & d2 & -> & ? & ?).
    by exists u2, w2, d2. }
  assert (Hn2 : strip (lower e2) = strip (lower e))
    by (by rewrite He2, strip_idem).
  eapply wp_eq.
  { unfold get_user_by_email, as_str. unfold bind at 1, ret at 1. cbn zeta.
    rewrite He2. apply lookup_miss. intros x Hx. rewrite Hkey in Hx. discriminate. }
  unfold _fetch_user_by_email.
  wp_step. wp_step. cbn beta iota. wp_step. wp_step. cbn beta iota.
  wp_step. wp_step. wp_step. wp_step. cbn beta iota.
  eapply wp_mono;
    [apply (get_user_by_email_finds e2 (strip (lower e))); [done|done|exact Hsel]|].
  intros r w2 (_ & _ & u2 & d2 & -> & Hd2 & Hem). cbn beta iota.
  wp_steps. by exists u2, d2.
Qed.

(** A world where the cache still says that nobody has the address. *)
Definition stale_alice : world :=
  set_user_cache
    (fun c => <[_get_cache_key "email" "alice@b.com" := CacheEntry None 900 900]> c)
    (Examples.world_of [alice_new] []).

Lemma cached_create_then_lookup_witness :
  (get_user_by_email 1000 (VStr "ALICE@b.com") stale_alice).1 = Ok None
  /\ exists u2 w2 d2,
       get_user_by_email 1100 (VStr "ALICE@b.com")
         (create_user 1000 0%nat stale_alice).2 = (Ok (Some u2), w2)
       /\ heap w2 !! u2 = Some d2
       /\ d2 !! "email" = Some (VStr (strip (lower " Alice@B.com"))).
Proof.
  split; [vm_compute; reflexivity|].
  eapply (cached_create_then_lookup 1000 1100 0%nat alice_new " Alice@B.com"
            "ALICE@b.com" stale_alice 1%nat).
  - reflexivity.
  - reflexivity.
  - vm_compute. discriminate.
  - intros _. reflexivity.
  - vm_compute. reflexivity.
  - vm_compute. reflexivity.
Defined.

End RoundTrip.

Section ResolverFailures.
Import Auth.

(** ** How the resolvers fail *)

Lemma attempt_returns m w : exists o w', attempt m w = (Ok o, w').
Proof.
  unfold attempt, try_except, bind.
  destruct (m w) as [[user|e] w1]; [|by eexists _, _].
  destruct (truthy_obj user w1) as [[found|e] w2]; [|by eexists _, _].
  destruct user as [u|]; [destruct found|]; by eexists _, _.
Qed.

Lemma keeps_attempt {X} (f : world -> X) m : keeps f m -> keeps f (attempt m).
Proof.
  intros Hm. unfold attempt. keeps_go; try assumption.
  intros; apply keeps_truthy_obj.
Qed.

(** What [attempt] returns is a non-empty record. *)
Lemma attempt_truthy m w u w' :
  attempt m w = (Ok (Some u), w') ->
  exists d, heap w' !! u = Some d /\ dict_truthy d = true.
Proof.
  unfold attempt, try_except, bind.
  destruct (m w) as [[user|e] w1]; [|by intros [=]].
  destruct user as [u0|]; [|by intros [=]].
  unfold truthy_obj, bind, deref.
  destruct (heap w1 !! u0) as [d|] eqn:Hd; [|by intros [=]].
  unfold ret. destruct (dict_truthy d) eqn:Ht; intros [= <- <-]. eauto.
Qed.

Definition no_credentials : exn :=
  HTTPException 401 "Could not validate credentials".

(** [get_current_user_hybrid] only reads: the store is as it was,
    whatever the token; it returns a non-empty record or fails with
    401 "Could not validate credentials", and with nothing else. *)
Theorem hybrid_reads_only E cfg now token w :
  let r := get_current_user_hybrid E cfg now token w in
  store r.2 = store w
  /\ match r.1 with
     | Ok u => exists d, heap r.2 !! u = Some d /\ dict_truthy d = true
     | Raise e => e = no_credentials
     end.
Proof.
  intros r. split.
  - subst r. destruct (get_current_user_hybrid E cfg now token w) as [r w'] eqn:Hrun.
    cbn [snd]. eapply (keeps_run store); [|exact Hrun].
    unfold get_current_user_hybrid. keeps_go.
    + apply keeps_attempt. keeps_go.
      * apply keeps_verify_with. by intros ? ? (_ & ? & _).
      * intros; apply keeps_store_cached_by_entra_oid.
    + apply keeps_attempt. keeps_go.
      * apply keeps_legacy_decode.
      * intros; apply keeps_store_cached_by_email.
  - subst r.
    destruct (get_current_user_hybrid E cfg now token w) as [r w'] eqn:Hrun.
    cbn [fst snd]. revert Hrun.
    unfold get_current_user_hybrid. unfold bind at 1.
    match goal with |- context [attempt ?m w] =>
      destruct (attempt_returns m w) as (o & w1 & Hrun1);
      pose proof (attempt_truthy m w) as Ht1 end.
    rewrite Hrun1 in Ht1 |- *.
    destruct o as [u|]; [intros [= <- <-]; by apply Ht1|].
    unfold bind at 1.
    match goal with |- context [attempt ?m w1] =>
      destruct (attempt_returns m w1) as (o & w2 & Hrun2);
      pose proof (attempt_truthy m w1) as Ht2 end.
    rewrite Hrun2 in Ht2 |- *.
    destruct o as [u|]; [intros [= <- <-]; by apply Ht2|]. by intros [= <- <-].
Qed.

(** [get_current_user_logout_only] asks the store directly: neither the
    store nor the user-record cache changes, and it fails with
    401 "Could not validate credentials" only. *)
Theorem logout_only_reads_only E cfg now token w :
  let r := get_current_user_logout_only E cfg now token w in
  store r.2 = store w
  /\ user_cache r.2 = user_cache w
  /\ match r.1 with
     | Ok u => exists d, heap r.2 !! u = Some d /\ dict_truthy d = true
     | Raise e => e = no_credentials
     end.
Proof.
  intros r.
  assert (Hk : forall X (f : world -> X),
            (forall w w', only_jwks_changed w w' -> f w' = f w) ->
            (forall oid, keeps f (CosmosDB.get_user_by_entra_oid oid)) ->
            (forall e, keeps f (CosmosDB.get_user_by_email e)) ->
            keeps f (get_current_user_logout_only E cfg now token)).
  { intros X f Hj Ho He. unfold get_current_user_logout_only. keeps_go.
    - apply keeps_attempt. keeps_go.
      + by apply keeps_verify_with.
      + intros; apply Ho.
      + intros; apply keeps_truthy_obj.
      + intros; apply He.
    - apply keeps_attempt. keeps_go.
      + apply keeps_legacy_decode.
      + intros; apply He. }
  subst r. destruct (get_current_user_logout_only E cfg now token w) as [r w'] eqn:Hrun.
  cbn [fst snd]. split; [|split].
  - eapply (keeps_run store); [|exact Hrun]. apply Hk.
    + by intros ? ? (_ & ? & _).
    + apply keeps_store_get_user_by_entra_oid.
    + apply keeps_store_get_user_by_email.
  - eapply (keeps_run user_cache); [|exact Hrun]. apply Hk.
    + by intros ? ? (_ & _ & _ & ? & _).
    + apply keeps_cache_get_user_by_entra_oid.
    + apply keeps_cache_get_user_by_email.
  - revert Hrun. unfold get_current_user_logout_only. unfold bind at 1.
    match goal with |- context [attempt ?m w] =>
      destruct (attempt_returns m w) as (o & w1 & Hrun1);
      pose proof (attempt_truthy m w) as Ht1 end.
    rewrite Hrun1 in Ht1 |- *.
    destruct o as [u|]; [intros [= <- <-]; by apply Ht1|].
    unfold bind at 1.
    match goal with |- context [attempt ?m w1] =>
      destruct (attempt_returns m w1) as (o & w2 & Hrun2);
      pose proof (attempt_truthy m w1) as Ht2 end.
    rewrite Hrun2 in Ht2 |- *.
    destruct o as [u|]; [intros [= <- <-]; by apply Ht2|]. by intros [= <- <-].
Qed.

(** Every failure of [get_current_user_cached] is the same 401, also
    when the Entra half failed on creating the user (its 500 is dropped
    and the legacy half is tried). *)
Theorem cached_resolver_fails_with_401 E cfg now token w e w' :
  get_current_user_cached E cfg now token w = (Raise e, w') ->
  e = HTTPException 401 "Invalid authentication token".
Proof.
  unfold get_current_user_cached, try_except at 1.
  destruct (cached_entra_part E cfg now token w) as [[u|e1] w1]; [by intros [=]|].
  unfold cached_legacy_part, try_except.
  match goal with |- context [?m w1] =>
    match m with bind _ _ => destruct (m w1) as [[u|e2] w2] end end.
  - by intros [=].
  - unfold raise. by intros [= <- <-].
Qed.

Lemma cached_resolver_fails_with_401_witness :
  (get_current_user_cached Examples.E0 Examples.both (Examples.t0 + 100)
     "tok-k2" (Examples.world_at [] [] ∅)).1
  = Raise (HTTPException 401 "Invalid authentication token").
Proof.
  destruct (get_current_user_cached Examples.E0 Examples.both (Examples.t0 + 100)
              "tok-k2" (Examples.world_at [] [] ∅)) as [[u|e] w'] eqn:Hrun.
  - vm_compute in Hrun. discriminate.
  - cbn [fst]. f_equal.
    exact (cached_resolver_fails_with_401 _ _ _ _ _ _ _ Hrun).
Defined.

End ResolverFailures.

Section VerifyTokenOutcomes.
Import EntraAuthService.

(** The 401s that leave [verify_token]: those of the handlers for the
    JWT library's errors. *)
Definition is_jwt_401 (e : exn) : Prop :=
  e = HTTPException 401 "Token has expired"
  \/ e = HTTPException 401 "Invalid token audience"
  \/ e = HTTPException 401 "Invalid token issuer"
  \/ exists m, e = HTTPException 401 ("Token validation error: " ++ m).

(** [verify_token] returns the claims or raises an [HTTPException]: one
    of the four 401s of its handlers, or 500 "Internal authentication
    error" for anything else, its own 401s and the 503 of the key
    set included. *)
Theorem verify_token_failures E now token w e w' :
  verify_token E now token w = (Raise e, w') ->
  is_jwt_401 e \/ e = HTTPException 500 "Internal authentication error".
Proof.
  unfold verify_token, try_except.
  match goal with |- context [?m w] =>
    match m with bind _ _ => destruct (m w) as [[u|e1] w1] end end;
    [by intros [=]|].
  unfold is_jwt_401.
  destruct e1 as [| | | | | |[] m| |]; unfold raise; intros [= <- <-]; eauto 10.
Qed.

Lemma verify_token_failures_witness :
  exists e, (verify_token Examples.E0 (Examples.t0 + 100) "tok-k2"
               (Examples.world_at [] [] ∅)).1 = Raise e
    /\ (is_jwt_401 e \/ e = HTTPException 500 "Internal authentication error").
Proof.
  destruct (verify_token Examples.E0 (Examples.t0 + 100) "tok-k2"
              (Examples.world_at [] [] ∅)) as [[u|e] w'] eqn:Hrun.
  - vm_compute in Hrun. discriminate.
  - exists e. split; [reflexivity|].
    exact (verify_token_failures _ _ _ _ _ _ Hrun).
Defined.

End VerifyTokenOutcomes.

Section RoleUpdate.
Import UserManagementService.

(** ** Changing a role through the user-management service *)

(** The document that [update_user_role] writes back: the stored one
    without its password hash, with the new role twice and a new stamp. *)
Definition with_role (now : Z) (new_role : string) (doc : dict) : dict :=
  <["updated_at" := isoformat now]> (
  <["role" := VStr new_role]> (
  <["roles" := VList [VStr new_role]]> (
  delete "hashed_password" doc))).

Lemma has_id_doc_id id (d : dict) :
  Container.has_id id d = true -> Container.doc_id d = Some id.
Proof.
  unfold Container.has_id. destruct (Container.doc_id d) as [s|]; [|done].
  intros H. by apply String.eqb_eq in H as ->.
Qed.

Lemma doc_id_with_role now new_role doc :
  Container.doc_id (with_role now new_role doc) = Container.doc_id doc.
Proof. unfold Container.doc_id, with_role. by simplify_map_eq. Qed.

(** [update_user_role] replaces the stored document of the user by
    [with_role] of it, so the password hash of a legacy user is lost from
    the store; for an unknown id it raises [ValueError] and writes
    nothing. *)
Theorem update_user_role_rewrites_record now user_id new_role w :
  let r := update_user_role now user_id new_role w in
  match List.find (Container.has_id user_id) (store w) with
  | Some doc =>
      exists u, r.1 = Ok u
        /\ heap r.2 !! u = Some (with_role now new_role doc)
        /\ store r.2
           = Container.replace_doc user_id (with_role now new_role doc) (store w)
        /\ with_role now new_role doc !! "hashed_password" = None
  | None => r.1 = Raise (ValueError "User not found") /\ store r.2 = store w
  end.
Proof.
  intros r. subst r.
  cut (wp (update_user_role now user_id new_role)
         (fun r w' =>
            match List.find (Container.has_id user_id) (store w) with
            | Some doc =>
                exists u, r = Ok u
                  /\ heap w' !! u = Some (with_role now new_role doc)
                  /\ store w'
                     = Container.replace_doc user_id (with_role now new_role doc)
                         (store w)
                  /\ with_role now new_role doc !! "hashed_password" = None
            | None => r = Raise (ValueError "User not found") /\ store w' = store w
            end) w); [done|].
  unfold update_user_role, get_user, Container.read_item, Container.log.
  wp_steps. wsimpl.
  destruct (List.find (Container.has_id user_id) (store w)) as [doc|] eqn:Hfind.
  2:{ wp_steps. done. }
  apply find_some in Hfind as [Hin Hid].
  pose proof (has_id_doc_id _ _ Hid) as Hdoc.
  wp_steps.
  eapply wp_deref_some; [wsimpl; by rewrite lookup_app_r, Nat.sub_diag by lia|].
  cbn beta iota. wp_steps.
  set (l := List.length (heap w)).
  assert (Hne : delete "hashed_password" doc <> ∅).
  { intros He. unfold Container.doc_id in Hdoc.
    assert (H : delete "hashed_password" doc !! "id" = None)
      by (by rewrite He, lookup_empty).
    rewrite lookup_delete_ne in H by done. by rewrite H in Hdoc. }
  assert (Hset : forall k v d0 w0, heap w0 !! l = Some d0 ->
            heap (set_heap (fun h => <[l := <[k := v]> d0]> h) w0) !! l
            = Some (<[k := v]> d0)).
  { intros k v d0 w0 H0. wsimpl. apply list_lookup_insert_eq.
    by eapply lookup_lt_Some. }
  set (wA := set_heap _ (set_heap _ (set_store_log _ w))).
  assert (HA : heap wA !! l = Some (delete "hashed_password" doc)).
  { subst wA. wsimpl. apply list_lookup_insert_eq. rewrite length_app. cbn. lia. }
  assert (HsA : store wA = store w) by done.
  clearbody wA.
  eapply wp_truthy_obj_some; [exact HA|].
  unfold dict_truthy. rewrite bool_decide_eq_false_2 by done. cbn [negb].
  wp_step. eapply wp_setitem; [exact HA|].
  pose proof (Hset "roles" (VList [VStr new_role]) _ _ HA) as HB.
  set (wB := set_heap _ wA) in *.
  assert (HsB : store wB = store w) by done. clearbody wB.
  wp_step. eapply wp_setitem; [exact HB|].
  pose proof (Hset "role" (VStr new_role) _ _ HB) as HC.
  set (wC := set_heap _ wB) in *.
  assert (HsC : store wC = store w) by done. clearbody wC.
  unfold update_user.
  wp_step. eapply wp_setitem; [exact HC|].
  pose proof (Hset "updated_at" (isoformat now) _ _ HC) as HD.
  set (wD := set_heap _ wC) in *.
  assert (HsD : store wD = store w) by done. clearbody wD.
  fold (with_role now new_role doc) in HD.
  unfold Container.upsert_item, Container.log.
  wp_steps.
  eapply wp_deref_some; [wsimpl; exact HD|].
  cbn beta iota. wp_steps. wsimpl.
  rewrite doc_id_with_role, Hdoc, HsD.
  assert (Hex : existsb (Container.has_id user_id) (store w) = true)
    by (apply existsb_exists; eauto).
  rewrite Hex. wp_steps.
  eapply wp_deref_some;
    [wsimpl; apply lookup_app_l_Some; exact HD|].
  cbn beta iota.
  assert (Hidk : with_role now new_role doc !! "id" = doc !! "id")
    by (unfold with_role; by simplify_map_eq).
  unfold Container.doc_id in Hdoc. rewrite Hidk.
  destruct (doc !! "id") as [v|]; [|done].
  wp_steps. eexists. split; [done|]. wsimpl.
  split; [by rewrite lookup_app_r, Nat.sub_diag by lia|].
  split; [by rewrite HsD|]. unfold with_role. by simplify_map_eq.
Qed.

End RoleUpdate.

Section RoleChecks.
Import Auth.

(** ** Role checks *)

(** [role] is one of the roles of the list. *)
Definition has_role (l : list pyval) (role : string) : bool :=
  existsb (fun y => eq_str y role) l.

Lemma any_in_list required l w :
  any_in required (VList l) w = (Ok (existsb (has_role l) required), w).
Proof.
  induction required as [|role rest IH]; [done|].
  cbn [any_in existsb]. unfold bind, py_in, ret. fold (has_role l role).
  destruct (has_role l role); [done|]. exact IH.
Qed.

(** For a user whose roles are a list, [require_role_cached] lets the
    user through exactly when one of the required roles is in the list,
    and raises 403 otherwise; in particular it refuses everybody when no
    role is required, and refuses a user without a ["roles"] key. *)
Theorem require_role_cached_decides required user d l w :
  heap w !! user = Some d ->
  get_default d "roles" (VList []) = VList l ->
  require_role_cached required user w
  = (if existsb (has_role l) required
     then Ok user
     else Raise (HTTPException 403
                   ("User does not have required role. Required: "
                    ++ py_str (VList (map VStr required))
                    ++ ", User has: " ++ py_str (VList l))), w).
Proof.
  intros Hd Hl. unfold require_role_cached. unfold bind at 1, deref.
  rewrite Hd. cbn zeta. rewrite Hl. unfold bind. rewrite any_in_list.
  by destruct (existsb (has_role l) required).
Qed.

Lemma require_role_cached_decides_witness :
  require_role_cached ["admin"] 0%nat (Examples.world_of [Examples.alice] [])
  = (Ok 0%nat, Examples.world_of [Examples.alice] [])
  /\ require_role_cached [] 0%nat (Examples.world_of [Examples.alice] [])
     = (Raise (HTTPException 403
          "User does not have required role. Required: [], User has: ['admin']"),
        Examples.world_of [Examples.alice] []).
Proof.
  split.
  - apply (require_role_cached_decides ["admin"] 0%nat Examples.alice
             [VStr "admin"]); reflexivity.
  - apply (require_role_cached_decides [] 0%nat Examples.alice
             [VStr "admin"]); reflexivity.
Defined.

(** The check at the head of the admin endpoints accepts whoever
    [require_admin_cached] accepts. *)
Theorem admin_checks_agree_on_admins user w :
  require_admin_cached user w = (Ok user, w) ->
  admin_access_required user w = (Ok tt, w).
Proof.
  unfold require_admin_cached, require_role_cached, admin_access_required.
  unfold bind at 1 3, deref. destruct (heap w !! user) as [d|]; [|by intros [=]].
  cbn zeta. cbn [any_in]. unfold bind.
  destruct (py_in "admin" (get_default d "roles" (VList [])) w) as [[has|e] w1] eqn:Hin;
    [|by intros [=]].
  assert (w1 = w) as ->.
  { unfold py_in, ret, raise in Hin.
    destruct (get_default d "roles" (VList [])); by simplify_eq. }
  destruct has; [done|]. cbn. by intros [=].
Qed.

(** A stored administrator whose token gave them other roles. *)
Definition demoted_admin : dict :=
  <["id" := VStr "u5"]> (
  <["role" := VStr "admin"]> (
  <["roles" := VList [VStr "standard"]]> ∅)).

Lemma admin_checks_agree_on_admins_witness :
  admin_access_required 0%nat (Examples.world_of [Examples.alice] [])
  = (Ok tt, Examples.world_of [Examples.alice] []).
Proof.
  apply (admin_checks_agree_on_admins 0%nat (Examples.world_of [Examples.alice] [])).
  reflexivity.
Defined.

(** The converse fails: the endpoints also accept a user whose roles
    lack ["admin"] when the [role] field still says so. *)
Lemma admin_check_by_role_field :
  let w := Examples.world_of [demoted_admin] [] in
  admin_access_required 0%nat w = (Ok tt, w)
  /\ (require_admin_cached 0%nat w).1
     = Raise (HTTPException 403
         "User does not have required role. Required: ['admin'], User has: ['standard']").
Proof. by_evaluation. Qed.

End RoleChecks.

Section KeySetOutage.
Import EntraAuthService.

(** ** Verifying a token while the provider cannot be reached *)

(** The key set that [_fetch_jwks_with_cache] answers with when the
    provider does not answer and a set is cached: the cached one, however
    old. *)
Lemma fetch_jwks_falls_back E now w m :
  jwks_truthy (jwks_cache w) = true ->
  jwks_endpoint E (jwks_fetches w) = Raise (RequestException m) ->
  exists w', _fetch_jwks_with_cache E now w = (Ok (jwks_cache w), w').
Proof.
  intros Ht He. unfold _fetch_jwks_with_cache. unfold bind at 1, gets at 1.
  destruct (cache_is_valid now w); [by eexists|].
  unfold bind, gets, modify, try_except, lift. wsimpl. rewrite He. wsimpl.
  rewrite Ht. by eexists.
Qed.

(** A token whose key is in the cached set is verified as usual when
    the provider cannot be reached, also after the cached set has
    expired: the stale set is used. *)
Theorem verify_token_survives_outage E now token w h key m payload :
  get_unverified_header E token = Ok h ->
  truthy (get h "kid") = true ->
  jwks_truthy (jwks_cache w) = true ->
  find_key (jwks_cache w) (get h "kid") = Some key ->
  jwks_endpoint E (jwks_fetches w) = Raise (RequestException m) ->
  rs256_decode E token key = Ok payload ->
  (verify_token E now token w).1 = Ok payload.
Proof.
  intros Hh Hkid Ht Hkey He Hdec.
  destruct (fetch_jwks_falls_back E now w m Ht He) as (w' & Hf).
  unfold verify_token, try_except. unfold bind at 1, lift at 1. rewrite Hh, Hkid.
  cbn [negb]. unfold bind at 1. rewrite Hf, Hkey.
  unfold bind, ret, lift. by rewrite Hdec.
Qed.

(** The provider fails on every request. *)
Definition E_down : env := {|
  get_unverified_header := get_unverified_header Examples.E0;
  rs256_decode := rs256_decode Examples.E0;
  hs_decode := hs_decode Examples.E0;
  jwks_endpoint := fun _ => Raise (RequestException "connection refused")
|}.

Lemma verify_token_survives_outage_witness :
  (verify_token E_down (Examples.t0 + 5000) "tok-bob"
     (Examples.world_at [] [] ∅)).1 = Ok Examples.bob_claims.
Proof.
  apply (verify_token_survives_outage E_down (Examples.t0 + 5000) "tok-bob"
           (Examples.world_at [] [] ∅) (Examples.header_of "k1") Examples.key1
           "connection refused"); reflexivity.
Defined.

End KeySetOutage.

Section UserLocks.
Import Auth.

(** ** The registry of user-creation locks *)

(** Tasks and locks together. *)
Definition tasks_and_locks (w : world) : list task * gset string :=
  (tasks w, user_creation_locks w).

Ltac unfold_store_calls :=
  unfold CosmosDB.create_user, CosmosDB.get_user_by_email,
    CosmosDB.get_user_by_entra_oid, CosmosDB.first_or_none,
    Container.query_user, Container.replace_item, Container.create_item,
    Container.log, AzureCachedUserService.cache_user,
    setdefault, getitem, truthy_obj, as_str, len, first_item.

(** [get_or_create_entra_user] registers the lock of the subject and
    schedules its delayed removal exactly once, whether it returns or
    raises; once that task has run the subject has no lock left. *)
Theorem lock_is_registered_and_released now now' email s roles w :
  truthy (VStr s) = true ->
  let r := get_or_create_entra_user now (AzureCachedUserService.cache_user now)
             email (VStr s) roles w in
  tasks r.2 = (tasks w ++ [CleanupLockDelayed s])%list
  /\ user_creation_locks r.2 = {[s]} ∪ user_creation_locks w
  /\ user_creation_locks (run_task now' (CleanupLockDelayed s) r.2).2
     = user_creation_locks w ∖ {[s]}.
Proof.
  intros Hs r.
  cut (wp (get_or_create_entra_user now (AzureCachedUserService.cache_user now)
             email (VStr s) roles)
         (fun _ w' => tasks w' = (tasks w ++ [CleanupLockDelayed s])%list
                      /\ user_creation_locks w' = {[s]} ∪ user_creation_locks w) w).
  { unfold wp. fold r. intros [Ht Hl]. split; [done|]. split; [done|].
    cbn. rewrite Hl. apply set_eq. intros x.
    rewrite !elem_of_difference, elem_of_union. tauto. }
  unfold get_or_create_entra_user. rewrite Hs. unfold hashable.
  wp_step. wp_step. cbn beta iota. unfold get_or_create_user_lock.
  wp_step. wp_step. cbn beta iota.
  apply wp_try_finally.
  match goal with |- wp ?m _ ?w1 =>
    assert (Hk : keeps tasks_and_locks m);
      [|eapply wp_mono; [apply (Hk w1)|]] end.
  { unfold_store_calls. keeps_go. }
  intros r0 w2 Hkeep. cbn beta in Hkeep.
  unfold tasks_and_locks in Hkeep. wsimpl. injection Hkeep as Ht Hl.
  unfold AzureCachedUserService.create_task. wp_step. wsimpl.
  assert (Hgoal : (tasks w2 ++ [CleanupLockDelayed s])%list
                  = (tasks w ++ [CleanupLockDelayed s])%list
                  /\ user_creation_locks w2 = {[s]} ∪ user_creation_locks w)
    by (by rewrite Ht, Hl).
  by destruct r0.
Qed.

Lemma lock_is_registered_and_released_witness :
  let w := Examples.world_at [] [Examples.bob] ∅ in
  let r := get_or_create_entra_user 1000 (AzureCachedUserService.cache_user 1000)
             (VStr "bob@x.org") (VStr "oid-7") VNone w in
  tasks r.2 = (tasks w ++ [CleanupLockDelayed "oid-7"])%list
  /\ user_creation_locks r.2 = {["oid-7"]} ∪ user_creation_locks w
  /\ user_creation_locks (run_task 1005 (CleanupLockDelayed "oid-7") r.2).2
     = user_creation_locks w ∖ {["oid-7"]}.
Proof.
  apply (lock_is_registered_and_released 1000 1005 (VStr "bob@x.org") "oid-7"
           VNone (Examples.world_at [] [Examples.bob] ∅)).
  reflexivity.
Defined.

End UserLocks.

Section ExistingUser.
Import Auth.

(** ** [get_or_create_entra_user] for a user who is already stored *)

Lemma replace_doc_length id new docs :
  List.length (Container.replace_doc id new docs) = List.length docs.
Proof. unfold Container.replace_doc. apply length_map. Qed.

(** No document was created between [w] and [w']: the store has as many
    documents as before, and the calls added to the log are no creations. *)
Definition nothing_created (w w' : world) : Prop :=
  List.length (store w') = List.length (store w)
  /\ exists ops, store_log w' = (store_log w ++ ops)%list
       /\ ~ In OpCreate ops.

Lemma nothing_created_refl w : nothing_created w w.
Proof. split; [done|]. exists []. split; [by rewrite app_nil_r|intros []]. Qed.

(** The record returned stands for the stored document [doc]. *)
Definition stands_for (doc : dict) (r : res loc) (w : world) : Prop :=
  forall u, r = Ok u ->
    exists d, heap w !! u = Some d
      /\ d !! "id" = doc !! "id" /\ d !! "email" = doc !! "email".

(** When the store has a user with the address of the token,
    [get_or_create_entra_user] creates nothing, whatever else happens:
    it returns the first such user, after writing the subject to their
    document if they had none. *)
Theorem existing_user_is_not_duplicated now cache_user s oid roles doc rest w :
  truthy (VStr s) = true ->
  Container.select_user "email" (VStr (strip (lower s))) (store w) = doc :: rest ->
  let r := get_or_create_entra_user now cache_user (VStr s) oid roles w in
  nothing_created w r.2 /\ stands_for doc r.1 r.2.
Proof.
  intros Hs Hsel r.
  cut (wp (get_or_create_entra_user now cache_user (VStr s) oid roles)
         (fun r w' => nothing_created w w' /\ stands_for doc r w') w); [done|].
  clear r. unfold get_or_create_entra_user.
  assert (Hraise : forall e w', nothing_created w w' ->
            nothing_created w w' /\ stands_for doc (Raise e) w')
    by (intros e w' H; split; [done|by intros u]).
  (* the lock *)
  wp_step.
  apply (wp_mono _ (fun _ w' => w' = w)).
  { destruct (truthy oid); [unfold hashable; by destruct oid; wp_steps|].
    unfold as_str. by wp_steps. }
  intros [lock_identifier|e] ? ->; cbn beta iota;
    [|apply Hraise, nothing_created_refl].
  unfold get_or_create_user_lock. wp_step. wp_step. cbn beta iota.
  apply wp_try_finally.
  eapply (wp_mono _ (fun r w' => nothing_created w w' /\ stands_for doc r w')).
  2:{ intros r w' [Hn Hst]. unfold AzureCachedUserService.create_task. wp_step.
      assert (nothing_created w (set_tasks (fun ts => (ts ++ [CleanupLockDelayed lock_identifier])%list) w')
              /\ stands_for doc r (set_tasks (fun ts => (ts ++ [CleanupLockDelayed lock_identifier])%list) w'))
        by done.
      done. }
  (* the look-up by email finds [doc] *)
  assert (Hnorm : normalized_email (VStr s) = VStr (strip (lower s))).
  { cbn in Hs |- *. by destruct (String.eqb s ""). }
  wp_step. apply wp_get_user_by_email; [eauto|]. cbn zeta. wsimpl.
  rewrite Hnorm, Hsel.
  set (l := List.length (heap w)).
  set (w1 := set_heap _ _).
  assert (Hl : heap w1 !! l = Some doc)
    by (subst w1 l; wsimpl; by rewrite lookup_app_r, Nat.sub_diag by lia).
  assert (Hn1 : nothing_created w w1).
  { split; [done|]. subst w1. wsimpl. eexists. split; [done|].
    intros [H|[]]. discriminate H. }
  assert (Hst1 : store w1 = store w) by done.
  clearbody w1.
  wp_step. eapply wp_truthy_obj_some; [exact Hl|].
  rewrite (select_user_truthy _ _ _ _ _ Hsel). cbn beta iota.
  wp_step. eapply wp_getitem; [exact Hl|]. cbn beta iota.
  assert (Hdoc : stands_for doc (Ok l) w1).
  { intros u [= <-]. by exists doc. }
  destruct (negb (truthy (get doc "entra_oid")) && truthy oid)%bool;
    [|wp_steps; split; [exact Hn1|exact Hdoc]].
  (* the subject is written to the document *)
  assert (Hset : forall k v d0 w0, heap w0 !! l = Some d0 ->
            heap (set_heap (fun h => <[l := <[k := v]> d0]> h) w0) !! l
            = Some (<[k := v]> d0)).
  { intros k v d0 w0 H0. wsimpl. apply list_lookup_insert_eq.
    by eapply lookup_lt_Some. }
  wp_step. wp_step. eapply wp_setitem; [exact Hl|].
  pose proof (Hset "entra_oid" oid _ _ Hl) as Hl2.
  set (w2 := set_heap _ w1) in *.
  assert (Hn2 : nothing_created w w2) by done. clearbody w2.
  wp_step. eapply wp_setitem; [exact Hl2|].
  pose proof (Hset "auth_method" (VStr "entra") _ _ Hl2) as Hl3.
  set (w3 := set_heap _ w2) in *.
  assert (Hn3 : nothing_created w w3) by done. clearbody w3.
  wp_step. eapply wp_setitem; [exact Hl3|].
  pose proof (Hset "updated_at" (isoformat now) _ _ Hl3) as Hl4.
  set (w4 := set_heap _ w3) in *.
  assert (Hn4 : nothing_created w w4) by done. clearbody w4.
  set (d4 := <["updated_at" := isoformat now]> _) in *.
  assert (Hd4 : d4 !! "id" = doc !! "id" /\ d4 !! "email" = doc !! "email")
    by (subst d4; by simplify_map_eq).
  assert (Hlog : forall w', store_log w' = (store_log w4 ++ [OpReplace])%list ->
            List.length (store w') = List.length (store w4) ->
            nothing_created w w').
  { intros w' Hlg Hlen. destruct Hn4 as (Hlen4 & ops & Hops & Hnc).
    split; [congruence|]. exists (ops ++ [OpReplace])%list.
    split; [by rewrite Hlg, Hops, app_assoc|].
    rewrite in_app_iff. intros [H|[H|[]]]; [done|discriminate H]. }
  unfold Container.replace_item, Container.log.
  wp_steps. eapply wp_deref_some; [wsimpl; exact Hl4|]. cbn beta iota.
  wp_steps. eapply wp_deref_some; [wsimpl; exact Hl4|]. cbn beta iota.
  wp_steps. wsimpl.
  destruct (Container.doc_id d4) as [id|];
    [|wp_steps; apply Hraise, Hlog; done].
  destruct (existsb _ _); wp_steps; [|apply Hraise, Hlog; done].
  split.
  - apply Hlog; wsimpl; [done|apply replace_doc_length].
  - intros u [= <-]. exists d4. split; [|done]. wsimpl.
    by apply lookup_app_l_Some.
Qed.

Lemma existing_user_is_not_duplicated_witness :
  let w := Examples.world_at [] [Examples.alice] ∅ in
  let r := get_or_create_entra_user 1000 (AzureCachedUserService.cache_user 1000)
             (VStr "A@b.com") (VStr "abc123") VNone w in
  nothing_created w r.2 /\ stands_for Examples.alice r.1 r.2.
Proof.
  apply (existing_user_is_not_duplicated 1000
           (AzureCachedUserService.cache_user 1000) "A@b.com" (VStr "abc123")
           VNone Examples.alice [] (Examples.world_at [] [Examples.alice] ∅));
    reflexivity.
Defined.

End ExistingUser.

Section CacheEviction.
Import AzureCachedUserService.

(** [x] is not newer than [y]. *)
Definition not_newer (x y : string * cache_entry) : Prop :=
  ce_timestamp (snd x) <= ce_timestamp (snd y).

Lemma insert_by_timestamp_sorted x l :
  StronglySorted not_newer l -> StronglySorted not_newer (insert_by_timestamp x l).
Proof.
  induction 1 as [|y l Hs IH Hall]; cbn.
  - by repeat constructor.
  - destruct (Z.ltb_spec (ce_timestamp y.2) (ce_timestamp x.2)) as [Hlt|Hge].
    + constructor; [done|].
      rewrite insert_by_timestamp_perm. constructor; [|done].
      unfold not_newer. lia.
    + constructor; [by constructor|]. constructor; [done|].
      eapply Forall_impl; [exact Hall|]. unfold not_newer. intros z Hz. lia.
Qed.

Lemma sorted_by_timestamp_sorted items :
  StronglySorted not_newer (sorted_by_timestamp items).
Proof.
  unfold sorted_by_timestamp. induction items as [|x l IH]; cbn.
  - constructor.
  - by apply insert_by_timestamp_sorted.
Qed.

(** The size limit evicts the oldest: an item that was not expired and
    whose key is gone after the clean-up is not newer than any item
    that is left. *)
Theorem cleanup_evicts_oldest now items k e k' e' :
  NoDup (keys items) ->
  In (k, e) (_cleanup_expired_cache now items).1 ->
  In (k', e') items -> is_expired now e' = false ->
  ~ In k' (keys (_cleanup_expired_cache now items).1) ->
  ce_timestamp e' <= ce_timestamp e.
Proof.
  intros Hnd. unfold _cleanup_expired_cache. cbn zeta.
  set (expired_keys := map fst _).
  set (items1 := del_keys expired_keys items).
  intros Hkept Hin Hfresh Hgone.
  assert (Hin1 : In (k', e') items1).
  { apply del_keys_In. split; [done|]. cbn [fst]. intros Hk.
    subst expired_keys. apply list_elem_of_fmap in Hk as ([k2 e2] & Hk2 & Hx).
    cbn in Hk2. subst k2. apply list_elem_of_In, filter_In in Hx as [Hx He2].
    cbn in He2.
    assert (e' = e2).
    { eapply NoDup_keys_item; [exact Hnd| |]; by apply list_elem_of_In. }
    congruence. }
  assert (Hnd1 : NoDup (keys items1)) by (by apply del_keys_NoDup).
  destruct (_ <? _)%nat; cbn [fst] in *.
  2:{ destruct Hgone. apply (in_map fst _ _ Hin1). }
  set (excess := (List.length items1 - Z.to_nat max_cache_size)%nat) in *.
  set (sorted := sorted_by_timestamp items1) in *.
  assert (Hperm : sorted ≡ₚ items1) by apply sorted_by_timestamp_perm.
  apply del_keys_In in Hkept as [Hk1 Hkv]. cbn [fst] in Hkv.
  (* the evicted item is among the first [excess] of the sorted list *)
  assert (Hv : (k', e') ∈ take excess sorted).
  { destruct (decide (k' ∈ map fst (take excess sorted))) as [Hk'|Hk'].
    - apply list_elem_of_fmap in Hk' as ([k2 e2] & Hk2 & Hx). cbn in Hk2. subst k2.
      assert (e' = e2); [|by subst].
      eapply NoDup_keys_item; [exact Hnd1|by apply list_elem_of_In|].
      rewrite <- Hperm. by eapply subseteq_take.
    - destruct Hgone. apply (in_map fst _ (k', e')). apply del_keys_In. by split. }
  (* the item left is among the others *)
  assert (Hd : (k, e) ∈ drop excess sorted).
  { assert (Hs : (k, e) ∈ sorted) by (rewrite Hperm; by apply list_elem_of_In).
    rewrite <- (take_drop excess sorted) in Hs.
    apply elem_of_app in Hs as [Hs|Hs]; [|done].
    destruct Hkv. apply list_elem_of_fmap. by exists (k, e). }
  pose proof (sorted_by_timestamp_sorted items1) as Hsorted. fold sorted in Hsorted.
  rewrite <- (take_drop excess sorted) in Hsorted.
  exact (StronglySorted_app_1_elem_of _ _ _ _ _ Hsorted Hv Hd).
Qed.

(** The keys are pairwise distinct. *)
Fixpoint distinct (ks : list string) : bool :=
  match ks with
  | [] => true
  | k :: rest => (negb (existsb (String.eqb k) rest) && distinct rest)%bool
  end.

Lemma distinct_NoDup ks : distinct ks = true -> NoDup ks.
Proof.
  induction ks as [|k ks IH]; cbn; [constructor|].
  intros [Hk Hd]%andb_true_iff. apply NoDup_cons. split; [|by apply IH].
  rewrite <- existsb_eqb. by destruct (existsb _ _).
Qed.

Lemma existsb_not_In k ks : existsb (String.eqb k) ks = false -> ~ In k ks.
Proof.
  intros H Hin. apply list_elem_of_In, existsb_eqb in Hin. congruence.
Qed.

(** One item more than the cache may hold, none of them expired at
    1000; the first is the oldest. *)
Definition full_cache : cache_items :=
  map (fun i => ("user_id:" ++ pretty i, CacheEntry None (200 + Z.of_nat i) 900))
      (seq 0 2001).

Lemma cleanup_evicts_oldest_witness :
  List.length (_cleanup_expired_cache 1000 full_cache).1 = 2000%nat
  /\ ce_timestamp (CacheEntry None 200 900) <= ce_timestamp (CacheEntry None 201 900).
Proof.
  split; [vm_compute; reflexivity|].
  apply (cleanup_evicts_oldest 1000 full_cache
           "user_id:1" (CacheEntry None 201 900)
           "user_id:0" (CacheEntry None 200 900)).
  - apply distinct_NoDup. vm_compute. reflexivity.
  - vm_compute. left. reflexivity.
  - vm_compute. left. reflexivity.
  - reflexivity.
  - apply existsb_not_In. vm_compute. reflexivity.
Defined.

End CacheEviction.

Section KeySetRequests.
Import EntraAuthService.

(** ** Requests to the key endpoint *)

(** One call of [_fetch_jwks_with_cache]: nothing is sent and nothing
    changes while the cached set is valid; otherwise one request is
    sent. *)
Lemma fetch_jwks_requests E now w :
  let r := _fetch_jwks_with_cache E now w in
  (cache_is_valid now w = true -> r = (Ok (jwks_cache w), w))
  /\ (cache_is_valid now w = false -> jwks_fetches r.2 = S (jwks_fetches w)).
Proof.
  intros r. subst r. unfold _fetch_jwks_with_cache.
  unfold bind, gets, modify, try_except, lift, ret, raise.
  destruct (cache_is_valid now w); split; intros Hc; try discriminate Hc.
  - reflexivity.
  - wsimpl. destruct (jwks_endpoint E (jwks_fetches w)) as [doc|e]; [done|].
    destruct e; try done. by destruct (jwks_truthy _).
Qed.

Lemma fetch_jwks_at_most_one E now w :
  (jwks_fetches w <= jwks_fetches (_fetch_jwks_with_cache E now w).2
   <= S (jwks_fetches w))%nat.
Proof.
  destruct (fetch_jwks_requests E now w) as [Hv Hn].
  destruct (cache_is_valid now w).
  - rewrite Hv by done. cbn. lia.
  - rewrite Hn by done. lia.
Qed.

(** The call that follows a reset of the time stamp: the cached set is
    taken as expired, so the provider is asked. *)
Lemma forced_fetch E now w :
  jwks_cache_ttl <= now ->
  let w0 := set_jwks_fetches S (set_jwks (jwks_cache w) 0 w) in
  _fetch_jwks_with_cache E now (set_jwks (jwks_cache w) 0 w)
  = match jwks_endpoint E (jwks_fetches w) with
    | Ok fresh => (Ok fresh, set_jwks fresh now w0)
    | Raise (RequestException m) =>
        (if jwks_truthy (jwks_cache w) then Ok (jwks_cache w)
         else Raise (HTTPException 503
                       ("Unable to fetch JWKS from Azure: " ++ m)), w0)
    | Raise e => (Raise e, w0)
    end.
Proof.
  intros Hnow w0. subst w0. unfold _fetch_jwks_with_cache.
  unfold bind at 1, gets at 1. unfold cache_is_valid. wsimpl.
  replace (now - 0 <? jwks_cache_ttl) with false
    by (symmetry; apply Z.ltb_ge; lia).
  rewrite andb_false_r.
  unfold bind, gets, modify, try_except, lift, ret, raise. wsimpl.
  destruct (jwks_endpoint E (jwks_fetches w)) as [doc|e]; [done|].
  destruct e; try done. by destruct (jwks_truthy _).
Qed.

(** [verify_token] sends at most two requests to the key endpoint, and
    none, leaving the cached set as it is, while that set is valid and
    holds the key of the token. *)
Theorem verify_token_requests E now token w :
  let r := verify_token E now token w in
  (jwks_fetches w <= jwks_fetches r.2 <= jwks_fetches w + 2)%nat
  /\ (forall h key,
        get_unverified_header E token = Ok h ->
        cache_is_valid now w = true ->
        find_key (jwks_cache w) (get h "kid") = Some key ->
        r.2 = w).
Proof.
  intros r. subst r. split.
  - unfold verify_token, try_except.
    assert (Hh : forall (e : exn) w',
      (match e with
       | PyJWTError ExpiredSignatureError _ =>
           raise (HTTPException 401 "Token has expired")
       | PyJWTError InvalidAudienceError _ =>
           raise (HTTPException 401 "Invalid token audience")
       | PyJWTError InvalidIssuerError _ =>
           raise (HTTPException 401 "Invalid token issuer")
       | PyJWTError OtherPyJWTError m =>
           raise (HTTPException 401 ("Token validation error: " ++ m))
       | _ => raise (HTTPException 500 "Internal authentication error")
       end : M dict) w' = (Raise match e with
       | PyJWTError ExpiredSignatureError _ => HTTPException 401 "Token has expired"
       | PyJWTError InvalidAudienceError _ => HTTPException 401 "Invalid token audience"
       | PyJWTError InvalidIssuerError _ => HTTPException 401 "Invalid token issuer"
       | PyJWTError OtherPyJWTError m =>
           HTTPException 401 ("Token validation error: " ++ m)
       | _ => HTTPException 500 "Internal authentication error"
       end, w')).
    { intros e w'. destruct e as [| | | | | |[] m| |]; reflexivity. }
    match goal with |- context [match ?m w with _ => _ end] =>
      cut (forall r w', m w = (r, w') ->
             (jwks_fetches w <= jwks_fetches w' <= jwks_fetches w + 2)%nat);
        [intros Hcut; specialize (Hcut (m w).1 (m w).2);
         destruct (m w) as [[p|e] w']; [by apply Hcut|rewrite Hh; by apply Hcut]|]
    end.
    intros r w'. unfold bind at 1, lift at 1.
    destruct (get_unverified_header E token) as [h|e];
      [|intros [= <- <-]; lia].
    destruct (negb (truthy (get h "kid"))); [intros [= <- <-]; lia|].
    unfold bind at 1.
    pose proof (fetch_jwks_at_most_one E now w) as H1.
    destruct (_fetch_jwks_with_cache E now w) as [[jwks|e] w1]; cbn [snd] in H1;
      [|intros [= <- <-]; lia].
    unfold bind at 1.
    destruct (find_key jwks (get h "kid")) as [key|].
    { unfold ret, lift. intros [= <- <-]. lia. }
    unfold bind at 1, gets at 1. unfold bind at 1, modify at 1. unfold bind at 1.
    pose proof (fetch_jwks_at_most_one E now (set_jwks (jwks_cache w1) 0 w1)) as H2.
    destruct (_fetch_jwks_with_cache E now (set_jwks (jwks_cache w1) 0 w1))
      as [[jwks2|e] w2]; cbn [snd] in H2; wsimpl; [|intros [= <- <-]; lia].
    destruct (find_key jwks2 (get h "kid")) as [key|].
    + unfold ret, lift. intros [= <- <-]. lia.
    + intros [= <- <-]. lia.
  - intros h key Hh Hv Hk.
    destruct (fetch_jwks_requests E now w) as [Hf _]. specialize (Hf Hv).
    unfold verify_token, try_except. unfold bind at 1, lift at 1. rewrite Hh.
    destruct (negb (truthy (get h "kid"))); [done|].
    unfold bind at 1. cbv zeta in Hf. rewrite Hf, Hk.
    unfold bind, ret, lift.
    destruct (rs256_decode E token key) as [p|e]; [done|].
    by destruct e as [| | | | | |[] m| |].
Qed.

(** After a key rotation: the cached set is valid but lacks the key of
    the token, the provider serves a set that has it. [verify_token]
    fetches the set again, once, keeps it as the cached set of the
    moment, and verifies the token with the new key. *)
Theorem verify_token_follows_key_rotation E now token w h key fresh payload :
  get_unverified_header E token = Ok h ->
  truthy (get h "kid") = true ->
  cache_is_valid now w = true ->
  find_key (jwks_cache w) (get h "kid") = None ->
  jwks_cache_ttl <= now ->
  jwks_endpoint E (jwks_fetches w) = Ok fresh ->
  find_key fresh (get h "kid") = Some key ->
  rs256_decode E token key = Ok payload ->
  let r := verify_token E now token w in
  r.1 = Ok payload
  /\ jwks_cache r.2 = fresh /\ jwks_cache_timestamp r.2 = now
  /\ jwks_fetches r.2 = S (jwks_fetches w).
Proof.
  intros Hh Hkid Hv Hk Hnow He Hk2 Hdec r.
  assert (Hrun : r = (Ok payload,
            set_jwks fresh now
              (set_jwks_fetches S (set_jwks (jwks_cache w) 0 w))));
    [|by rewrite Hrun].
  subst r.
  destruct (fetch_jwks_requests E now w) as [Hf _]. specialize (Hf Hv).
  cbv zeta in Hf.
  unfold verify_token, try_except. unfold bind at 1, lift at 1. rewrite Hh, Hkid.
  cbn [negb]. unfold bind at 1. rewrite Hf. unfold bind at 1. rewrite Hk.
  unfold bind at 1, gets at 1. unfold bind at 1, modify at 1. unfold bind at 1.
  rewrite (forced_fetch E now w Hnow), He. cbv zeta.
  unfold bind, lift, ret. by rewrite Hk2, Hdec.
Qed.

(** The provider after a rotation: it serves the key ["k2"], and the
    token ["tok-k2"] is signed with it. *)
Definition key2 : dict := <["kid" := VStr "k2"]> (<["kty" := VStr "RSA"]> ∅).
Definition jwks2 : jwks_doc := {["keys" := [Examples.key1; key2]]}.
Definition E_rotated : env := {|
  get_unverified_header := get_unverified_header Examples.E0;
  rs256_decode := fun token key =>
    if (String.eqb token "tok-k2" && pyval_eqb (get key "kid") (VStr "k2"))%bool
    then Ok Examples.bob_claims
    else rs256_decode Examples.E0 token key;
  hs_decode := hs_decode Examples.E0;
  jwks_endpoint := fun _ => Ok jwks2
|}.

Lemma verify_token_follows_key_rotation_witness :
  let r := verify_token E_rotated (Examples.t0 + 100) "tok-k2"
             (Examples.world_at [] [] ∅) in
  r.1 = Ok Examples.bob_claims
  /\ jwks_cache r.2 = jwks2 /\ jwks_cache_timestamp r.2 = Examples.t0 + 100
  /\ jwks_fetches r.2 = S (jwks_fetches (Examples.world_at [] [] ∅)).
Proof.
  apply (verify_token_follows_key_rotation E_rotated (Examples.t0 + 100) "tok-k2"
           (Examples.world_at [] [] ∅) (Examples.header_of "k2") key2 jwks2);
    try reflexivity.
  vm_compute. discriminate.
Defined.

(** [force_refresh_jwks] asks the provider, once, whatever the age of
    the cached set. A set that arrives replaces the cached one. When
    the request fails, the cached set is returned if there is one, and
    its time stamp stays at 0: it is expired for every later call. *)
Theorem force_refresh_asks_provider E now w :
  jwks_cache_ttl <= now ->
  let r := force_refresh_jwks E now w in
  jwks_fetches r.2 = S (jwks_fetches w)
  /\ match jwks_endpoint E (jwks_fetches w) with
     | Ok fresh =>
         r.1 = Ok fresh /\ jwks_cache r.2 = fresh /\ jwks_cache_timestamp r.2 = now
     | Raise (RequestException m) =>
         jwks_cache r.2 = jwks_cache w
         /\ jwks_cache_timestamp r.2 = 0
         /\ (forall later, jwks_cache_ttl <= later -> cache_is_valid later r.2 = false)
         /\ r.1 = (if jwks_truthy (jwks_cache w) then Ok (jwks_cache w)
                   else Raise (HTTPException 503
                                 ("Unable to fetch JWKS from Azure: " ++ m)))
     | Raise e => r.1 = Raise e
     end.
Proof.
  intros Hnow r. subst r.
  assert (Hlater : forall w', jwks_cache_timestamp w' = 0 ->
            forall later, jwks_cache_ttl <= later -> cache_is_valid later w' = false).
  { intros w' Hts later Hl. unfold cache_is_valid. rewrite Hts.
    replace (later - 0 <? jwks_cache_ttl) with false
      by (symmetry; apply Z.ltb_ge; lia).
    apply andb_false_r. }
  destruct (force_refresh_jwks E now w) as [r w'] eqn:Hrun. cbn [fst snd].
  revert Hrun. unfold force_refresh_jwks.
  unfold bind at 1, gets at 1. unfold bind at 1, modify at 1.
  rewrite (forced_fetch E now w Hnow). cbv zeta.
  destruct (jwks_endpoint E (jwks_fetches w)) as [doc|e];
    [by intros [= <- <-]|].
  destruct e; try by intros [= <- <-].
  intros [= <- <-]. wsimpl. repeat split. by apply Hlater.
Qed.

Lemma force_refresh_asks_provider_witness :
  let w := Examples.world_at [] [] ∅ in
  let r := force_refresh_jwks E_rotated (Examples.t0 + 100) w in
  jwks_fetches r.2 = S (jwks_fetches w)
  /\ r.1 = Ok jwks2 /\ jwks_cache r.2 = jwks2
  /\ jwks_cache_timestamp r.2 = Examples.t0 + 100.
Proof.
  apply (force_refresh_asks_provider E_rotated (Examples.t0 + 100)
           (Examples.world_at [] [] ∅)).
  vm_compute. discriminate.
Defined.

End KeySetRequests.
